(* ===== verification/_CoqProject ===== *)
-Q . S2P
Prelude.v
JsString.v
Glob.v
Routes.v
Tailwind.v
ChartRegistry.v
Scan.v
JsValue.v
Json.v
JsonFacts.v
Normalizer.v
Handlers.v
Secrets.v
Client.v
Chat.v
Assistant.v
NetworkPage.v
SchoolDashboard.v
Charts.v
Landing.v
