(* ===== verification/Prelude.v ===== *)
(** * EduNet Optimizer: a verification development

    The repository is a Next.js dashboard ("EduNet Optimizer").  Its server
    part is a set of route handlers under [src/app/api/*/route.js] that build
    a prompt, send it to a generative-language provider and reshape the
    reply; its client part is a few React components under [src/app/] that
    call those handlers and keep the replies in component state.

    How the parts interact:
      client component --fetch--> route handler --prompt--> provider
      provider --completion text--> normaliser --JSON--> client state.

    Library layout (one file per component, in dependency order):

    - [Prelude] (this file): JavaScript strings as lists of UTF-16 code
      units ([jstr] = [list N]), literals [js "..."], the shared list
      lemmas (prefixes, [take_while]/[drop_while]), a small state monad
      with its notation in [js_scope], the hint databases [js] and [js_rw]
      and the tactics of the development.
    - [JsString]: the String.prototype built-ins the code calls, written
      from the ECMAScript algorithms: [split] with a string separator,
      [replace] with a global literal pattern ([replace_all]), ASCII
      [toLowerCase] on word characters, [trim], and the markup stripping
      chain [.replace(/\*\*/g, "").replace(/\*/g, "")] of
      [src/app/api/ai-tutor/route.js] and [src/app/api/gemini/route.js].
      Theorems: stripping is the filter of ['*'] (so idempotent); split
      always returns a non-empty list, [join] undoes it, and a global
      literal [replace] is [split] then [join].
    - [Glob]: the glob syntax and matching of the Tailwind [content]
      option (fast-glob / micromatch): segments, ["**"], ['*'], brace
      sets, names starting with ['.'] hidden.  Lemmas: the executable
      matcher decides an inductive meaning of patterns, and the
      inversion of the patterns [dir/**/*.{...}] the configuration writes.
    - [Routes]: the Next.js App Router over the project's files, as
      paths from the project root [src/] (the folder that holds [app/]
      and the Tailwind configuration): the URL of each page and route
      file, the methods each route exports, the URL and method of every
      client request, and [dispatch] with 404 and 405 (a lemma checks
      that every client request reaches the handler its page is composed
      with in the other files).
    - [Tailwind]: [src/tailwind.config.mjs] as data and the files its
      globs scan from the project root [src/].  Theorem: a path is
      scanned exactly when it lies under [app/] or [components/] in
      visible directories and its visible name ends in [.js], [.ts],
      [.jsx] or [.tsx]; the project has no [components/] folder.
    - [ChartRegistry]: the global Chart.js registry: what each module
      registers, the charts it renders with their options, the modules
      each page loads and what each chart type and option needs.
      Lemma: every chart is created without a missing element, and
      the only plugin missing anywhere is [Filler], which the progress
      chart's [fill: true] needs.
    - [Scan]: the three regular expressions of
      [formatNetworkResponse] ([src/app/api/gemini/route.js] lines 36-38)
      as left-most scanners written from the backtracking semantics of
      ECMAScript [RegExpBuiltinExec]: the case-insensitive
      [\[SEVERITY: (\w+)\]] and the case-sensitive
      [Predictions: (.*?)(?=\n|$)] / [Recommendations: ...].
      Theorems: soundness (a match is a real occurrence with the captured
      group), left-most-ness, completeness (an occurrence is found).
    - [Normalizer]: [formatNetworkResponse], [generateMockTimeline], the
      colour and emoji tables of the gemini handler.  The randomness
      ([Math.random]) is an explicit stream of draws threaded through a
      state monad; the clock ([new Date().toISOString()]) is an input.
      Theorems: the defaults of every field, the severity rules, the
      fixed shape and bounds of the placeholder data.
    - [JsValue]: the JavaScript values the code reads and writes (the
      results of [JSON.parse], object literals with their own keys in
      creation order, [Object.prototype] and its methods), property reads
      with the prototype fall-through, destructuring, ToString in template
      literals, ToBoolean and [||]; the interfaces [NumberFormat]
      (Number::toString) and [JsonCodec] ([JSON.parse] / [JSON.stringify]).
    - [Json]: [JSON.stringify] and [JSON.parse] from ECMA-262, the parser
      with fuel.  Lemma: the round trip [JSON.parse(JSON.stringify(v))]
      gives the normal form of [v] for every value with integer numbers
      and distinct, non-index keys (the client models rely on it).
    - [JsonFacts]: what the bounded parser consumes (each call returns a
      suffix of its input, strictly shorter where it reads a token), the
      stability of its result under more fuel, and the type of what it
      returns.  Lemmas: [2 * length text + 2] units of fuel are enough
      for every text (termination: any larger amount gives the same
      result), and every parsed value is a JSON value in normal form.
    - [Handlers]: the seven route handlers as functions from a request
      body to an [Outcome] (a reply or a rejection of the handler), with
      [Math.random] threaded as a stream and the provider and the external
      insights API as interfaces ([Provider], [InsightsApi]), so every
      handler theorem holds for every provider; each error path is proved
      (for [/api/gemini]: the rejection condition, the 200 reply built
      from the provider's completion of the analyst prompt, and the 500
      envelope of each failure).
    - [Secrets]: the key and model each [GoogleGenerativeAI] client is
      built with, and the upstream request of [/api/insights].  Theorem:
      that route sends the Google key as a [Bearer] token to
      [api.gemini.com] ("Bearer undefined" when the variable is unset).
    - [Client]: what [fetch] settles with ([HttpResult]), the reply a
      handler's outcome is sent as ([serve]), [response.json()],
      [response.ok], and [react_text], what React renders for a value
      placed as a child ([{msg.content}]): text for strings and numbers,
      nothing for [null], [undefined] and booleans, a throw for objects.
    - [Chat]: the chat page [src/app/chatbot/page.js] as a state machine:
      one event per handler run up to its next [await], requests in
      flight settled in any order, a [reachable] relation and invariants by
      rule induction; its render ([chat_render]) and its scroll effect
      ([screen_step], the layout's height a parameter).  Theorems: the
      typing flag is only on with a request in flight (but the first answer
      clears it while another is pending); turns balance; answers come in
      settlement order; liveness: once every request in flight settles,
      in any order, every question has its answer and the indicator is
      off.  Composed with the tutor route ([served], the closed system of
      page and route): the question reaches the prompt unchanged, a
      provider failure shows an undefined answer, and every reachable
      conversation renders.
    - [Assistant]: the widget [src/app/components/AiAssistant.jsx] with
      its disabled button (at most one request), end to end with
      [/api/gemini]: it never shows an answer, since it reads
      [data.response], which that route never sends.
    - [NetworkPage]: [src/app/network/page.js], whose [setInterval] is the
      setter of a state variable, so that it fetches twice on mount and
      never polls (proved for every run).  Its four parallel arrays refine
      a list of points ([points], a data refinement with the invariant
      [aligned]): every step leaves the points alone or appends the
      response's point, and the pie and bar data are the specification's
      views.  Its render ([net_render]) with the six charts' options and
      data ([net_charts]): every dataset has one value per label, and the
      page crashes exactly when a latest metric is not a number
      ([toFixed]) or the analysis is an object.
    - [SchoolDashboard]: [src/app/layout/page.jsx] with its effects on
      [networkData], the downtime alert (ToNumber and [>]), the theme kept
      in [localStorage] (an invariant) and its render ([dash_render]).
    - [Charts]: the chart components and the loading timer of
      [Dashboard.jsx], with the charts' view of [/api/dashboard-data]
      computed end to end and shown to lie on each chart's fixed y axis.
      Theorem: the charts are mounted, and fetch, only after the timer.
    - [Landing]: [src/app/page.js] ([Hero] and [Dashboard], which renders
      the [AiAssistant] widget) as the product of the Dashboard machine
      of [Charts] and the widget of [Assistant], one event addressed to
      one component; [src/app/layout.js] (metadata, [RootLayout]) and
      [Hero.jsx], with what each part shows.  Lemmas: every reachable
      state of the page projects to reachable states of both components;
      the hero links reach pages, [/layout] is unlinked, and the heading
      misspells the site title.

    Fuel and bounds.  The JSON parser takes [2 * length text + 2] units
    of fuel: [JsonFacts] proves that every call consumes input (each
    nesting level reads at least one character, whitespace and tokens
    are consumed before any recursive call), so the parse of any text
    finishes within that bound and more fuel changes nothing.  Event
    sequences are finite lists: a property of all runs is stated on
    [reachable] and proved by induction on it.  Time (the 1500 ms timer,
    [toLocaleTimeString]) is an event or an input.

    Numbers.  JavaScript numbers that the code only passes around are kept
    as exact rationals [Q]; every finite double is such a rational, so
    the model is exact where no arithmetic rounding happens.  The draws of
    [Math.random()] are abstract rationals in [[0,1)]; the rounding of the
    double product [Math.random() * k] is not modelled.

    Strings.  A JavaScript string is a sequence of UTF-16 code units; the
    emoji of the code are written as their surrogate pairs, so lengths and
    comparisons are those of the JavaScript program.

    Rendering is modelled as the data a page hands to React (texts,
    bubbles, cards, chart series) and where React or a called method
    throws; class names, layout and animations are not.  Not modelled:
    the chart library's drawing, the framer-motion options, the CSS
    that Tailwind generates from the class names, [console.log] and
    [console.error], the rounding of doubles (JSON.parse rounds a
    numeral to the nearest double and Number::toString prints the
    shortest decimal that reads back to it; most numbers are only passed
    along or compared, so the model keeps them exact rationals, leaves
    Number::toString an interface and marks the JSON component partly
    modelled),
    the commented-out first version of the gemini handler
    (lines 1-27 of its file, not code), and the provider's internals
    (only its interface). *)

From stdpp Require Export base list strings.
From Stdlib Require Export Ascii NArith.

Declare Scope js_scope.
Delimit Scope js_scope with js.

(** ** Code units and JavaScript strings *)

Abbreviation cu := N (only parsing).
Abbreviation jstr := (list N) (only parsing).

(** A string literal of the source, as its code units (ASCII literals). *)
Definition js (s : string) : list N :=
  map N_of_ascii (String.list_ascii_of_string s).

(** ** Prefixes *)

Fixpoint starts_with_by {A} (eqf : A -> A -> bool) (p l : list A) : bool :=
  match p, l with
  | [], _ => true
  | x :: p', y :: l' => eqf y x && starts_with_by eqf p' l'
  | _ :: _, [] => false
  end.

Definition starts_with (p l : list N) : bool := starts_with_by N.eqb p l.

(** ** Spans *)

Fixpoint take_while {A} (f : A -> bool) (l : list A) : list A :=
  match l with
  | [] => []
  | x :: l' => if f x then x :: take_while f l' else []
  end.

Fixpoint drop_while {A} (f : A -> bool) (l : list A) : list A :=
  match l with
  | [] => []
  | x :: l' => if f x then drop_while f l' else l
  end.

(** ** A state monad for the threaded random source *)

Definition St (Σ A : Type) : Type := Σ -> A * Σ.
Definition st_ret {Σ A} (a : A) : St Σ A := fun s => (a, s).
Definition st_bind {Σ A B} (m : St Σ A) (k : A -> St Σ B) : St Σ B :=
  fun s => let '(a, s') := m s in k a s'.

Notation "'let*' x := m 'in' k" := (st_bind m (fun x => k))
  (at level 10, x name, m at level 100, k at level 200) : js_scope.

Fixpoint st_replicate {Σ A} (n : nat) (m : nat -> St Σ A) : nat -> St Σ (list A) :=
  fun i =>
    match n with
    | 0 => st_ret []
    | S n' => st_bind (m i) (fun a => st_bind (st_replicate n' m (S i))
                                            (fun l => st_ret (a :: l)))
    end.

(** ** Lemmas shared by the components *)

(** The value of a computation that ends by returning a function of
    its first step's result. *)
Lemma st_map_fst {Σ A B} (m : St Σ A) (f : A -> B) s :
  fst (st_bind m (fun a => st_ret (f a)) s) = f (fst (m s)).
Proof. unfold st_bind, st_ret. by destruct (m s). Qed.

Create HintDb js discriminated.
Create Rewrite HintDb js_rw.

Section Lists.
Context {A : Type}.
Implicit Types (f : A -> bool) (l p : list A).

Lemma take_drop_while f l : take_while f l ++ drop_while f l = l.
Proof. induction l as [|x l IH]; simpl; [done|]. destruct (f x); simpl; congruence. Qed.

Lemma take_while_all f l : Forall (fun x => f x = true) (take_while f l).
Proof. induction l as [|x l IH]; simpl; [constructor|]. destruct (f x) eqn:E; auto. Qed.

Lemma drop_while_head f l x r : drop_while f l = x :: r -> f x = false.
Proof.
  induction l as [|y l IH]; simpl; [done|].
  destruct (f y) eqn:E; [auto|]. by intros [= -> ->].
Qed.

Lemma take_while_app_stop f l x r :
  Forall (fun y => f y = true) l -> f x = false -> take_while f (l ++ x :: r) = l.
Proof.
  intros Hl Hx. induction Hl as [|y l Hy _ IH]; simpl; [by rewrite Hx|].
  by rewrite Hy, IH.
Qed.

Lemma drop_while_app_stop f l x r :
  Forall (fun y => f y = true) l -> f x = false -> drop_while f (l ++ x :: r) = x :: r.
Proof.
  intros Hl Hx. induction Hl as [|y l Hy _ IH]; simpl; [by rewrite Hx|].
  by rewrite Hy.
Qed.

(** A span over [l ++ r] stops at the end of [l] when [r] is empty or
    starts with an element that fails the test. *)
Definition stops_at {A} (f : A -> bool) (r : list A) : bool :=
  match r with [] => true | x :: _ => negb (f x) end.

Lemma take_while_app_end f l r :
  Forall (fun y => f y = true) l -> stops_at f r = true -> take_while f (l ++ r) = l.
Proof.
  intros Hl Hr. induction Hl as [|y l Hy _ IH]; simpl; [|by rewrite Hy, IH].
  destruct r as [|x r]; simpl in *; [done|]. by destruct (f x).
Qed.

Lemma take_while_all_id f l : Forall (fun y => f y = true) l -> take_while f l = l.
Proof. induction 1 as [|y l Hy _ IH]; simpl; [done|]. by rewrite Hy, IH. Qed.

Lemma drop_while_all_nil f l : Forall (fun y => f y = true) l -> drop_while f l = [].
Proof. induction 1 as [|y l Hy _ IH]; simpl; [done|]. by rewrite Hy. Qed.

Lemma drop_while_length f l : length (drop_while f l) <= length l.
Proof. induction l as [|x l IH]; simpl; [lia|]. destruct (f x); simpl; lia. Qed.

Lemma starts_with_by_app (eqf : A -> A -> bool) p r :
  (forall x, eqf x x = true) -> starts_with_by eqf p (p ++ r) = true.
Proof. intros Hrefl. induction p as [|x p IH]; simpl; [done|]. by rewrite Hrefl, IH. Qed.

Lemma starts_with_by_split (eqf : A -> A -> bool) p l :
  starts_with_by eqf p l = true ->
  exists q r, l = q ++ r /\ length q = length p /\ Forall2 (fun y x => eqf y x = true) q p.
Proof.
  revert l. induction p as [|x p IH]; intros [|y l]; simpl; try done.
  - intros _. exists [], []. auto.
  - intros _. exists [], (y :: l). auto.
  - intros [Hxy Hp]%andb_prop. destruct (IH l Hp) as (q & r & -> & Hlen & Hq).
    exists (y :: q), r. simpl. auto.
Qed.
End Lists.

Lemma starts_with_spec p l : starts_with p l = true <-> exists r, l = p ++ r.
Proof.
  unfold starts_with. split.
  - intros (q & r & -> & _ & Hq)%starts_with_by_split. exists r. f_equal.
    induction Hq as [|y x q p Hyx _ IH]; [done|]. apply N.eqb_eq in Hyx. by subst.
  - intros [r ->]. apply starts_with_by_app. intros x. apply N.eqb_refl.
Qed.

Lemma starts_with_app p r : starts_with p (p ++ r) = true.
Proof. apply starts_with_spec. eauto. Qed.

#[export] Hint Resolve take_drop_while take_while_all starts_with_app : js.
#[export] Hint Rewrite @take_drop_while : js_rw.

(** Case analysis on every boolean test of the goal, keeping the equation. *)
(** Deleting an element that is there removes one. *)
Lemma length_delete_lookup {A} (l : list A) i x :
  l !! i = Some x -> length (delete i l) = length l - 1 /\ 1 <= length l.
Proof.
  intros Hi. split; [apply length_delete; by eexists|].
  apply lookup_lt_Some in Hi. lia.
Qed.

(** A parser that maps the value it read keeps its rest. *)
Lemma fmap_pair_Some {A B C} (g : A -> B) (o : option (A * C)) v r :
  (fun '(a, r) => (g a, r)) <$> o = Some (v, r) -> exists a, o = Some (a, r) /\ v = g a.
Proof. destruct o as [[a r']|]; simpl; [intros [= <- ->]; by eexists|done]. Qed.

Lemma last_map {A B} (f : A -> B) (l : list A) : last (map f l) = f <$> last l.
Proof. induction l as [|x [|y l] IH]; simpl in *; auto. Qed.

Lemma drop_map {A B} (f : A -> B) (l : list A) n : drop n (map f l) = map f (drop n l).
Proof. revert n. induction l as [|x l IH]; intros [|n]; simpl; auto. Qed.

Lemma NoDup_delete {A} (l : list A) i : NoDup l -> NoDup (delete i l).
Proof. intros Hl. eapply sublist_NoDup; [exact Hl|apply sublist_delete]. Qed.

(** Turns boolean comparisons of code units into propositions and calls
    [lia]. *)
Ltac bool_lia :=
  repeat progress (rewrite ?orb_true_iff, ?andb_true_iff, ?orb_false_iff, ?andb_false_iff,
    ?negb_true_iff, ?negb_false_iff, ?N.eqb_eq, ?N.eqb_neq, ?N.leb_le, ?N.leb_gt,
    ?N.ltb_lt, ?N.ltb_ge in *); lia.

Ltac case_ifs :=
  repeat match goal with
  | |- context [if ?b then _ else _] =>
      lazymatch b with
      | context [if _ then _ else _] => fail
      | _ => destruct b eqn:?
      end
  end.
