(* ===== verification/JsString.v ===== *)
(** * JavaScript string built-ins used by the handlers

    The String.prototype operations the repository calls, written from the
    ECMAScript algorithms on code-unit sequences:
    - [split] with a string separator ([String.prototype.split]),
    - [replace_all]: [String.prototype.replace] with a global regular
      expression whose pattern is a literal and whose replacement holds no
      [$] pattern (the only form the code uses),
    - [to_lower_ascii]: [toLowerCase] on ASCII code units (exact on the
      [\w] captures the code lowercases),
    - [trim] with the WhiteSpace and LineTerminator code points,
    - [strip_markup]: the chain [.replace(/\*\*/g, "").replace(/\*/g, "")].
    Theorems: [split]/[join] round trip, [replace_all] as [join] of
    [split], stripping is [filter] of the star, hence idempotent. *)

From S2P Require Import Prelude.
From Stdlib Require Import ZArith.

Module JsString.

(** ** Characters *)

Local Open Scope N_scope.

Definition star : N := 42.
Definition space : N := 32.
Definition newline : N := 10.

(** [\w] without the [u] flag: [A-Za-z0-9_]. *)
Definition is_word_char (c : N) : bool :=
  ((48 <=? c) && (c <=? 57)) || ((65 <=? c) && (c <=? 90)) || (c =? 95)
  || ((97 <=? c) && (c <=? 122)).

(** LineTerminator: the code units [.] does not match. *)
Definition is_line_terminator (c : N) : bool :=
  (c =? 10) || (c =? 13) || (c =? 8232) || (c =? 8233).

(** WhiteSpace (TAB, VT, FF, ZWNBSP, the Zs category) and LineTerminator:
    what [String.prototype.trim] removes. *)
Definition is_js_whitespace (c : N) : bool :=
  (c =? 9) || (c =? 11) || (c =? 12) || (c =? 32) || (c =? 160)
  || (c =? 5760) || ((8192 <=? c) && (c <=? 8202)) || (c =? 8239)
  || (c =? 8287) || (c =? 12288) || (c =? 65279) || is_line_terminator c.

Definition ascii_lower (c : N) : N := if (65 <=? c) && (c <=? 90) then c + 32 else c.
Definition ascii_upper (c : N) : N := if (97 <=? c) && (c <=? 122) then c - 32 else c.

Local Close Scope N_scope.

(** [toLowerCase] on ASCII code units. *)
Definition to_lower_ascii (s : list N) : list N := map ascii_lower s.

(** [trim]: WhiteSpace and LineTerminator removed at both ends. *)
Definition trim (s : list N) : list N :=
  rev (drop_while is_js_whitespace (rev (drop_while is_js_whitespace s))).

(** Decimal digits of a non-negative integer: [Number::toString] on an
    integer value below 10^21. *)
Fixpoint uint_js (u : Decimal.uint) : list N :=
  match u with
  | Decimal.Nil => []
  | Decimal.D0 u => 48%N :: uint_js u
  | Decimal.D1 u => 49%N :: uint_js u
  | Decimal.D2 u => 50%N :: uint_js u
  | Decimal.D3 u => 51%N :: uint_js u
  | Decimal.D4 u => 52%N :: uint_js u
  | Decimal.D5 u => 53%N :: uint_js u
  | Decimal.D6 u => 54%N :: uint_js u
  | Decimal.D7 u => 55%N :: uint_js u
  | Decimal.D8 u => 56%N :: uint_js u
  | Decimal.D9 u => 57%N :: uint_js u
  end.

Definition nat_to_js (n : nat) : list N := uint_js (Nat.to_uint n).

(** [Number::toString] of an integer value: an optional ['-'] and the
    decimal digits of the absolute value. *)
Definition Z_to_js (z : Z) : list N :=
  if (z <? 0)%Z then 45%N :: uint_js (N.to_uint (Z.abs_N z))
  else uint_js (N.to_uint (Z.to_N z)).

(** ** Left-most occurrence of a separator *)

(** [break_at sep s = Some (b, a)] when [s = b ++ sep ++ a] and [b] is the
    shortest such prefix: StringIndexOf(s, sep, 0). *)
Fixpoint break_at (sep s : list N) : option (list N * list N) :=
  if starts_with sep s then Some ([], drop (length sep) s)
  else match s with
       | [] => None
       | c :: s' => match break_at sep s' with
                    | Some (b, a) => Some (c :: b, a)
                    | None => None
                    end
       end.

(** ** [String.prototype.split] with a string separator *)

Fixpoint split_go (fuel : nat) (sep s : list N) : list (list N) :=
  match fuel with
  | O => [s]
  | S f => match break_at sep s with
           | Some (b, a) => b :: split_go f sep a
           | None => [s]
           end
  end.

(** [s.split(sep)]: an empty separator splits into code units (and ["" ]
    into the empty array); otherwise the pieces between the successive
    left-most occurrences.  Each piece is shorter than [s], so
    [length s + 1] rounds are enough ([split_go_enough]). *)
Definition split (s sep : list N) : list (list N) :=
  match sep with
  | [] => map (fun c => [c]) s
  | _ :: _ => split_go (S (length s)) sep s
  end.

(** [Array.prototype.join]. *)
Fixpoint join (sep : list N) (l : list (list N)) : list N :=
  match l with
  | [] => []
  | [x] => x
  | x :: l' => x ++ sep ++ join sep l'
  end.

(** ** [String.prototype.replace] with a global literal pattern *)

Fixpoint replace_go (fuel : nat) (pat rep s : list N) : list N :=
  match fuel with
  | O => s
  | S f => match break_at pat s with
           | Some (b, a) => b ++ rep ++ replace_go f pat rep a
           | None => s
           end
  end.

(** [s.replace(/pat/g, rep)] for a non-empty literal [pat] and a
    replacement without [$] patterns: RegExp.prototype[@@replace] collects
    the successive left-most matches from [lastIndex] and splices [rep]
    in place of each. *)
Definition replace_all (pat rep s : list N) : list N :=
  replace_go (S (length s)) pat rep s.

(** [text.replace(/\*\*/g, "").replace(/\*/g, "")]. *)
Definition strip_markup (s : list N) : list N :=
  replace_all [star] [] (replace_all [star; star] [] s).

(** ** Lemmas *)

Lemma break_at_spec sep s b a :
  break_at sep s = Some (b, a) -> s = b ++ sep ++ a.
Proof.
  revert b a. induction s as [|c s IH]; intros b a; simpl.
  - destruct (starts_with sep []) eqn:E; [|done]. intros [= <- <-].
    apply starts_with_spec in E as [r Hr]. simpl. rewrite Hr, drop_app_length. done.
  - destruct (starts_with sep (c :: s)) eqn:E.
    + intros [= <- <-]. apply starts_with_spec in E as [r Hr].
      rewrite Hr, drop_app_length. done.
    + destruct (break_at sep s) as [[b' a']|] eqn:Hb; [|done].
      intros [= <- <-]. simpl. by rewrite (IH b' a').
Qed.

Lemma break_at_length sep s b a :
  sep <> [] -> break_at sep s = Some (b, a) -> length a < length s.
Proof.
  intros Hsep H. apply break_at_spec in H as ->.
  rewrite !length_app. destruct sep; [done|simpl; lia].
Qed.

(** No occurrence of [sep] starts before the one [break_at] returns. *)
Lemma break_at_leftmost sep s b a :
  break_at sep s = Some (b, a) ->
  forall i, i < length b -> starts_with sep (drop i s) = false.
Proof.
  revert b a. induction s as [|c s IH]; intros b a; simpl.
  - destruct (starts_with sep []); [|done]. intros [= <- <-] i Hi. simpl in Hi. lia.
  - destruct (starts_with sep (c :: s)) eqn:E.
    + intros [= <- <-] i Hi. simpl in Hi. lia.
    + destruct (break_at sep s) as [[b' a']|] eqn:Hb; [|done].
      intros [= <- <-] [|i] Hi; [done|]. simpl in *. apply (IH b' a'); [done|lia].
Qed.

Lemma break_at_none sep s :
  break_at sep s = None -> forall i, starts_with sep (drop i s) = false.
Proof.
  induction s as [|c s IH]; simpl.
  - destruct (starts_with sep []) eqn:E; [done|]. intros _ [|i]; done.
  - destruct (starts_with sep (c :: s)) eqn:E; [done|].
    destruct (break_at sep s) as [[b' a']|]; [done|]. intros Hn [|i]; simpl; auto.
Qed.

(** Fuel beyond the length of the input does not change the result. *)
Lemma split_go_enough f1 f2 sep s :
  sep <> [] -> length s < f1 -> length s < f2 -> split_go f1 sep s = split_go f2 sep s.
Proof.
  intros Hsep. revert f2 s. induction f1 as [|f1 IH]; intros [|f2] s H1 H2; try lia.
  simpl. destruct (break_at sep s) as [[b a]|] eqn:Hb; [|done].
  pose proof (break_at_length _ _ _ _ Hsep Hb). f_equal. apply IH; lia.
Qed.

Lemma replace_go_enough f1 f2 pat rep s :
  pat <> [] -> length s < f1 -> length s < f2 ->
  replace_go f1 pat rep s = replace_go f2 pat rep s.
Proof.
  intros Hpat. revert f2 s. induction f1 as [|f1 IH]; intros [|f2] s H1 H2; try lia.
  simpl. destruct (break_at pat s) as [[b a]|] eqn:Hb; [|done].
  pose proof (break_at_length _ _ _ _ Hpat Hb). do 2 f_equal. apply IH; lia.
Qed.

(** The unfolding equations of [split] and [replace_all]. *)
Lemma split_eq s sep :
  sep <> [] ->
  split s sep = match break_at sep s with
                | Some (b, a) => b :: split a sep
                | None => [s]
                end.
Proof.
  intros Hsep. destruct sep as [|x sep]; [done|]. unfold split at 1. cbn [split_go].
  destruct (break_at (x :: sep) s) as [[b a]|] eqn:Hb; [|done].
  pose proof (break_at_length _ _ _ _ Hsep Hb).
  f_equal. apply split_go_enough; [done|lia|lia].
Qed.

Lemma replace_all_eq pat rep s :
  pat <> [] ->
  replace_all pat rep s = match break_at pat s with
                          | Some (b, a) => b ++ rep ++ replace_all pat rep a
                          | None => s
                          end.
Proof.
  intros Hpat. unfold replace_all at 1. cbn [replace_go].
  destruct (break_at pat s) as [[b a]|] eqn:Hb; [|done].
  pose proof (break_at_length _ _ _ _ Hpat Hb).
  do 2 f_equal. apply replace_go_enough; [done|lia|lia].
Qed.

(** Well-founded induction on the length of the input, the scheme every
    theorem about [split] and [replace_all] uses. *)
Lemma length_ind (P : list N -> Prop) :
  (forall s, (forall s', length s' < length s -> P s') -> P s) -> forall s, P s.
Proof.
  intros H s. remember (length s) as n eqn:Hn. revert s Hn.
  induction (lt_wf n) as [n _ IH]. intros s ->. apply H. intros s' Hs'. by apply (IH _ Hs').
Qed.

Lemma join_cons sep x l : l <> [] -> join sep (x :: l) = x ++ sep ++ join sep l.
Proof. by destruct l. Qed.

Lemma split_not_nil s sep : split s sep <> [] \/ (sep = [] /\ s = []).
Proof.
  destruct sep as [|x sep].
  - destruct s; simpl; [by right|by left].
  - left. rewrite split_eq by done. by destruct (break_at _ s) as [[b a]|].
Qed.

Lemma starts_with_app_r p l r : starts_with p l = true -> starts_with p (l ++ r) = true.
Proof.
  intros [q ->]%starts_with_spec. apply starts_with_spec. exists (q ++ r). by rewrite app_assoc.
Qed.

Lemma starts_with_nil_l l : starts_with [] l = true.
Proof. done. Qed.

Lemma starts_with_cons_nil x p : starts_with (x :: p) [] = false.
Proof. done. Qed.

#[export] Hint Resolve starts_with_app_r : js.

(** [x ∉ s] for code units, as a boolean filter. *)
Definition drop_cu (c : N) (s : list N) : list N := List.filter (fun x => negb (x =? c)%N) s.

Lemma drop_cu_app c s t : drop_cu c (s ++ t) = drop_cu c s ++ drop_cu c t.
Proof. unfold drop_cu. apply List.filter_app. Qed.

Lemma drop_cu_idem c s : drop_cu c (drop_cu c s) = drop_cu c s.
Proof.
  induction s as [|x s IH]; simpl; [done|].
  destruct (x =? c)%N eqn:E; simpl; [done|]. by rewrite E, IH.
Qed.

Lemma drop_cu_not_in c s : ~ In c (drop_cu c s).
Proof. unfold drop_cu. rewrite filter_In. intros [_ H]. by rewrite N.eqb_refl in H. Qed.

#[export] Hint Rewrite drop_cu_app drop_cu_idem : js_rw.

(** Every piece of a split avoids the separator. *)
Definition sep_free (sep p : list N) : Prop := forall i, starts_with sep (drop i p) = false.

Lemma break_at_piece_sep_free sep s b a :
  sep <> [] -> break_at sep s = Some (b, a) -> sep_free sep b.
Proof.
  intros Hsep Hb i. pose proof (break_at_spec _ _ _ _ Hb) as Hs.
  destruct (decide (i < length b)) as [Hi|Hi].
  - destruct (starts_with sep (drop i b)) eqn:E; [|done].
    rewrite <- (break_at_leftmost _ _ _ _ Hb i Hi), Hs, drop_app_le by lia.
    symmetry. by apply starts_with_app_r.
  - rewrite drop_ge by lia. destruct sep; done.
Qed.

(** ** Occurrences in concatenations *)

Lemma break_at_none_iff sep s : sep <> [] -> break_at sep s = None <-> sep_free sep s.
Proof.
  intros Hsep. split; [intros H i; by apply break_at_none|].
  intros Hfree. destruct (break_at sep s) as [[b a]|] eqn:Hb; [|done].
  apply break_at_spec in Hb. specialize (Hfree (length b)).
  rewrite Hb, drop_app_length, starts_with_app in Hfree. done.
Qed.

Lemma starts_with_app_inv l x y :
  starts_with l (x ++ y) = true -> starts_with l x = true \/ starts_with x l = true.
Proof.
  unfold starts_with. revert x. induction l as [|c l IH]; intros [|z x]; simpl; auto.
  intros [Hz H]%andb_prop. rewrite Hz. destruct (IH x H) as [H'|H']; rewrite H'.
  - left. done.
  - right. apply N.eqb_eq in Hz. subst. by rewrite N.eqb_refl.
Qed.

Lemma starts_with_app_cancel p q r : starts_with (p ++ q) (p ++ r) = starts_with q r.
Proof. unfold starts_with. induction p as [|x p IH]; simpl; [done|]. by rewrite N.eqb_refl. Qed.

(** An occurrence in [a ++ b] lies in [a], in [b], or straddles the
    boundary; it cannot straddle when [b] starts with a code unit that the
    pattern does not contain. *)
Lemma sep_free_app_r l a x b :
  l <> [] -> sep_free l a -> sep_free l (x :: b) -> ~ In x l -> sep_free l (a ++ x :: b).
Proof.
  intros Hl Ha Hb Hx i. destruct (decide (i < length a)) as [Hi|Hi].
  - rewrite drop_app_le by lia.
    destruct (starts_with l (drop i a ++ x :: b)) eqn:E; [|done].
    destruct (starts_with_app_inv _ _ _ E) as [H|H]; [by rewrite (Ha i) in H|].
    apply starts_with_spec in H as [l' Hl']. rewrite Hl', starts_with_app_cancel in E.
    destruct l' as [|y l'].
    + rewrite app_nil_r in Hl'. specialize (Ha i). rewrite <- Hl' in Ha.
      pose proof (starts_with_app l []) as Hll. rewrite app_nil_r in Hll. congruence.
    + unfold starts_with in E. simpl in E. apply andb_prop in E as [Exy _].
      apply N.eqb_eq in Exy. subst y. exfalso. apply Hx. rewrite Hl'. apply in_app_iff. by right; left.
  - rewrite drop_app_ge by lia. apply Hb.
Qed.

(** The suffix condition: no non-empty suffix of [a] is a prefix of [l]. *)
Fixpoint no_partial_suffix (l a : list N) : bool :=
  match a with
  | [] => true
  | _ :: a' => negb (starts_with a l) && no_partial_suffix l a'
  end.

Lemma no_partial_suffix_drop l a j :
  no_partial_suffix l a = true -> j < length a -> starts_with (drop j a) l = false.
Proof.
  revert j. induction a as [|c a IH]; intros j; simpl; [lia|].
  intros [H1 H2]%andb_prop Hj. destruct j as [|j]; simpl.
  - by apply negb_true_iff.
  - apply IH; [done|lia].
Qed.

Lemma sep_free_cons l c a : sep_free l (c :: a) -> sep_free l a.
Proof. intros H i. apply (H (S i)). Qed.

(** No occurrence of [l] starts inside [a] when [a] avoids [l] and no
    suffix of [a] begins [l]. *)
Lemma no_occurrence_in_prefix l a b j :
  sep_free l a -> no_partial_suffix l a = true -> j < length a ->
  starts_with l (drop j (a ++ b)) = false.
Proof.
  intros Ha Hs Hj. rewrite drop_app_le by lia.
  destruct (starts_with l (drop j a ++ b)) eqn:E; [|done].
  destruct (starts_with_app_inv _ _ _ E) as [H|H]; [by rewrite (Ha j) in H|].
  by rewrite no_partial_suffix_drop in H.
Qed.

Lemma sep_free_app_l l a b :
  sep_free l a -> sep_free l b -> no_partial_suffix l a = true -> sep_free l (a ++ b).
Proof.
  intros Ha Hb Hs i. destruct (decide (i < length a)) as [Hi|Hi].
  - by apply no_occurrence_in_prefix.
  - rewrite drop_app_ge by lia. apply Hb.
Qed.

(** The form used on texts: the boundary is safe when [b] starts with a
    code unit outside the pattern. *)
Lemma sep_free_app_head l a b :
  l <> [] -> sep_free l a -> sep_free l b ->
  (forall x b', b = x :: b' -> ~ In x l) -> sep_free l (a ++ b).
Proof.
  intros Hl Ha Hb Hx. destruct b as [|x b].
  - by rewrite app_nil_r.
  - apply sep_free_app_r; [done|done|done|]. by apply (Hx x b).
Qed.

Lemma break_at_starts sep s :
  starts_with sep s = true -> break_at sep s = Some ([], drop (length sep) s).
Proof. destruct s; simpl; by intros ->. Qed.

Lemma break_at_first sep x r :
  sep <> [] -> sep_free sep x -> no_partial_suffix sep x = true ->
  break_at sep (x ++ sep ++ r) = Some (x, r).
Proof.
  intros Hsep. induction x as [|c x IH]; intros Hfree Hs; simpl.
  - by rewrite break_at_starts, drop_app_length by apply starts_with_app.
  - pose proof (no_occurrence_in_prefix sep (c :: x) (sep ++ r) 0 Hfree Hs ltac:(simpl; lia)) as H0.
    simpl in H0. rewrite H0.
    apply andb_prop in Hs as [_ Hs]. by rewrite IH by eauto using sep_free_cons.
Qed.

(** [split] undoes [join] when no separator can be found inside or across
    the pieces. *)
Lemma split_join sep items :
  sep <> [] -> items <> [] ->
  Forall (fun p => sep_free sep p /\ no_partial_suffix sep p = true) items ->
  split (join sep items) sep = items.
Proof.
  intros Hsep. induction items as [|x items IH]; intros Hne Hall; [done|].
  apply Forall_cons in Hall as [[Hfree Hs] Hall].
  destruct items as [|y items].
  - simpl. rewrite split_eq by done.
    by rewrite (proj2 (break_at_none_iff _ _ Hsep) Hfree).
  - rewrite join_cons by done. rewrite split_eq by done.
    rewrite break_at_first by done. f_equal. by apply IH.
Qed.

Lemma Forall_join (P : N -> Prop) sep items :
  Forall P sep -> Forall (Forall P) items -> Forall P (join sep items).
Proof.
  intros Hsep. induction 1 as [|x items Hx Hall IH]; [constructor|].
  destruct items; [done|]. rewrite join_cons by done.
  apply Forall_app; split; [done|]. apply Forall_app; auto.
Qed.

(** ** Theorems *)

(** [join] undoes [split] for every non-empty separator:
    [s.split(sep).join(sep) === s]. *)
Theorem join_split s sep : sep <> [] -> join sep (split s sep) = s.
Proof.
  intros Hsep. induction s as [s IH] using length_ind.
  rewrite split_eq by done.
  destruct (break_at sep s) as [[b a]|] eqn:Hb; [|done].
  pose proof (break_at_length _ _ _ _ Hsep Hb) as Hlen.
  destruct (split_not_nil a sep) as [Hne|[-> _]]; [|done].
  rewrite join_cons, IH by done. symmetry. by apply break_at_spec.
Qed.

(** [split] never returns an empty array for a non-empty separator,
    and no piece contains the separator. *)
Theorem split_pieces s sep :
  sep <> [] -> split s sep <> [] /\ Forall (sep_free sep) (split s sep).
Proof.
  intros Hsep. induction s as [s IH] using length_ind.
  rewrite split_eq by done.
  destruct (break_at sep s) as [[b a]|] eqn:Hb.
  - split; [done|]. constructor; [by eapply break_at_piece_sep_free|].
    apply IH. by eapply break_at_length.
  - split; [done|]. constructor; [|constructor]. intros i. by apply break_at_none.
Qed.

(** The global literal replace is [split] followed by [join]:
    [s.replace(/pat/g, rep) === s.split(pat).join(rep)]. *)
Theorem replace_all_join_split pat rep s :
  pat <> [] -> replace_all pat rep s = join rep (split s pat).
Proof.
  intros Hpat. induction s as [s IH] using length_ind.
  rewrite replace_all_eq, split_eq by done.
  destruct (break_at pat s) as [[b a]|] eqn:Hb; [|done].
  pose proof (break_at_length _ _ _ _ Hpat Hb) as Hlen.
  destruct (split_not_nil a pat) as [Hne|[-> _]]; [|done].
  rewrite join_cons, IH by done. done.
Qed.

(** Removing [pat] only deletes occurrences of [pat]: every code unit
    other than the ones of [pat] survives in order. *)
Lemma drop_cu_replace_all c pat s :
  pat <> [] -> Forall (fun x => x = c) pat ->
  drop_cu c (replace_all pat [] s) = drop_cu c s.
Proof.
  intros Hpat Hc. induction s as [s IH] using length_ind.
  rewrite replace_all_eq by done.
  destruct (break_at pat s) as [[b a]|] eqn:Hb; [|done].
  rewrite (break_at_spec _ _ _ _ Hb), !drop_cu_app, IH by (eapply break_at_length; eauto).
  simpl. f_equal. clear -Hc. induction Hc as [|x pat -> _ IH]; simpl; [done|].
  by rewrite N.eqb_refl.
Qed.

Lemma starts_with_single c x l : starts_with [c] (x :: l) = (x =? c)%N.
Proof. unfold starts_with. simpl. apply andb_true_r. Qed.

Lemma replace_all_single c s : replace_all [c] [] s = drop_cu c s.
Proof.
  induction s as [s IH] using length_ind.
  rewrite replace_all_eq by done.
  destruct (break_at [c] s) as [[b a]|] eqn:Hb.
  - rewrite (break_at_spec _ _ _ _ Hb) at 1. rewrite !drop_cu_app.
    pose proof (break_at_piece_sep_free [c] s b a ltac:(done) Hb) as Hfree.
    rewrite IH by (apply (break_at_length [c] s b a); [done|exact Hb]). simpl. rewrite N.eqb_refl. simpl.
    f_equal. clear -Hfree. induction b as [|x b IHb]; [done|].
    pose proof (Hfree 0) as H0. simpl in H0. rewrite starts_with_single in H0.
    simpl. rewrite H0. simpl. f_equal. apply IHb. intros i. apply (Hfree (S i)).
  - clear IH. induction s as [|x s IHs]; [done|]. simpl.
    pose proof (break_at_none _ _ Hb 0) as H0. simpl in H0. rewrite starts_with_single in H0.
    rewrite H0. simpl. f_equal. apply IHs.
    simpl in Hb. rewrite starts_with_single, H0 in Hb. by destruct (break_at [c] s) as [[]|].
Qed.

Lemma strip_markup_drop_cu s : strip_markup s = drop_cu star s.
Proof.
  unfold strip_markup. rewrite replace_all_single.
  apply drop_cu_replace_all; [done|]. repeat constructor.
Qed.

Lemma strip_markup_no_star s : ~ In star (strip_markup s).
Proof. rewrite strip_markup_drop_cu. apply drop_cu_not_in. Qed.

(** The markup stripping chain of the tutor handler
    ([text.replace(/\*\*/g, "").replace(/\*/g, "")]) deletes exactly the
    ['*'] code units and keeps every other code unit in order. *)
Theorem strip_markup_filter s : strip_markup s = drop_cu star s.
Proof. apply strip_markup_drop_cu. Qed.

(** Markup stripping is idempotent and leaves no ['*']. *)
Theorem strip_markup_idempotent s :
  strip_markup (strip_markup s) = strip_markup s /\ ~ In star (strip_markup s).
Proof.
  split; [rewrite !strip_markup_drop_cu; apply drop_cu_idem|apply strip_markup_no_star].
Qed.

(** ** Witnesses *)

Lemma join_split_witness :
  js ", " <> [] /\ join (js ", ") (split (js "a, b, c") (js ", ")) = js "a, b, c".
Proof. split; [discriminate|apply (join_split (js "a, b, c") (js ", ")); discriminate]. Defined.

Lemma split_pieces_witness :
  [newline] <> [] /\
  (split (js "x") [newline] <> [] /\ Forall (sep_free [newline]) (split (js "x") [newline])).
Proof. split; [discriminate|apply (split_pieces (js "x") [newline]); discriminate]. Defined.

Lemma replace_all_join_split_witness :
  [star; star] <> [] /\
  replace_all [star; star] (js "!") (js "a**b") = join (js "!") (split (js "a**b") [star; star]).
Proof. split; [discriminate|apply (replace_all_join_split [star; star]); discriminate]. Defined.

End JsString.
