(* ===== verification/Glob.v ===== *)
(** * Glob patterns of the Tailwind [content] option

    [src/tailwind.config.mjs] names the files Tailwind scans for class
    names by glob patterns (["./app/**/*.{js,ts,jsx,tsx}"]).  The
    patterns are read by the glob library (fast-glob and micromatch),
    not by code of this repository; this file models the part of their
    syntax and meaning the configuration uses: path segments separated
    by ['/'], a leading ["./"], the segment ["**"] (any number of
    directories), ['*'] (any characters within a segment), and brace sets
    [{a,b}] with at least two alternatives.  As in the library's default
    ([dot: false]), ['*'] and ["**"] never match a name that starts with
    ['.'] unless the pattern writes the dot.

    [tok_match] and [path_match] are the matchers, executable; the
    inductive relations [tok_matches] and [path_matches] are their
    specification, and [tok_match_spec] / [path_match_spec] prove each
    matcher decides its relation. *)

From S2P Require Import Prelude JsString.
Import JsString.

Module Glob.

Local Open Scope N_scope.

Inductive Tok := TChar (c : N) | TStar | TBrace (alts : list (list N)).

Inductive SegPat := Globstar | Seg (ts : list Tok).

(** The tokens of one segment.  [acc] holds the characters of an open
    brace, in reverse; a brace left open, or with a single alternative,
    stands for its own characters. *)
Fixpoint tokens_go (s : list N) (acc : option (list N)) : list Tok :=
  match s, acc with
  | [], None => []
  | [], Some a => TChar 123 :: map TChar (rev a)
  | c :: s', None =>
      if c =? 42 then TStar :: tokens_go s' None
      else if c =? 123 then tokens_go s' (Some [])
      else TChar c :: tokens_go s' None
  | c :: s', Some a =>
      if c =? 125 then
        match split (rev a) [44] with
        | (_ :: _ :: _) as alts => TBrace alts :: tokens_go s' None
        | _ => TChar 123 :: map TChar (rev a) ++ TChar 125 :: tokens_go s' None
        end
      else tokens_go s' (Some (c :: a))
  end.

Definition tokens (seg : list N) : list Tok := tokens_go seg None.

(** A pattern as its segments: ["."] at the start is the base itself. *)
Definition parse_glob (g : list N) : list SegPat :=
  let segs := match split g [47] with [46] :: rest => rest | l => l end in
  map (fun seg => if bool_decide (seg = [42; 42]) then Globstar else Seg (tokens seg)) segs.

(** A name hidden from wildcards. *)
Definition hidden (d : list N) : bool :=
  match d with 46 :: _ => true | _ => false end.

Definition dot_written (ts : list Tok) : bool :=
  match ts with TChar 46 :: _ => true | _ => false end.

Fixpoint tok_match (ts : list Tok) (s : list N) : bool :=
  match ts with
  | [] => match s with [] => true | _ => false end
  | TChar c :: ts' => match s with c' :: s' => (c =? c') && tok_match ts' s' | [] => false end
  | TStar :: ts' =>
      (fix go (s : list N) : bool :=
         tok_match ts' s || match s with [] => false | _ :: s' => go s' end) s
  | TBrace alts :: ts' =>
      existsb (fun a => starts_with a s && tok_match ts' (drop (length a) s)) alts
  end.

Definition seg_match (ts : list Tok) (d : list N) : bool :=
  (negb (hidden d) || dot_written ts) && tok_match ts d.

Fixpoint path_match (ps : list SegPat) (p : list (list N)) : bool :=
  match ps with
  | [] => match p with [] => true | _ => false end
  | Globstar :: ps' =>
      (fix go (p : list (list N)) : bool :=
         path_match ps' p || match p with [] => false | d :: p' => negb (hidden d) && go p' end) p
  | Seg ts :: ps' =>
      match p with [] => false | d :: p' => seg_match ts d && path_match ps' p' end
  end.

(** ** The meaning of a pattern *)

Inductive tok_matches : list Tok -> list N -> Prop :=
| tm_nil : tok_matches [] []
| tm_char c ts s : tok_matches ts s -> tok_matches (TChar c :: ts) (c :: s)
| tm_star ts u s : tok_matches ts s -> tok_matches (TStar :: ts) (u ++ s)
| tm_brace alts a ts s : a ∈ alts -> tok_matches ts s -> tok_matches (TBrace alts :: ts) (a ++ s).

Inductive path_matches : list SegPat -> list (list N) -> Prop :=
| pm_nil : path_matches [] []
| pm_seg ts ps d p :
    (hidden d = true -> dot_written ts = true) -> tok_matches ts d -> path_matches ps p ->
    path_matches (Seg ts :: ps) (d :: p)
| pm_globstar ps ds p :
    Forall (fun d => hidden d = false) ds -> path_matches ps p ->
    path_matches (Globstar :: ps) (ds ++ p).

(** ** The matchers decide the relations *)

Section StarLoop.
Context {A : Type} (f : list A -> bool) (ok : A -> bool).

(** The loop behind ['*'] and ["**"]: some suffix, reached by skipping
    elements that [ok] admits, satisfies [f]. *)
Fixpoint skip_loop (s : list A) : bool :=
  f s || match s with [] => false | x :: s' => ok x && skip_loop s' end.

Lemma skip_loop_spec s :
  skip_loop s = true <->
  exists u r, s = u ++ r /\ Forall (fun x => ok x = true) u /\ f r = true.
Proof.
  induction s as [|x s IH]; simpl; rewrite orb_true_iff.
  - split; [intros [H|H]; [by exists [], []|done]|].
    intros ([|? ?] & r & Hs & _ & Hf); [simpl in Hs; subst; by left|done].
  - rewrite andb_true_iff, IH. split.
    + intros [H|(Hx & u & r & -> & Hu & Hf)]; [by exists [], (x :: s)|].
      exists (x :: u), r. split_and!; [done|by constructor|done].
    + intros ([|y u] & r & Hs & Hu & Hf); simpl in Hs; [subst; by left|].
      injection Hs as -> ->. apply Forall_cons in Hu as [Hy Hu]. right. eauto 6.
Qed.
End StarLoop.

Lemma star_loop_eq ts' s :
  (fix go (s : list N) : bool :=
     tok_match ts' s || match s with [] => false | _ :: s' => go s' end) s =
  skip_loop (tok_match ts') (fun _ => true) s.
Proof. induction s as [|x s IH]; simpl; [done|by rewrite IH]. Qed.

Lemma globstar_loop_eq ps' p :
  (fix go (p : list (list N)) : bool :=
     path_match ps' p || match p with [] => false | d :: p' => negb (hidden d) && go p' end) p =
  skip_loop (path_match ps') (fun d => negb (hidden d)) p.
Proof. induction p as [|x p IH]; simpl; [done|by rewrite IH]. Qed.

Lemma tok_match_spec ts s : tok_match ts s = true <-> tok_matches ts s.
Proof.
  revert s. induction ts as [|[c| |alts] ts IH]; intros s; simpl.
  - destruct s; split; intros H; try done; [constructor|inversion H].
  - destruct s as [|c' s].
    + split; [done|intros H; inversion H].
    + rewrite andb_true_iff, N.eqb_eq, IH. split; [intros [-> H]; by constructor|].
      intros H; inversion H; subst; auto.
  - rewrite star_loop_eq, skip_loop_spec. split.
    + intros (u & r & -> & _ & Hr). constructor. by apply IH.
    + intros H; inversion H; subst. exists u, s0. split_and!; [done| |by apply IH].
      by apply Forall_forall.
  - rewrite existsb_exists. split.
    + intros (a & Ha & (Hp & Hr)%andb_true_iff). apply starts_with_spec in Hp as (r & ->).
      rewrite drop_app_length in Hr. constructor; [by apply list_elem_of_In|by apply IH].
    + intros H; inversion H; subst. exists a. split; [by apply list_elem_of_In|].
      rewrite starts_with_app, drop_app_length. by apply IH.
Qed.

Lemma seg_match_spec ts d :
  seg_match ts d = true <-> (hidden d = true -> dot_written ts = true) /\ tok_matches ts d.
Proof.
  unfold seg_match. rewrite andb_true_iff, orb_true_iff, negb_true_iff, tok_match_spec.
  destruct (hidden d), (dot_written ts); simpl; intuition congruence.
Qed.

(** The path matcher decides the meaning of a pattern: a path
    matches exactly when it splits into the pattern's segments, each
    ["**"] taking any run of visible directories, each ['*'] any run of
    characters, each brace one of its alternatives, and a name starting
    with ['.'] only where the pattern writes the dot. *)
Lemma path_match_spec ps p : path_match ps p = true <-> path_matches ps p.
Proof.
  revert p. induction ps as [|[|ts] ps IH]; intros p; simpl.
  - destruct p; split; intros H; try done; [constructor|inversion H].
  - rewrite globstar_loop_eq, skip_loop_spec. split.
    + intros (u & r & -> & Hu & Hr). constructor; [|by apply IH].
      eapply Forall_impl; [exact Hu|]. intros d. by rewrite negb_true_iff.
    + intros H; inversion H; subst. exists ds, p0. split_and!; [done| |by apply IH].
      eapply Forall_impl; [eassumption|]. intros d. by rewrite negb_true_iff.
  - destruct p as [|d p].
    + split; [done|intros H; inversion H].
    + rewrite andb_true_iff, seg_match_spec, IH. split.
      * intros [[Hh Hd] Hp]. by constructor.
      * intros H; inversion H; subst. auto.
Qed.

(** ** Inversion of the patterns the configuration writes *)

Lemma tok_matches_chars w d : tok_matches (map TChar w) d <-> d = w.
Proof.
  revert d. induction w as [|c w IH]; intros d; simpl.
  - split; [intros H; by inversion H|intros ->; constructor].
  - split; [intros H; inversion H; subst; f_equal; by apply IH|intros ->; constructor; by apply IH].
Qed.

Lemma dot_written_chars w : dot_written (map TChar w) = hidden w.
Proof. destruct w as [|c w]; [done|]. simpl. by repeat case_match. Qed.

(** [*.{a,b,...}]: any characters, a dot, one of the extensions. *)
Lemma tok_matches_ext alts f :
  tok_matches [TStar; TChar 46; TBrace alts] f <-> exists u a, f = u ++ 46 :: a /\ a ∈ alts.
Proof.
  split.
  - intros H; inversion H as [| |ts u s Hs|]; subst. inversion Hs as [|c ts' s' Hs'| |]; subst.
    inversion Hs' as [| | |alts' a ts'' s'' Ha Hnil]; subst. inversion Hnil; subst.
    exists u, a. by rewrite app_nil_r.
  - intros (u & a & -> & Ha). constructor. constructor.
    rewrite <-(app_nil_r a). constructor; [done|constructor].
Qed.

Lemma path_matches_single ts p :
  path_matches [Seg ts] p <->
  exists x, p = [x] /\ (hidden x = true -> dot_written ts = true) /\ tok_matches ts x.
Proof.
  split.
  - intros H; inversion H as [|ts' ps d p' Hh Ht Hp|]; subst. inversion Hp; subst. eauto.
  - intros (x & -> & Hh & Ht). constructor; [done|done|constructor].
Qed.

(** [w/**/<ts>]: the directory [w], visible directories, then one name
    matching [ts]. *)
Lemma path_matches_dir_globstar w ts f :
  path_matches [Seg (map TChar w); Globstar; Seg ts] f <->
  exists ds x, f = w :: ds ++ [x] /\ Forall (fun d => hidden d = false) ds /\
    (hidden x = true -> dot_written ts = true) /\ tok_matches ts x.
Proof.
  split.
  - intros H; inversion H as [|ts' ps d p Hh Hw Hp|]; subst.
    apply tok_matches_chars in Hw as ->. inversion Hp as [| |ps' ds p' Hds Hs]; subst.
    apply path_matches_single in Hs as (x & -> & Hx). eauto.
  - intros (ds & x & -> & Hds & Hx & Ht). constructor.
    + by rewrite dot_written_chars.
    + by apply tok_matches_chars.
    + constructor; [done|]. apply path_matches_single. eauto.
Qed.

End Glob.
