(* ===== verification/Routes.v ===== *)
(** * The App Router: which file serves a URL

    Next.js maps the files under [src/app/] to URLs: a folder is a URL
    segment (a folder named [(group)] adds none, one named [_private]
    hides its subtree), [page.js] / [page.jsx] is the page of its folder
    and [route.js] the route handler, which answers the HTTP methods it
    exports as functions ([export async function POST]) and replies
    405 to the others.

    This file lists the project's files ([repo_files], as paths from the
    project root [src/]), computes the
    page and API URLs from their paths ([app_entry]), records the methods
    each route file exports and the request each client component makes
    ([chat_request], ..., with the URL and method of its [fetch] or
    [axios] call), and resolves a request to the handler that answers it
    ([dispatch]).  The handler names are those of [Handlers]:
    [AiTutor] is [ai_tutor_POST], [Gemini] is [gemini_POST], and so on;
    the end-to-end theorems of [Chat], [Assistant], [Charts] and
    [SchoolDashboard] compose each page with the handler [dispatch]
    finds for its request. *)

From S2P Require Import Prelude JsString.
Import JsString.

Module Routes.

Local Open Scope N_scope.

Definition path_of (s : string) : list (list N) := split (js s) [47].

(** Every file of the project, as its path segments from the project
    root: the folder [src/], which holds the configuration beside the
    [app/] folder. *)
Definition repo_files : list (list (list N)) :=
  map path_of
    ["tailwind.config.mjs"; "app/layout.js"; "app/page.js";
     "app/chatbot/page.js"; "app/network/page.js"; "app/layout/page.jsx";
     "app/components/Hero.jsx"; "app/components/Dashboard.jsx";
     "app/components/AiAssistant.jsx"; "app/components/NetworkStatusChart.jsx";
     "app/components/LearningProgressChart.jsx";
     "app/api/ai-tutor/route.js"; "app/api/evaluate-answer/route.js";
     "app/api/gemini/route.js"; "app/api/insights/route.js";
     "app/api/network-performance/route.js"; "app/api/network-data/route.js";
     "app/api/dashboard-data/route.js"].

Inductive FileKind := PageFile | RouteFile.

#[export] Instance FileKind_eq_dec : EqDecision FileKind.
Proof. solve_decision. Defined.

Definition file_kind (leaf : list N) : option FileKind :=
  if bool_decide (leaf ∈ [js "page.js"; js "page.jsx"; js "page.ts"; js "page.tsx"])
  then Some PageFile
  else if bool_decide (leaf ∈ [js "route.js"; js "route.ts"]) then Some RouteFile
  else None.

Definition private_folder (d : list N) : bool := match d with 95 :: _ => true | _ => false end.

Definition group_folder (d : list N) : bool :=
  match d with 40 :: _ => bool_decide (last d = Some 41) | _ => false end.

(** The URL a file of [app/] serves, with its kind. *)
Definition app_entry (f : list (list N)) : option (FileKind * list N) :=
  match f with
  | a :: rest =>
      if bool_decide (a = js "app") then
        match last rest with
        | Some leaf =>
            let dirs := removelast rest in
            if existsb private_folder dirs then None
            else (fun k => (k, [47] ++ join [47] (filter (fun d => negb (group_folder d)) dirs)))
                   <$> file_kind leaf
        | None => None
        end
      else None
  | _ => None
  end.

Definition page_routes : list (list N) :=
  omap (fun f => match app_entry f with Some (PageFile, u) => Some u | _ => None end) repo_files.

Inductive Method := GET | POST.

#[export] Instance Method_eq_dec : EqDecision Method.
Proof. solve_decision. Defined.

(** The functions each route file exports. *)
Definition ai_tutor_exports : list Method := [POST].

Definition evaluate_answer_exports : list Method := [POST].

Definition gemini_exports : list Method := [POST].

Definition insights_exports : list Method := [POST].

Definition network_performance_exports : list Method := [GET].

Definition network_data_exports : list Method := [GET].

Definition dashboard_data_exports : list Method := [GET].

Inductive Handler :=
| AiTutor | EvaluateAnswer | Gemini | Insights | NetworkPerformance | NetworkData | DashboardData.

#[export] Instance Handler_eq_dec : EqDecision Handler.
Proof. solve_decision. Defined.

Definition api_table : list (list (list N) * Handler * list Method) :=
  [(path_of "app/api/ai-tutor/route.js", AiTutor, ai_tutor_exports);
   (path_of "app/api/evaluate-answer/route.js", EvaluateAnswer, evaluate_answer_exports);
   (path_of "app/api/gemini/route.js", Gemini, gemini_exports);
   (path_of "app/api/insights/route.js", Insights, insights_exports);
   (path_of "app/api/network-performance/route.js", NetworkPerformance,
    network_performance_exports);
   (path_of "app/api/network-data/route.js", NetworkData, network_data_exports);
   (path_of "app/api/dashboard-data/route.js", DashboardData, dashboard_data_exports)].

Inductive Dispatch := Handled (h : Handler) | MethodNotAllowed | NotFound.

(** The route file whose URL is [url], and whether it exports [m]. *)
Definition dispatch (url : list N) (m : Method) : Dispatch :=
  match find (fun e => bool_decide (app_entry e.1.1 = Some (RouteFile, url))) api_table with
  | Some (_, h, ms) => if bool_decide (m ∈ ms) then Handled h else MethodNotAllowed
  | None => NotFound
  end.

(** The request of each client component: [fetch(url)] is a [GET],
    [fetch(url, { method: "POST" })] and [axios.post] a [POST]. *)
Definition chat_request : list N * Method := (js "/api/ai-tutor", POST).

Definition assistant_request : list N * Method := (js "/api/gemini", POST).

Definition network_request : list N * Method := (js "/api/network-performance", GET).

Definition status_chart_request : list N * Method := (js "/api/dashboard-data", GET).

Definition progress_chart_request : list N * Method := (js "/api/dashboard-data", GET).

Definition dashboard_data_request : list N * Method := (js "/api/network-data", GET).

Definition dashboard_insights_request : list N * Method := (js "/api/insights", POST).

Definition client_requests : list (list N * Method) :=
  [chat_request; assistant_request; network_request; status_chart_request;
   progress_chart_request; dashboard_data_request; dashboard_insights_request].

Definition api_urls : list (list N) :=
  omap (fun e => match app_entry e.1.1 with Some (RouteFile, u) => Some u | _ => None end) api_table.

(** ** Lemmas *)

(** What [dispatch] answers is read off the table: the handler of a
    route file serving the URL, and only for a method it exports. *)
Lemma dispatch_sound url m h :
  dispatch url m = Handled h ->
  exists f ms, (f, h, ms) ∈ api_table /\ app_entry f = Some (RouteFile, url) /\ m ∈ ms.
Proof.
  unfold dispatch. destruct (find _ _) as [[[f h'] ms]|] eqn:Hf; [|done].
  apply find_some in Hf as [Hin Hu]. apply bool_decide_eq_true in Hu. simpl in Hu.
  case_bool_decide as Hm; [intros [= <-]|done].
  exists f, ms. split_and!; [by apply list_elem_of_In|done|done].
Qed.

(** Every request a client component makes is answered: the
    route files serve distinct URLs, and the URL and method of each
    call site reach the handler its page is composed with (the chat
    page [ai_tutor_POST], the assistant [gemini_POST], the network page
    [network_performance_GET], both charts [dashboard_data_GET], the
    school dashboard [network_data_GET] and [insights_POST]); no call
    gets a 404 or a 405. *)
Lemma client_requests_dispatch :
  NoDup api_urls /\
  map (fun r => dispatch r.1 r.2) client_requests =
  [Handled AiTutor; Handled Gemini; Handled NetworkPerformance; Handled DashboardData;
   Handled DashboardData; Handled NetworkData; Handled Insights].
Proof. split; [apply (bool_decide_unpack _)|]; vm_compute; reflexivity. Qed.

End Routes.
