(* ===== verification/Tailwind.v ===== *)
(** * The Tailwind configuration and the files it scans

    [src/tailwind.config.mjs] as data: the [content] globs that name the
    files Tailwind reads for class names, and the [theme.extend] entries
    (two [backdropBlur] sizes, the [gradient-pulse] animation and its
    keyframes).  Tailwind resolves the globs from the project root,
    where the build runs: the folder [src/], which holds this file
    beside [app/].  [scans] is whether some glob matches a path from
    that root, with the matcher of [Glob], and [scanned] the project's
    files it selects. *)

From S2P Require Import Prelude JsString Glob Routes.
Import JsString Glob Routes.

Module Tailwind.

Local Open Scope N_scope.

Record Keyframe := mkKeyframe { kf_offsets : list N; kf_style : list (list N * list N) }.

Record Config := mkConfig {
  content : list (list N);
  backdropBlur : list (list N * list N);
  animation : list (list N * list N);
  keyframes : list (list N * list Keyframe)
}.

Definition config : Config := {|
  content := [js "./app/**/*.{js,ts,jsx,tsx}"; js "./components/**/*.{js,ts,jsx,tsx}"];
  backdropBlur := [(js "xs", js "2px"); (js "xl", js "24px")];
  animation := [(js "gradient-pulse", js "gradient-pulse 8s ease infinite")];
  keyframes :=
    [(js "gradient-pulse",
      [mkKeyframe (js "0%, 100%") [(js "background-position", js "0% 50%")];
       mkKeyframe (js "50%") [(js "background-position", js "100% 50%")]])]
|}.

(** Tailwind scans a file when one of the [content] globs matches its
    path from the project root. *)
Definition scans (f : list (list N)) : bool :=
  existsb (fun g => path_match (parse_glob g) f) (content config).

Definition scanned : list (list (list N)) := filter (fun f => scans f = true) repo_files.

(** Each animation names keyframes of the configuration. *)
Lemma animation_keyframes :
  Forall (fun a => head (split a.2 [32]) ∈ Some <$> (keyframes config).*1) (animation config).
Proof. apply (bool_decide_unpack _). vm_compute. reflexivity. Qed.





(** The files the configuration scans in the project: every file under
    [app/], and none under [components/], a folder the project does not
    have (the components live in [app/components/]). *)
Lemma scanned_repo :
  scanned = filter (fun f => bool_decide (take 1 f = [js "app"])) repo_files /\
  filter (fun f => path_match (parse_glob (js "./components/**/*.{js,ts,jsx,tsx}")) f = true)
    repo_files = [].
Proof. split; vm_compute; reflexivity. Qed.


End Tailwind.
