(* ===== verification/ChartRegistry.v ===== *)
(** * Chart.js registration

    Chart.js keeps one global registry of elements, scales and plugins;
    a module adds to it with [ChartJS.register(...)] when it is first
    loaded.  A chart whose type needs an element or scale the registry
    lacks throws while it is created ("... is not a registered element"),
    while an option whose plugin is missing is silently ignored (a title
    that is not drawn, a [fill] that is not painted, with a console
    warning for [fill]).

    The pages load their modules through their imports: [/] loads
    [Hero] and [Dashboard], which loads the two chart components and
    the assistant; [/network] and [/layout] are one module each.  This
    file records what each module registers and which charts it renders
    with which options, what each chart type needs (react-chartjs-2
    registers the chart controllers itself), and computes, per page,
    the registry its first load builds and what every chart lacks. *)

From S2P Require Import Prelude.

Module ChartRegistry.

Inductive Component :=
| CategoryScale | LinearScale | PointElement | LineElement | BarElement | ArcElement
| Title | Tooltip | Legend | Filler.

#[export] Instance Component_eq_dec : EqDecision Component.
Proof. solve_decision. Defined.

Inductive ChartType := LineChart | BarChart | PieChart.

(** A chart as rendered: its type, whether its options display a title
    and whether a dataset asks for [fill]. *)
Record RenderedChart := mkRendered { chart_type : ChartType; shows_title : bool; fills : bool }.

#[export] Instance ChartType_eq_dec : EqDecision ChartType.
Proof. solve_decision. Defined.

#[export] Instance RenderedChart_eq_dec : EqDecision RenderedChart.
Proof. solve_decision. Defined.

(** What creating a chart of each type needs: its elements and the
    default category x / linear y scales of the cartesian types. *)
Definition elements (t : ChartType) : list Component :=
  match t with
  | LineChart => [LineElement; PointElement; CategoryScale; LinearScale]
  | BarChart => [BarElement; CategoryScale; LinearScale]
  | PieChart => [ArcElement]
  end.

(** The plugins behind the options: the legend and tooltips (on by
    default), the title when displayed, the filler for [fill]. *)
Definition features (c : RenderedChart) : list Component :=
  [Legend; Tooltip] ++ (if shows_title c then [Title] else []) ++ (if fills c then [Filler] else []).

Definition missing_features (reg : list Component) (c : RenderedChart) : list Component :=
  filter (fun x => x ∉ reg) (features c).

Inductive Source :=
| SrcHome | SrcHero | SrcDashboard | SrcStatusChart | SrcProgressChart | SrcAssistant
| SrcChat | SrcNetwork | SrcLayout.

(** [import Dashboard from "./components/Dashboard"; import Hero ...] *)
Definition home_imports : list Source := [SrcDashboard; SrcHero].

(** [import NetworkStatusChart ...; import LearningProgressChart ...;
    import AiAssistant ...] *)
Definition dashboard_imports : list Source := [SrcStatusChart; SrcProgressChart; SrcAssistant].

Definition imports (s : Source) : list Source :=
  match s with
  | SrcHome => home_imports
  | SrcDashboard => dashboard_imports
  | _ => []
  end.

(** The modules a page loads: the import graph is acyclic, so a depth
    of nine (the number of modules) reaches all of them. *)
Fixpoint modules_of (fuel : nat) (s : Source) : list Source :=
  match fuel with
  | O => [s]
  | S f => s :: flat_map (modules_of f) (imports s)
  end.

Definition network_registrations : list Component :=
  [CategoryScale; LinearScale; PointElement; LineElement; BarElement; ArcElement;
   Title; Tooltip; Legend].

Definition layout_registrations : list Component :=
  [CategoryScale; LinearScale; PointElement; LineElement; Title; Tooltip; Legend].

Definition status_registrations : list Component :=
  [CategoryScale; LinearScale; BarElement; Title; Tooltip; Legend].

Definition progress_registrations : list Component :=
  [CategoryScale; LinearScale; PointElement; LineElement; Title; Tooltip; Legend].

Definition registrations (s : Source) : list Component :=
  match s with
  | SrcNetwork => network_registrations
  | SrcLayout => layout_registrations
  | SrcStatusChart => status_registrations
  | SrcProgressChart => progress_registrations
  | _ => []
  end.

(** The three [<Line>], the [<Pie>] and the two [<Bar>] of the network
    page, all with a displayed title and no [fill]. *)
Definition network_charts_rendered : list RenderedChart :=
  [mkRendered LineChart true false; mkRendered LineChart true false; mkRendered LineChart true false;
   mkRendered PieChart true false; mkRendered BarChart true false; mkRendered BarChart true false].

(** [<Line data={chartData} />]: no options, [fill: false]. *)
Definition layout_charts_rendered : list RenderedChart := [mkRendered LineChart false false].

Definition status_charts_rendered : list RenderedChart := [mkRendered BarChart true false].

(** The progress chart's dataset has [fill: true]. *)
Definition progress_charts_rendered : list RenderedChart := [mkRendered LineChart true true].

Definition charts_of (s : Source) : list RenderedChart :=
  match s with
  | SrcNetwork => network_charts_rendered
  | SrcLayout => layout_charts_rendered
  | SrcStatusChart => status_charts_rendered
  | SrcProgressChart => progress_charts_rendered
  | _ => []
  end.

Inductive Page := PgHome | PgChat | PgNetwork | PgLayout.

Definition page_entry (p : Page) : Source :=
  match p with
  | PgHome => SrcHome | PgChat => SrcChat | PgNetwork => SrcNetwork | PgLayout => SrcLayout
  end.

Definition page_registry (p : Page) : list Component :=
  flat_map registrations (modules_of 9 (page_entry p)).

Definition page_charts (p : Page) : list RenderedChart :=
  flat_map charts_of (modules_of 9 (page_entry p)).

Definition pages : list Page := [PgHome; PgChat; PgNetwork; PgLayout].

(** ** Lemmas *)

Lemma filler_feature c : Filler ∈ features c -> fills c = true.
Proof.
  unfold features. destruct (shows_title c), (fills c); simpl; [done| |done|];
    rewrite !elem_of_cons, elem_of_nil; intuition discriminate.
Qed.

(** On its first load each page registers every element its charts
    need and every plugin their options use, the filler aside. *)
Lemma page_charts_covered p c :
  c ∈ page_charts p ->
  elements (chart_type c) ⊆ page_registry p /\ features c ⊆ Filler :: page_registry p.
Proof.
  revert c. apply Forall_forall.
  destruct p; apply (bool_decide_unpack _); vm_compute; reflexivity.
Qed.

(** Whatever the registry holds when a page's charts are created
    (at least what the page's own modules register: navigating from
    another page only adds), every chart is created without a missing
    element or scale, and the only plugin it can lack is the filler for
    a [fill] option: the progress chart asks for [fill: true] and no
    module registers [Filler], so its area is never painted. *)
Lemma chartjs_registry p reg c :
  page_registry p ⊆ reg -> c ∈ page_charts p ->
  elements (chart_type c) ⊆ reg /\ missing_features reg c ⊆ (if fills c then [Filler] else []).
Proof.
  intros Hreg Hc. destruct (page_charts_covered p c Hc) as [He Hf].
  split; [by etrans|].
  intros x Hx. unfold missing_features in Hx. apply list_elem_of_filter in Hx as [Hxr Hxf].
  pose proof Hxf as Hfeat. apply Hf, elem_of_cons in Hxf as [->|Hxp]; [|by destruct Hxr; apply Hreg].
  rewrite (filler_feature c Hfeat). by apply list_elem_of_singleton.
Qed.

End ChartRegistry.
