(* ===== verification/Scan.v ===== *)
(** * The regular expressions of [formatNetworkResponse]

    [src/app/api/gemini/route.js] lines 36-38 call [text.match(re)] with
    three non-global regular expressions.  [text.match] runs
    RegExpBuiltinExec: the pattern's matcher is tried at [lastIndex] 0, 1,
    2, ... up to the length of the text, and the first success is the
    result ([search]).  Each matcher is written here from the ECMAScript
    backtracking semantics of its pattern:

    - [/\[SEVERITY: (\w+)\]/i] ([sev_at]): the literal is compared after
      Canonicalize (non-unicode ignoreCase: [toUpperCase], but a code unit
      >= 128 never canonicalises to one < 128, so only ASCII code units
      match the ASCII literal, [ci_eq]); [\w+] is greedy, and backtracking
      to a shorter run never helps because the next code unit would be a
      word character and not [\]].  Group 1 is the run as written.
    - [/Predictions: (.*?)(?=\n|$)/] ([field_at]): case-sensitive literal;
      the lazy [.*?] grows one code unit at a time until the look-ahead
      sees [\n] or the end of input ([$] without the [m] flag); [.] stops
      at any LineTerminator, so a [\r], U+2028 or U+2029 before the first
      [\n] makes the attempt at this index fail.

    Theorems: a result of [search] is the matcher's result at the
    left-most index where it succeeds; the matchers' results are
    characterised by decompositions of the input. *)

From S2P Require Import Prelude JsString.
Import JsString.

Module Scan.

(** ** The generic left-most search of RegExpBuiltinExec *)

Fixpoint search {A} (m : list N -> option A) (s : list N) : option A :=
  match m s with
  | Some r => Some r
  | None => match s with
            | [] => None
            | _ :: s' => search m s'
            end
  end.

(** ** [/\[SEVERITY: (\w+)\]/i] *)

(** Canonicalize-equality against an ASCII literal code unit. *)
Definition ci_eq (c lit : N) : bool := (ascii_upper c =? ascii_upper lit)%N.

Definition severity_open : list N := js "[SEVERITY: ".
Definition close_bracket : N := 93%N.

Definition sev_at (s : list N) : option (list N) :=
  if starts_with_by ci_eq severity_open s then
    let rest := drop (length severity_open) s in
    let w := take_while is_word_char rest in
    match w, drop_while is_word_char rest with
    | _ :: _, c :: _ => if ci_eq c close_bracket then Some w else None
    | _, _ => None
    end
  else None.

(** [text.match(/\[SEVERITY: (\w+)\]/i)], projected on group 1. *)
Definition severity_match (text : list N) : option (list N) := search sev_at text.

(** ** [/Predictions: (.*?)(?=\n|$)/] and [/Recommendations: .../] *)

Definition not_lt (c : N) : bool := negb (is_line_terminator c).

Definition field_at (label s : list N) : option (list N) :=
  if starts_with label s then
    let rest := drop (length label) s in
    let c := take_while not_lt rest in
    match drop_while not_lt rest with
    | [] => Some c
    | x :: _ => if (x =? newline)%N then Some c else None
    end
  else None.

Definition predictions_label : list N := js "Predictions: ".
Definition recommendations_label : list N := js "Recommendations: ".

(** [text.match(/Predictions: (.*?)(?=\n|$)/)], projected on group 1. *)
Definition predictions_match (text : list N) : option (list N) :=
  search (field_at predictions_label) text.

(** [text.match(/Recommendations: (.*?)(?=\n|$)/)], projected on group 1. *)
Definition recommendations_match (text : list N) : option (list N) :=
  search (field_at recommendations_label) text.

(** ** Lemmas on the search *)

Section Search.
Context {A : Type} (m : list N -> option A).

Lemma search_leftmost s r :
  search m s = Some r ->
  exists i, i <= length s /\ m (drop i s) = Some r /\
            forall j, j < i -> m (drop j s) = None.
Proof.
  induction s as [|c s IH]; simpl.
  - destruct (m []) eqn:E; [|done]. intros [= <-]. exists 0. split; [lia|]. by split; [|lia].
  - destruct (m (c :: s)) eqn:E.
    + intros [= <-]. exists 0. split; [lia|]. split; [done|lia].
    + intros (i & Hi & Hm & Hbefore)%IH. exists (S i). split; [lia|]. split; [done|].
      intros [|j] Hj; [done|]. simpl. apply Hbefore. lia.
Qed.

Lemma search_none s : search m s = None -> forall i, m (drop i s) = None.
Proof.
  induction s as [|c s IH]; simpl; intros H.
  - destruct (m []) eqn:E; [done|]. intros [|i]; done.
  - destruct (m (c :: s)) eqn:E; [done|]. intros [|i]; simpl; auto.
Qed.

Lemma search_all_none s : (forall i, m (drop i s) = None) -> search m s = None.
Proof.
  induction s as [|c s IH]; intros H; pose proof (H 0) as H0; simpl in *; rewrite H0.
  - done.
  - apply IH. intros i. apply (H (S i)).
Qed.

Lemma search_here s r : m s = Some r -> search m s = Some r.
Proof. destruct s; simpl; by intros ->. Qed.

Lemma search_first s i r :
  m (drop i s) = Some r -> (forall j, j < i -> m (drop j s) = None) -> search m s = Some r.
Proof.
  revert s. induction i as [|i IH]; intros s Hm Hbefore.
  - destruct s; simpl in *; by rewrite Hm.
  - destruct s as [|c s]; simpl in *.
    + specialize (Hbefore 0 ltac:(lia)). simpl in *. congruence.
    + pose proof (Hbefore 0 ltac:(lia)) as H0. simpl in H0. rewrite H0. apply IH; [done|].
      intros j Hj. apply (Hbefore (S j)). lia.
Qed.

(** A search over [pre ++ s] where no index of [pre] matches is a search
    over [s]. *)
Lemma search_app_skip pre s :
  (forall j, j < length pre -> m (drop j (pre ++ s)) = None) ->
  search m (pre ++ s) = search m s.
Proof.
  induction pre as [|c pre IH]; intros Hpre; [done|]. simpl.
  pose proof (Hpre 0 ltac:(simpl; lia)) as H0. simpl in H0. rewrite H0. apply IH.
  intros j Hj. apply (Hpre (S j)). simpl. lia.
Qed.
End Search.

(** ** The matchers, characterised *)

(** Canonicalize-equality with a code unit that is not an ASCII letter is
    plain equality. *)
Lemma ci_eq_nonletter c lit :
  (lit < 65 \/ 90 < lit < 97 \/ 122 < lit)%N -> ci_eq c lit = true <-> c = lit.
Proof.
  intros Hlit. unfold ci_eq, ascii_upper.
  destruct ((97 <=? c) && (c <=? 122))%N eqn:Ec, ((97 <=? lit) && (lit <=? 122))%N eqn:El;
    rewrite ?andb_true_iff, ?andb_false_iff, ?N.leb_le, ?N.leb_gt in *;
    rewrite N.eqb_eq; lia.
Qed.

Lemma ci_eq_refl c : ci_eq c c = true.
Proof. apply N.eqb_refl. Qed.

Lemma close_bracket_not_word : is_word_char close_bracket = false.
Proof. reflexivity. Qed.

Lemma starts_with_by_forall2 (eqf : N -> N -> bool) q p r :
  Forall2 (fun y x => eqf y x = true) q p -> starts_with_by eqf p (q ++ r) = true.
Proof. induction 1 as [|y x q p Hyx _ IH]; simpl; [done|]. by rewrite Hyx, IH. Qed.

(** The matcher fails at an index that does not hold ['[']. *)
Lemma sev_at_cons_other c s : c <> 91%N -> sev_at (c :: s) = None.
Proof.
  intros Hc. unfold sev_at.
  change (starts_with_by ci_eq severity_open (c :: s))
    with (ci_eq c 91 && starts_with_by ci_eq (tail severity_open) s).
  replace (ci_eq c 91) with false; [done|].
  symmetry. apply not_true_iff_false. rewrite ci_eq_nonletter; [done|lia].
Qed.

(** Completeness: a case-variant of the opening literal, a non-empty run of
    word characters and [\]] are matched, with the run as group 1. *)
Lemma sev_at_complete p w r :
  Forall2 (fun y x => ci_eq y x = true) p severity_open ->
  w <> [] -> Forall (fun c => is_word_char c = true) w ->
  sev_at (p ++ w ++ close_bracket :: r) = Some w.
Proof.
  intros Hp Hw Hword. unfold sev_at.
  rewrite starts_with_by_forall2 by done.
  rewrite <- (Forall2_length _ _ _ Hp), drop_app_length.
  rewrite take_while_app_stop, drop_while_app_stop by done.
  destruct w; [done|]. reflexivity.
Qed.

(** Soundness: a match is such a decomposition. *)
Lemma sev_at_sound s w :
  sev_at s = Some w ->
  exists p r, s = p ++ w ++ close_bracket :: r /\
    Forall2 (fun y x => ci_eq y x = true) p severity_open /\
    w <> [] /\ Forall (fun c => is_word_char c = true) w.
Proof.
  unfold sev_at. destruct (starts_with_by ci_eq severity_open s) eqn:Hs; [|done].
  apply starts_with_by_split in Hs as (q & rest & -> & Hlen & Hq).
  rewrite <- Hlen, drop_app_length.
  pose proof (take_drop_while is_word_char rest) as Hsplit.
  pose proof (take_while_all is_word_char rest) as Hall.
  destruct (take_while is_word_char rest) as [|x w'] eqn:Ew; [done|].
  destruct (drop_while is_word_char rest) as [|c r] eqn:Ed; [done|].
  destruct (ci_eq c close_bracket) eqn:Ec; [|done]. intros [= <-].
  apply ci_eq_nonletter in Ec; [|unfold close_bracket; lia]. subst c.
  exists q, r. rewrite <- Hsplit. auto.
Qed.

(** Completeness of [field_at]: a line that starts with the label and ends
    at [\n] or at the end of the text is matched, with the rest of the
    line as group 1. *)
Lemma field_at_complete label c rest :
  Forall (fun x => not_lt x = true) c ->
  (rest = [] \/ exists r, rest = newline :: r) ->
  field_at label (label ++ c ++ rest) = Some c.
Proof.
  intros Hc Hrest. unfold field_at. rewrite starts_with_app, drop_app_length.
  destruct Hrest as [->|[r ->]].
  - rewrite app_nil_r, take_while_all_id, drop_while_all_nil by done. done.
  - rewrite take_while_app_stop, drop_while_app_stop by done. done.
Qed.

Lemma field_at_sound label s c :
  field_at label s = Some c ->
  exists rest, s = label ++ c ++ rest /\ Forall (fun x => not_lt x = true) c /\
    (rest = [] \/ exists r, rest = newline :: r).
Proof.
  unfold field_at. destruct (starts_with label s) eqn:Hs; [|done].
  apply starts_with_spec in Hs as [t ->]. rewrite drop_app_length.
  pose proof (take_drop_while not_lt t) as Hsplit.
  pose proof (take_while_all not_lt t) as Hall.
  destruct (drop_while not_lt t) as [|x r] eqn:Ed.
  - intros [= <-]. rewrite app_nil_r in Hsplit.
    exists []. rewrite app_nil_r, Hsplit. rewrite Hsplit in Hall. auto.
  - destruct (x =? newline)%N eqn:Ex; [|done]. intros [= <-].
    apply N.eqb_eq in Ex. subst x.
    exists (newline :: r). rewrite Hsplit. eauto.
Qed.

(** The field matchers need the label where they start. *)
Lemma field_at_starts label s : starts_with label s = false -> field_at label s = None.
Proof. unfold field_at. by intros ->. Qed.

Lemma field_search_sep_free label s :
  sep_free label s -> search (field_at label) s = None.
Proof.
  intros Hfree. induction s as [|x s IH]; simpl.
  - rewrite field_at_starts; [done|apply (Hfree 0)].
  - rewrite field_at_starts by apply (Hfree 0). apply IH. intros i. apply (Hfree (S i)).
Qed.

End Scan.
