(* ===== verification/JsValue.v ===== *)
(** * JavaScript values

    The values the handlers read from request bodies and completions and
    put into their replies: the JSON values, [undefined], a built-in
    function and [Object.prototype] (reached through the key
    [__proto__]).  Operations, from the ECMAScript algorithms:
    - [get_value]: a property read [v.key] (GetV): [TypeError] on
      [undefined] and [null], an own property of an object, else the
      properties every object inherits from [Object.prototype].  Reads on
      primitives and arrays only model those inherited names and the
      absence of the others: the keys the code reads (question, answer,
      difficulty, query, historicalData, comment, score, insights, ...) are
      properties of no built-in prototype.
    - [destructure]: [const { key } = v] (RequireObjectCoercible, then GetV).
    - [to_js_string]: ToString as a template literal applies it, [None]
      for the [TypeError] of an object whose own [toString] is not callable.
    - [to_boolean]: the truthiness [||] tests.
    [Number::toString] and JSON are interfaces ([NumberFormat],
    [JsonCodec]): the handlers are proved for every instance. *)

From S2P Require Import Prelude JsString.
From Stdlib Require Import ZArith QArith.
Import JsString.

Module JsValue.

Inductive JsValue :=
| JUndefined
| JNull
| JBool (b : bool)
| JNumber (q : Q)
| JString (s : list N)
| JArray (items : list JsValue)
| JObject (props : list (list N * JsValue))
| JFunction
| JObjectPrototype.

(** ** Interfaces *)

(** [Number::toString]: fixed on integers below 10^21 (plain decimal
    digits); the shortest round-trip digits of other doubles are left to
    the instance. *)
Class NumberFormat := {
  number_to_string : Q -> list N;
  number_to_string_int : forall z, (Z.abs z < 10 ^ 21)%Z ->
    number_to_string (inject_Z z) = Z_to_js z
}.

(** [JSON.parse] ([inl message]: the SyntaxError and its message) and
    [JSON.stringify] ([None]: the result [undefined]). *)
Class JsonCodec := {
  json_parse : list N -> list N + JsValue;
  json_stringify : JsValue -> option (list N)
}.

(** ** Properties *)

(** The names every plain object inherits from [Object.prototype]. *)
Definition object_prototype_keys : list (list N) :=
  map js ["constructor"; "__defineGetter__"; "__defineSetter__"; "hasOwnProperty";
          "__lookupGetter__"; "__lookupSetter__"; "isPrototypeOf";
          "propertyIsEnumerable"; "toString"; "valueOf"; "toLocaleString"].

Definition own_prop (props : list (list N * JsValue)) (key : list N) : option JsValue :=
  snd <$> List.find (fun kv => bool_decide (kv.1 = key)) props.

(** A property missing from the object itself, looked up on
    [Object.prototype]. *)
Definition inherited (key : list N) : JsValue :=
  if decide (key = js "__proto__") then JObjectPrototype
  else if decide (key ∈ object_prototype_keys) then JFunction
  else JUndefined.

(** [obj[key]] on an object with the given own properties. *)
Definition object_get (props : list (list N * JsValue)) (key : list N) : JsValue :=
  match own_prop props key with
  | Some v => v
  | None => inherited key
  end.

(** GetV: [None] is the [TypeError] of a read on [undefined] or [null]. *)
Definition get_value (v : JsValue) (key : list N) : option JsValue :=
  match v with
  | JUndefined | JNull => None
  | JObject props => Some (object_get props key)
  | JObjectPrototype =>
      Some (if decide (key = js "__proto__") then JNull
            else if decide (key ∈ object_prototype_keys) then JFunction
            else JUndefined)
  | _ => Some (inherited key)
  end.

(** [const { key } = v]. *)
Definition destructure (v : JsValue) (key : list N) : option JsValue := get_value v key.

(** ** ToString *)

Section ToString.
Context `{NumberFormat}.

Fixpoint join_opt (sep : list N) (l : list (option (list N))) : option (list N) :=
  match l with
  | [] => Some []
  | [x] => x
  | x :: l' => match x, join_opt sep l' with
               | Some a, Some b => Some (a ++ sep ++ b)
               | _, _ => None
               end
  end.

(** ToString(v) in a template literal; [None] is a [TypeError]. *)
Fixpoint to_js_string (v : JsValue) : option (list N) :=
  match v with
  | JUndefined => Some (js "undefined")
  | JNull => Some (js "null")
  | JBool true => Some (js "true")
  | JBool false => Some (js "false")
  | JNumber q => Some (number_to_string q)
  | JString s => Some s
  | JArray items =>
      (* Array.prototype.join(","): undefined and null elements are empty *)
      join_opt [44%N] (map (fun x => match x with
                                     | JUndefined | JNull => Some []
                                     | _ => to_js_string x
                                     end) items)
  | JObject props =>
      (* an own toString (a JSON value, never callable) is skipped, and the
         inherited valueOf returns the object itself *)
      match own_prop props (js "toString") with
      | Some _ => None
      | None => Some (js "[object Object]")
      end
  | JFunction => Some (js "function () { [native code] }")
  | JObjectPrototype => Some (js "[object Object]")
  end.
End ToString.

(** ToBoolean, the test of [a || b]. *)
Definition to_boolean (v : JsValue) : bool :=
  match v with
  | JUndefined | JNull => false
  | JBool b => b
  | JNumber q => negb (Qeq_bool q 0)
  | JString s => negb (bool_decide (s = []))
  | _ => true
  end.

(** [a || b] *)
Definition js_or (a b : JsValue) : JsValue := if to_boolean a then a else b.

End JsValue.
