(* ===== verification/Json.v ===== *)
(** * JSON.stringify and JSON.parse

    The JSON functions the handlers use (request bodies, the evaluator's
    completion, [historicalData], the replies), on the value model of
    [JsValue], from ECMA-262:
    - [serialize]: SerializeJSONProperty without indentation.  Strings go
      through QuoteJSONString (the short escapes, [\u00XX] for other
      control characters and lone surrogates); properties whose value is
      [undefined] or a function are left out of objects and become [null]
      in arrays; own keys are enumerated in OrdinaryOwnPropertyKeys order
      (array indices ascending, then the other keys in creation order).
    - [parse_value]: the JSON grammar as a recursive-descent parser with
      fuel; a repeated key keeps its first position and takes the last
      value (CreateDataProperty).  Numbers are kept as the exact rational
      the literal denotes: the rounding of JSON.parse to the nearest double
      is not modelled.  A SyntaxError carries one fixed message (engines
      word it differently).
    [json_codec] packages them as the [JsonCodec] instance;
    [decimal_number_format] is a [NumberFormat] instance for concrete runs
    (exact decimal expansion in plain notation). *)

From S2P Require Import Prelude JsString JsValue.
From Stdlib Require Import ZArith QArith Qround DecimalN DecimalPos.
Import JsString JsValue.

Module Json.

Local Open Scope N_scope.

(** ** Quoting *)

Definition hex_digit (n : N) : N := if n <? 10 then 48 + n else 87 + n.

Definition hex4 (c : N) : list N :=
  [hex_digit ((c / 4096) mod 16); hex_digit ((c / 256) mod 16);
   hex_digit ((c / 16) mod 16); hex_digit (c mod 16)].

Definition is_leading (c : N) : bool := (55296 <=? c) && (c <=? 56319).
Definition is_trailing (c : N) : bool := (56320 <=? c) && (c <=? 57343).

Definition unicode_escape (c : N) : list N := [92; 117] ++ hex4 c.

(** The short escapes of QuoteJSONString. *)
Definition short_escape (c : N) : option N :=
  if c =? 8 then Some 98 else if c =? 9 then Some 116 else if c =? 10 then Some 110
  else if c =? 12 then Some 102 else if c =? 13 then Some 114
  else if c =? 34 then Some 34 else if c =? 92 then Some 92 else None.

Fixpoint quote_units (s : list N) : list N :=
  match s with
  | [] => []
  | c :: s' =>
      match short_escape c with
      | Some e => [92; e] ++ quote_units s'
      | None =>
          if c <? 32 then unicode_escape c ++ quote_units s'
          else if is_leading c then
            match s' with
            | d :: s'' => if is_trailing d then c :: d :: quote_units s''
                          else unicode_escape c ++ quote_units s'
            | [] => unicode_escape c
            end
          else if is_trailing c then unicode_escape c ++ quote_units s'
          else c :: quote_units s'
      end
  end.

(** QuoteJSONString *)
Definition quote_json (s : list N) : list N := [34] ++ quote_units s ++ [34].

(** ** Own-key order *)

Definition is_digit (c : N) : bool := (48 <=? c) && (c <=? 57).

Definition digits_value (ds : list N) : Z :=
  fold_left (fun acc d => (acc * 10 + Z.of_N (d - 48))%Z) ds 0%Z.

(** A canonical array index: ["0"] or a digit string without a leading
    zero whose value is below 2^32 - 1. *)
Definition array_index (k : list N) : option Z :=
  match k with
  | [] => None
  | d :: rest =>
      if forallb is_digit k && (negb (d =? 48) || bool_decide (rest = []))
         && (digits_value k <? 4294967295)%Z
      then Some (digits_value k) else None
  end.

Fixpoint insert_index {A} (i : Z) (x : A) (l : list (Z * A)) : list (Z * A) :=
  match l with
  | [] => [(i, x)]
  | (j, y) :: l' => if (i <=? j)%Z then (i, x) :: l else (j, y) :: insert_index i x l'
  end.

(** OrdinaryOwnPropertyKeys: array indices ascending, then the other keys
    in creation order. *)
Definition ordered_props {A} (props : list (list N * A)) : list (list N * A) :=
  let idx := fold_left (fun acc kv => match array_index kv.1 with
                                       | Some i => insert_index i kv acc
                                       | None => acc
                                       end) props [] in
  map snd idx ++ List.filter (fun kv => match array_index kv.1 with
                                        | Some _ => false
                                        | None => true
                                        end) props.

(** ** Serialisation *)

(** A member [key:value] of a serialised object. *)
Definition member_text (k sx : list N) : list N := quote_json k ++ [58] ++ sx.

Section Serialize.
Context `{NumberFormat}.

Fixpoint serialize (v : JsValue) : option (list N) :=
  match v with
  | JNull => Some (js "null")
  | JBool true => Some (js "true")
  | JBool false => Some (js "false")
  | JNumber q => Some (number_to_string q)
  | JString s => Some (quote_json s)
  | JArray items =>
      Some ([91] ++ join [44] (map (fun x => match serialize x with
                                              | Some sx => sx
                                              | None => js "null"
                                              end) items) ++ [93])
  | JObject props =>
      (* each property's serialisation, in creation order, then enumerated
         in own-key order; the undefined ones are left out *)
      Some ([123] ++ join [44] (omap (fun '(k, sx) => member_text k <$> sx)
                                  (ordered_props (map (fun '(k, x) => (k, serialize x)) props)))
            ++ [125])
  | JUndefined | JFunction => None
  | JObjectPrototype => Some (js "{}")
  end.
End Serialize.

(** ** Parsing *)

Definition is_ws (c : N) : bool := (c =? 9) || (c =? 10) || (c =? 13) || (c =? 32).
Definition skip_ws (s : list N) : list N := drop_while is_ws s.

Definition hex_value (c : N) : option N :=
  if (48 <=? c) && (c <=? 57) then Some (c - 48)
  else if (65 <=? c) && (c <=? 70) then Some (c - 55)
  else if (97 <=? c) && (c <=? 102) then Some (c - 87)
  else None.

Definition escape_value (e : N) : option N :=
  if e =? 34 then Some 34 else if e =? 92 then Some 92 else if e =? 47 then Some 47
  else if e =? 98 then Some 8 else if e =? 102 then Some 12 else if e =? 110 then Some 10
  else if e =? 114 then Some 13 else if e =? 116 then Some 9 else None.

Definition cons_fst {A B} (c : A) (r : option (list A * B)) : option (list A * B) :=
  match r with Some (str, rest) => Some (c :: str, rest) | None => None end.

(** The characters of a string literal after its opening quote, up to and
    without the closing quote. *)
Fixpoint string_body (s : list N) : option (list N * list N) :=
  match s with
  | [] => None
  | c :: s' =>
      if c =? 34 then Some ([], s')
      else if c =? 92 then
        match s' with
        | e :: s'' =>
            match escape_value e with
            | Some u => cons_fst u (string_body s'')
            | None =>
                match s'' with
                | h1 :: h2 :: h3 :: h4 :: s3 =>
                    if e =? 117 then
                      match hex_value h1, hex_value h2, hex_value h3, hex_value h4 with
                      | Some a, Some b, Some c', Some d =>
                          cons_fst (((a * 16 + b) * 16 + c') * 16 + d) (string_body s3)
                      | _, _, _, _ => None
                      end
                    else None
                | _ => None
                end
            end
        | [] => None
        end
      else if c <? 32 then None
      else cons_fst c (string_body s')
  end.

(** A JSON number: [-? (0 | [1-9][0-9]* ) (. [0-9]+)? ([eE] [+-]? [0-9]+)?]
    and the exact rational it denotes. *)
Definition scale (m e : Z) : Q :=
  if (0 <=? e)%Z then inject_Z (m * 10 ^ e) else (m # Z.to_pos (10 ^ (- e)))%Q.

Definition head_is (c : N) (s : list N) : bool :=
  match s with x :: _ => x =? c | [] => false end.

Definition parse_number (s : list N) : option (Q * list N) :=
  let neg := head_is 45 s in
  let s1 := if neg then tail s else s in
  let int := if head_is 48 s1 then [48] else take_while is_digit s1 in
  if bool_decide (int = []) then None else
  let s2 := drop (length int) s1 in
  let has_frac := head_is 46 s2 in
  let frac := if has_frac then take_while is_digit (tail s2) else [] in
  let s3 := if has_frac then drop_while is_digit (tail s2) else s2 in
  if has_frac && bool_decide (frac = []) then None else
  let has_exp := head_is 101 s3 || head_is 69 s3 in
  let r := tail s3 in
  let r1 := if head_is 45 r || head_is 43 r then tail r else r in
  let eds := take_while is_digit r1 in
  if has_exp && bool_decide (eds = []) then None else
  let ex := if has_exp then (if head_is 45 r then - digits_value eds else digits_value eds)%Z
            else 0%Z in
  let s4 := if has_exp then drop_while is_digit r1 else s3 in
  let q := scale (digits_value (int ++ frac)) (ex - Z.of_nat (length frac))%Z in
  Some (if neg then Qopp q else q, s4).

(** [obj[k] = v] as CreateDataProperty: a new key goes last, an existing
    key keeps its place and takes the new value. *)
Fixpoint obj_set (props : list (list N * JsValue)) (k : list N) (v : JsValue)
  : list (list N * JsValue) :=
  match props with
  | [] => [(k, v)]
  | (k', v') :: ps => if bool_decide (k' = k) then (k, v) :: ps else (k', v') :: obj_set ps k v
  end.

Fixpoint parse_value (fuel : nat) (s : list N) : option (JsValue * list N) :=
  match fuel with
  | O => None
  | S f =>
      match skip_ws s with
      | [] => None
      | c :: s' =>
          if c =? 123 then
            if head_is 125 (skip_ws s') then Some (JObject [], tail (skip_ws s'))
            else parse_members f s' []
          else if c =? 91 then
            if head_is 93 (skip_ws s') then Some (JArray [], tail (skip_ws s'))
            else parse_elements f s' []
          else if c =? 34 then (fun '(str, r) => (JString str, r)) <$> string_body s'
          else if c =? 116 then
            if starts_with (js "rue") s' then Some (JBool true, drop 3 s') else None
          else if c =? 102 then
            if starts_with (js "alse") s' then Some (JBool false, drop 4 s') else None
          else if c =? 110 then
            if starts_with (js "ull") s' then Some (JNull, drop 3 s') else None
          else (fun '(q, r) => (JNumber q, r)) <$> parse_number (c :: s')
      end
  end
with parse_members (fuel : nat) (s : list N) (acc : list (list N * JsValue))
  : option (JsValue * list N) :=
  match fuel with
  | O => None
  | S f =>
      match skip_ws s with
      | 34 :: s1 =>
          match string_body s1 with
          | Some (k, s2) =>
              match skip_ws s2 with
              | 58 :: s3 =>
                  match parse_value f s3 with
                  | Some (v, s4) =>
                      match skip_ws s4 with
                      | 44 :: s5 => parse_members f s5 (obj_set acc k v)
                      | 125 :: s5 => Some (JObject (obj_set acc k v), s5)
                      | _ => None
                      end
                  | None => None
                  end
              | _ => None
              end
          | None => None
          end
      | _ => None
      end
  end
with parse_elements (fuel : nat) (s : list N) (acc : list JsValue)
  : option (JsValue * list N) :=
  match fuel with
  | O => None
  | S f =>
      match parse_value f s with
      | Some (v, s1) =>
          match skip_ws s1 with
          | 44 :: s2 => parse_elements f s2 (acc ++ [v])
          | 93 :: s2 => Some (JArray (acc ++ [v]), s2)
          | _ => None
          end
      | None => None
      end
  end.

Definition syntax_error : list N := js "Unexpected token in JSON".

(** [JSON.parse(text)]: one value and nothing but white space after it.
    Each nested call consumes a code unit before the next one nests, so
    twice the length is enough fuel. *)
Definition json_parse_text (text : list N) : list N + JsValue :=
  match parse_value (2 * length text + 2)%nat text with
  | Some (v, rest) => if bool_decide (skip_ws rest = []) then inr v else inl syntax_error
  | None => inl syntax_error
  end.


(** ** What a round trip gives back *)

(** [JSON.parse(JSON.stringify(v))]: [undefined] and function members
    are dropped from objects and become [null] in arrays, and
    [Object.prototype] has no own enumerable property. *)
Fixpoint normalize (v : JsValue) : JsValue :=
  match v with
  | JArray items =>
      JArray (map (fun x => match x with
                            | JUndefined | JFunction => JNull
                            | _ => normalize x
                            end) items)
  | JObject props =>
      JObject (omap (fun '(k, x) => match x with
                                    | JUndefined | JFunction => None
                                    | _ => Some (k, normalize x)
                                    end) props)
  | JObjectPrototype => JObject []
  | _ => v
  end.

Definition code_unit (c : N) : bool := c <? 65536.

(** The values whose serialisation parses back to their normal form:
    numbers are integral and below 10^21 (printed in plain digits), and
    objects have distinct keys none of which is an array index (so that
    enumeration keeps creation order).  Any string qualifies. *)
Fixpoint plain_json (v : JsValue) : bool :=
  match v with
  | JNumber q => Z.eqb (Z.pos (Qden q)) 1 && (Z.abs (Qnum q) <? 10 ^ 21)%Z
  | JString _ => true
  | JArray items => forallb plain_json items
  | JObject props =>
      bool_decide (NoDup (map fst props)) &&
      forallb (fun kv => bool_decide (array_index kv.1 = None) && plain_json kv.2) props
  | _ => true
  end.

(** The fuel the parser needs: one unit per value and per element. *)
Fixpoint jsize (v : JsValue) : nat :=
  match v with
  | JArray items => S (list_sum (map (fun x => S (jsize x)) items))
  | JObject props =>
      S (list_sum (omap (fun '(k, x) => match x with
                                        | JUndefined | JFunction => None
                                        | _ => Some (S (jsize x))
                                        end) props))
  | _ => 1
  end.

(** ** Lemmas: decimal digits *)

Definition digit_step (acc : Z) (d : N) : Z := (acc * 10 + Z.of_N (d - 48))%Z.

Lemma digits_fold l a :
  fold_left digit_step l a = (a * 10 ^ Z.of_nat (length l) + fold_left digit_step l 0)%Z.
Proof.
  revert a. induction l as [|d l IH]; intros a; simpl; [lia|].
  rewrite (IH (digit_step a d)), (IH (digit_step 0 d)). unfold digit_step.
  rewrite Nat2Z.inj_succ, Z.pow_succ_r by lia. ring.
Qed.

Lemma digits_value_cons d l :
  digits_value (d :: l) = (Z.of_N (d - 48) * 10 ^ Z.of_nat (length l) + digits_value l)%Z.
Proof. unfold digits_value. simpl. rewrite digits_fold. unfold digit_step. ring. Qed.

Lemma length_uint_js u : length (uint_js u) = Decimal.nb_digits u.
Proof. induction u; simpl; auto. Qed.

Lemma of_uint_acc_digits u acc :
  Z.pos (Pos.of_uint_acc u acc) =
    (Z.pos acc * 10 ^ Z.of_nat (length (uint_js u)) + digits_value (uint_js u))%Z.
Proof.
  revert acc. induction u as [|u IH|u IH|u IH|u IH|u IH|u IH|u IH|u IH|u IH|u IH]; intros acc;
    simpl; [unfold digits_value; simpl; lia| ..];
    rewrite IH, digits_value_cons, ?Pos2Z.inj_add, Pos2Z.inj_mul, Nat2Z.inj_succ,
      Z.pow_succ_r by lia; simpl; ring.
Qed.

Lemma of_uint_digits u : Z.of_N (N.of_uint u) = digits_value (uint_js u).
Proof.
  induction u as [|u IH|u|u|u|u|u|u|u|u|u]; simpl;
    [done|rewrite digits_value_cons; simpl; lia|..];
    rewrite digits_value_cons; unfold N.of_uint; simpl; rewrite of_uint_acc_digits; simpl; lia.
Qed.

Lemma uint_js_digits u : forallb is_digit (uint_js u) = true.
Proof. induction u; simpl; auto. Qed.

Lemma digits_value_to_uint n : digits_value (uint_js (N.to_uint n)) = Z.of_N n.
Proof. by rewrite <- of_uint_digits, DecimalN.Unsigned.of_to. Qed.

Lemma nzhead_not_D0 u u' : Decimal.nzhead u <> Decimal.D0 u'.
Proof. induction u; simpl; congruence. Qed.

(** The digits of a positive number do not start with ['0']. *)
Lemma to_uint_head p : exists d l, uint_js (N.to_uint (N.pos p)) = d :: l /\ d <> 48.
Proof.
  pose proof (DecimalPos.Unsigned.to_of (Pos.to_uint p)) as Hn.
  rewrite DecimalPos.Unsigned.of_to in Hn. simpl in Hn |- *.
  pose proof (DecimalPos.Unsigned.to_uint_nonzero p) as Hz.
  destruct (Pos.to_uint p) as [|u|u|u|u|u|u|u|u|u|u] eqn:E; simpl;
    try by (do 2 eexists; split; [reflexivity|discriminate]).
  - by destruct (DecimalPos.Unsigned.to_uint_nonnil p).
  - exfalso. unfold Decimal.unorm in Hn. simpl in Hn.
    destruct (Decimal.nzhead u) eqn:Eh; [by rewrite Hn in Hz|..];
      try (by inversion Hn); by apply (nzhead_not_D0 u u0).
Qed.

(** ** Lemmas: numbers *)

(** What may follow a number in a JSON text: not a digit, ['.'], ['e'] or
    ['E']. *)
Definition num_stop (r : list N) : bool :=
  match r with
  | [] => true
  | c :: _ => negb (is_digit c) && negb (c =? 46) && negb (c =? 101) && negb (c =? 69)
  end.

Lemma is_digit_neq c d : is_digit c = true -> is_digit d = false -> (c =? d) = false.
Proof. intros Hc Hd. apply N.eqb_neq. intros ->. congruence. Qed.

Lemma head_is_digits c ds r :
  is_digit c = false -> ds <> [] -> forallb is_digit ds = true -> head_is c (ds ++ r) = false.
Proof.
  destruct ds as [|d ds]; [done|]. simpl. intros Hc _ [Hd _]%andb_prop.
  by apply is_digit_neq.
Qed.

Lemma parse_unsigned (neg : bool) ds r :
  ds <> [] -> forallb is_digit ds = true -> (head_is 48 ds = true -> ds = [48]) ->
  num_stop r = true ->
  parse_number ((if neg then [45] else []) ++ ds ++ r) =
    Some ((if neg then Qopp (inject_Z (digits_value ds)) else inject_Z (digits_value ds)), r).
Proof.
  intros Hne Hds H0 Hr.
  assert (Hint : (if head_is 48 (ds ++ r) then [48] else take_while is_digit (ds ++ r)) = ds).
  { replace (head_is 48 (ds ++ r)) with (head_is 48 ds) by (by destruct ds).
    destruct (head_is 48 ds); [by rewrite H0|].
    apply take_while_app_end; [by apply List.Forall_forall, forallb_forall|].
    destruct r as [|x r]; [done|]. simpl in Hr |- *. by destruct (is_digit x). }
  assert (H45 : head_is 45 (ds ++ r) = false) by (by apply head_is_digits).
  assert (Hst : head_is 46 r = false /\ head_is 101 r = false /\ head_is 69 r = false).
  { destruct r as [|x r]; [done|]. simpl in Hr |- *.
    apply andb_prop in Hr as [Hr H69]. apply andb_prop in Hr as [Hr H101].
    apply andb_prop in Hr as [_ H46]. apply negb_true_iff in H46, H101, H69. auto. }
  destruct Hst as (H46 & H101 & H69).
  unfold parse_number. destruct neg; simpl; rewrite ?H45, Hint, bool_decide_eq_false_2,
    drop_app_length, H46, H101, H69 by done; simpl;
  rewrite app_nil_r; unfold scale; simpl; by rewrite Z.mul_1_r.
Qed.

Lemma to_uint_wf n :
  let ds := uint_js (N.to_uint n) in
  ds <> [] /\ forallb is_digit ds = true /\ (head_is 48 ds = true -> ds = [48]).
Proof.
  simpl. split; [|split; [apply uint_js_digits|]].
  - destruct n as [|p]; [done|]. simpl. pose proof (DecimalPos.Unsigned.to_uint_nonnil p).
    by destruct (Pos.to_uint p).
  - destruct n as [|p]; [done|]. destruct (to_uint_head p) as (d & l & -> & Hd).
    simpl. by rewrite (proj2 (N.eqb_neq d 48) Hd).
Qed.

(** The integer [Number::toString] parses back to the same integer. *)
Lemma parse_Z_to_js z r : num_stop r = true -> parse_number (Z_to_js z ++ r) = Some (inject_Z z, r).
Proof.
  intros Hr. unfold Z_to_js. destruct (z <? 0)%Z eqn:Ez.
  - destruct (to_uint_wf (Z.abs_N z)) as (? & ? & ?).
    change ((45 :: ?d) ++ r) with ([45] ++ d ++ r).
    rewrite (parse_unsigned true) by done. rewrite digits_value_to_uint, N2Z.inj_abs_N.
    unfold inject_Z, Qopp. simpl. do 3 f_equal. lia.
  - destruct (to_uint_wf (Z.to_N z)) as (? & ? & ?).
    change (?d ++ r) with ([] ++ d ++ r).
    rewrite (parse_unsigned false) by done. rewrite digits_value_to_uint.
    do 3 f_equal. lia.
Qed.

(** ** Lemmas: strings *)

Lemma hex_value_digit n : n < 16 -> hex_value (hex_digit n) = Some n.
Proof.
  intros Hn. unfold hex_digit, hex_value.
  destruct (N.ltb_spec n 10);
    repeat match goal with |- context [?a <=? ?b] => destruct (N.leb_spec a b) end;
    simpl; try (f_equal; lia); lia.
Qed.

Lemma string_body_unicode c rest :
  code_unit c = true -> string_body (unicode_escape c ++ rest) = cons_fst c (string_body rest).
Proof.
  intros Hc%N.ltb_lt. unfold unicode_escape, hex4. simpl.
  rewrite !hex_value_digit by (apply N.mod_lt; lia).
  do 2 f_equal.
  assert (E1 : c = 16 * (c / 16) + c mod 16) by (apply N.div_mod; lia).
  assert (E2 : c / 16 = 16 * (c / 256) + (c / 16) mod 16).
  { rewrite (N.div_mod (c / 16) 16) at 1 by lia. by rewrite N.Div0.div_div. }
  assert (E3 : c / 256 = 16 * (c / 4096) + (c / 256) mod 16).
  { rewrite (N.div_mod (c / 256) 16) at 1 by lia. by rewrite N.Div0.div_div. }
  rewrite (N.mod_small (c / 4096) 16) by (apply N.Div0.div_lt_upper_bound; lia).
  lia.
Qed.

Lemma string_body_short c e rest :
  short_escape c = Some e -> string_body (92 :: e :: rest) = cons_fst c (string_body rest).
Proof.
  unfold short_escape.
  repeat match goal with |- context [?a =? ?b] => destruct (N.eqb_spec a b) end;
    intros; simplify_eq; reflexivity.
Qed.

Lemma string_body_plain c rest :
  32 <= c -> c <> 34 -> c <> 92 -> string_body (c :: rest) = cons_fst c (string_body rest).
Proof.
  intros H32 H34 H92. simpl.
  rewrite (proj2 (N.eqb_neq c 34)), (proj2 (N.eqb_neq c 92)) by done.
  by rewrite (proj2 (N.ltb_ge c 32)).
Qed.

Lemma short_escape_none c : short_escape c = None -> c <> 34 /\ c <> 92.
Proof.
  unfold short_escape.
  repeat match goal with |- context [?a =? ?b] => destruct (N.eqb_spec a b) end;
    intros; simplify_eq; lia.
Qed.

(** QuoteJSONString, then the string-literal grammar, gives back the
    code units. *)
Lemma string_body_quote s r : string_body (quote_units s ++ 34 :: r) = Some (s, r).
Proof.
  induction s as [s IH] using length_ind. destruct s as [|c s']; [done|].
  cbn [quote_units]. destruct (short_escape c) as [e|] eqn:He.
  - cbn [app]. rewrite (string_body_short c e), IH by (simpl; lia || done). done.
  - destruct (short_escape_none c He) as [H34 H92].
    destruct (c <? 32) eqn:H32.
    + rewrite <- app_assoc, string_body_unicode, IH
        by (simpl; lia || unfold code_unit; bool_lia). done.
    + apply N.ltb_ge in H32. destruct (is_leading c) eqn:Hl.
      * destruct s' as [|d s''].
        -- rewrite string_body_unicode by (unfold code_unit, is_leading in *; bool_lia). done.
        -- destruct (is_trailing d) eqn:Ht.
           ++ unfold is_leading, is_trailing in *. cbn [app].
              rewrite !string_body_plain by bool_lia. rewrite IH by (simpl; lia). done.
           ++ rewrite <- app_assoc, string_body_unicode, IH
                by (simpl; lia || unfold code_unit, is_leading in *; bool_lia). done.
      * destruct (is_trailing c) eqn:Ht.
        -- rewrite <- app_assoc, string_body_unicode, IH
             by (simpl; lia || unfold code_unit, is_trailing in *; bool_lia). done.
        -- cbn [app]. rewrite string_body_plain, IH by (simpl; lia || done). done.
Qed.

(** ** Lemmas: values *)

Section JsValueInd.
Variable P : JsValue -> Prop.
Hypothesis Hundef : P JUndefined.
Hypothesis Hnull : P JNull.
Hypothesis Hbool : forall b, P (JBool b).
Hypothesis Hnum : forall q, P (JNumber q).
Hypothesis Hstr : forall s, P (JString s).
Hypothesis Harr : forall items, Forall P items -> P (JArray items).
Hypothesis Hobj : forall props, Forall (fun kv => P kv.2) props -> P (JObject props).
Hypothesis Hfun : P JFunction.
Hypothesis Hproto : P JObjectPrototype.

(** Induction on values through the lists of elements and members. *)
Fixpoint jsvalue_ind (v : JsValue) : P v :=
  match v with
  | JUndefined => Hundef
  | JNull => Hnull
  | JBool b => Hbool b
  | JNumber q => Hnum q
  | JString s => Hstr s
  | JArray items =>
      Harr items ((fix go (l : list JsValue) : Forall P l :=
                     match l with
                     | [] => List.Forall_nil P
                     | x :: l' => @List.Forall_cons _ P x l' (jsvalue_ind x) (go l')
                     end) items)
  | JObject props =>
      Hobj props ((fix go (l : list (list N * JsValue)) : Forall (fun kv => P kv.2) l :=
                     match l with
                     | [] => List.Forall_nil _
                     | (k, x) :: l' =>
                         @List.Forall_cons _ (fun kv => P kv.2) (k, x) l' (jsvalue_ind x) (go l')
                     end) props)
  | JFunction => Hfun
  | JObjectPrototype => Hproto
  end.
End JsValueInd.

(** What may follow a value inside a JSON text. *)
Definition delim (r : list N) : bool :=
  match r with [] => true | c :: _ => (c =? 44) || (c =? 93) || (c =? 125) end.

(** The first code unit of a serialised value. *)
Definition value_start (c : N) : bool :=
  (c =? 45) || is_digit c || (c =? 110) || (c =? 116) || (c =? 102) || (c =? 34) ||
  (c =? 91) || (c =? 123).

Section RoundTrip.
Context `{NumberFormat}.

Lemma serialize_none v : serialize v = None <-> v = JUndefined \/ v = JFunction.
Proof. destruct v as [| |[]| | | | | |]; simpl; intuition congruence. Qed.

Lemma plain_number q : plain_json (JNumber q) = true ->
  exists z, q = inject_Z z /\ (Z.abs z < 10 ^ 21)%Z.
Proof.
  destruct q as [n d]. simpl. intros [Hd Hn%Z.ltb_lt]%andb_prop.
  exists n. split; [|done]. by destruct d.
Qed.

Lemma Z_to_js_start z : exists c t, Z_to_js z = c :: t /\ ((c =? 45) || is_digit c) = true.
Proof.
  unfold Z_to_js. destruct (z <? 0)%Z; [by do 2 eexists|].
  destruct (to_uint_wf (Z.to_N z)) as (Hne & Hd & _).
  destruct (uint_js (N.to_uint (Z.to_N z))) as [|c t]; [done|].
  simpl in Hd. apply andb_prop in Hd as [Hc _]. exists c, t. split; [done|]. by rewrite Hc, orb_true_r.
Qed.

Lemma serialize_start v t :
  plain_json v = true -> serialize v = Some t -> exists c t', t = c :: t' /\ value_start c = true.
Proof.
  intros Hp. destruct v as [| |[]|q| | | | |]; simpl; intros [= <-]; try by do 2 eexists.
  destruct (plain_number q Hp) as (z & -> & Hz). rewrite number_to_string_int by done.
  destruct (Z_to_js_start z) as (c & t' & -> & Hc). exists c, t'. split; [done|].
  unfold value_start. apply orb_prop in Hc as [->| ->]; by rewrite ?orb_true_r.
Qed.


(** *** One step of the parser *)

Lemma skip_ws_start c t : value_start c = true -> skip_ws (c :: t) = c :: t.
Proof.
  intros Hc. unfold skip_ws. simpl. replace (is_ws c) with false; [done|].
  symmetry. apply not_true_iff_false. unfold is_ws, value_start, is_digit in *. bool_lia.
Qed.

Lemma parse_value_array f t :
  parse_value (S f) (91 :: t) =
    if head_is 93 (skip_ws t) then Some (JArray [], tail (skip_ws t)) else parse_elements f t [].
Proof. reflexivity. Qed.

Lemma parse_value_object f t :
  parse_value (S f) (123 :: t) =
    if head_is 125 (skip_ws t) then Some (JObject [], tail (skip_ws t)) else parse_members f t [].
Proof. reflexivity. Qed.

Lemma parse_value_string f t :
  parse_value (S f) (34 :: t) = (fun '(str, r) => (JString str, r)) <$> string_body t.
Proof. reflexivity. Qed.

Lemma parse_elements_step g t acc :
  parse_elements (S g) t acc =
    match parse_value g t with
    | Some (v, s1) => match skip_ws s1 with
                      | 44 :: s2 => parse_elements g s2 (acc ++ [v])
                      | 93 :: s2 => Some (JArray (acc ++ [v]), s2)
                      | _ => None
                      end
    | None => None
    end.
Proof. reflexivity. Qed.

Lemma parse_members_member g k sx t acc :
  parse_members (S g) (member_text k sx ++ t) acc =
    match parse_value g (sx ++ t) with
    | Some (v, s4) => match skip_ws s4 with
                      | 44 :: s5 => parse_members g s5 (obj_set acc k v)
                      | 125 :: s5 => Some (JObject (obj_set acc k v), s5)
                      | _ => None
                      end
    | None => None
    end.
Proof.
  unfold member_text, quote_json. rewrite <- !app_assoc. cbn [app].
  simpl. rewrite string_body_quote. reflexivity.
Qed.

Lemma delim_num_stop r : delim r = true -> num_stop r = true.
Proof.
  destruct r as [|c r]; [done|]. unfold delim, num_stop, is_digit. intros Hd.
  apply not_false_iff_true. intros Hn. bool_lia.
Qed.

Lemma parse_value_number f z r :
  num_stop r = true -> parse_value (S f) (Z_to_js z ++ r) = Some (JNumber (inject_Z z), r).
Proof.
  intros Hr. destruct (Z_to_js_start z) as (c & t & E & Hc).
  assert (Hs : value_start c = true) by (unfold value_start, is_digit in *; bool_lia).
  rewrite E. cbn [app parse_value]. rewrite skip_ws_start by done.
  replace (c =? 123) with false by (symmetry; unfold is_digit in *; bool_lia).
  replace (c =? 91) with false by (symmetry; unfold is_digit in *; bool_lia).
  replace (c =? 34) with false by (symmetry; unfold is_digit in *; bool_lia).
  replace (c =? 116) with false by (symmetry; unfold is_digit in *; bool_lia).
  replace (c =? 102) with false by (symmetry; unfold is_digit in *; bool_lia).
  replace (c =? 110) with false by (symmetry; unfold is_digit in *; bool_lia).
  replace (c :: t ++ r) with (Z_to_js z ++ r) by (by rewrite E).
  rewrite parse_Z_to_js by done. reflexivity.
Qed.

Lemma ordered_props_plain {A} (props : list (list N * A)) :
  Forall (fun kv => array_index kv.1 = None) props -> ordered_props props = props.
Proof.
  intros Hall. unfold ordered_props.
  assert (Hf : forall acc, fold_left (fun acc kv => match array_index kv.1 with
                                                   | Some i => insert_index i kv acc
                                                   | None => acc
                                                   end) props acc = acc).
  { induction Hall as [|[k x] props Hkv _ IH]; intros acc; simpl in *; [done|].
    by rewrite Hkv, IH. }
  rewrite Hf. simpl. clear Hf. induction Hall as [|[k x] props Hkv _ IH]; simpl in *; [done|].
  by rewrite Hkv, IH.
Qed.

Lemma obj_set_new props k v :
  ~ In k (map fst props) -> obj_set props k v = props ++ [(k, v)].
Proof.
  induction props as [|[k' v'] props IH]; simpl; [done|]. intros Hk.
  rewrite bool_decide_eq_false_2 by (intros ->; apply Hk; by left).
  f_equal. apply IH. intros Hin. apply Hk. by right.
Qed.


(** *** The round trip *)

Local Abbreviation element_text x := (match serialize x with Some sx => sx | None => js "null" end).
Local Abbreviation element_normal x :=
  (match x with JUndefined | JFunction => JNull | _ => normalize x end).
Local Abbreviation member_pair := (fun '(k, x) => (k, serialize x)).
Local Abbreviation member_out := (fun '(k, sx) => member_text k <$> sx).
Local Abbreviation member_normal :=
  (fun '(k, x) => match x with JUndefined | JFunction => None | _ => Some (k, normalize x) end).
Local Abbreviation member_size :=
  (fun '(k, x) => match x with JUndefined | JFunction => None | _ => Some (S (jsize x)) end).

(** A value parses back from its serialisation followed by a delimiter,
    with enough fuel. *)
Definition roundtrips (v : JsValue) : Prop :=
  forall (f : nat) r t, plain_json v = true -> serialize v = Some t -> (jsize v <= f)%nat ->
    delim r = true ->
    parse_value f (t ++ r) = Some (normalize v, r).

Lemma defined_match {B} (x : JsValue) (a b : B) :
  serialize x <> None -> match x with JUndefined | JFunction => a | _ => b end = b.
Proof. by destruct x. Qed.

Lemma element_ok x (g : nat) r :
  roundtrips x -> plain_json x = true -> (jsize x <= g)%nat -> delim r = true ->
  parse_value g (element_text x ++ r) = Some (element_normal x, r).
Proof.
  intros Hx Hp Hg Hr. destruct (serialize x) as [sx|] eqn:Es.
  - rewrite (Hx g r sx) by done. rewrite defined_match by congruence. done.
  - apply serialize_none in Es as [->| ->]; (destruct g as [|g]; [simpl in Hg; lia|]);
      reflexivity.
Qed.

Lemma element_start x :
  plain_json x = true -> exists c t, element_text x = c :: t /\ value_start c = true.
Proof.
  intros Hp. destruct (serialize x) as [sx|] eqn:Es; [by eapply serialize_start|].
  by do 2 eexists.
Qed.

Lemma join_head (sep t0 t0' : list N) c l :
  t0 = c :: t0' -> exists rest, join sep (t0 :: l) = c :: rest.
Proof. intros ->. destruct l; simpl; eauto. Qed.

Lemma join_cons2 sep a b l : join sep (a :: b :: l) = a ++ sep ++ join sep (b :: l).
Proof. reflexivity. Qed.

Lemma skip_ws_other c t : is_ws c = false -> skip_ws (c :: t) = c :: t.
Proof. unfold skip_ws. simpl. by intros ->. Qed.

Lemma join_cons_34 t' ts r :
  head_is 125 (skip_ws (join [44] ((34 :: t') :: ts) ++ 125 :: r)) = false.
Proof. by destruct ts. Qed.

Lemma parse_elements_ok items acc (g : nat) r :
  Forall roundtrips items -> forallb plain_json items = true -> items <> [] ->
  (list_sum (map (fun x => S (jsize x)) items) <= g)%nat ->
  parse_elements g (join [44] (map (fun x => element_text x) items) ++ 93 :: r) acc =
    Some (JArray (acc ++ map (fun x => element_normal x) items), r).
Proof.
  revert acc g. induction items as [|x items IH]; intros acc g Hall Hp Hne Hg; [done|].
  apply Forall_cons_1 in Hall as [Hx Hall]. simpl in Hp, Hg.
  apply andb_prop in Hp as [Hpx Hps]. destruct g as [|g]; [lia|]. rewrite parse_elements_step.
  destruct items as [|y items].
  - cbn [map join]. rewrite element_ok by (done || lia). reflexivity.
  - cbn [map] in IH |- *. rewrite join_cons2, <- app_assoc. cbn [app].
    rewrite element_ok by (done || simpl; lia). rewrite skip_ws_other by done.
    cbv beta iota. rewrite IH by (done || simpl in *; lia). by rewrite <- app_assoc.
Qed.

Lemma no_members props :
  omap member_out (map member_pair props) = [] -> omap member_normal props = [].
Proof.
  induction props as [|[k x] props IH]; [done|]. simpl.
  destruct (serialize x) as [sx|] eqn:Es; [done|]. intros Hnil.
  apply serialize_none in Es as [->| ->]; simpl; auto.
Qed.

Lemma NoDup_drop_mid {A} (l1 l2 : list A) k : NoDup (l1 ++ k :: l2) -> NoDup (l1 ++ l2).
Proof. rewrite !NoDup_ListNoDup. apply List.NoDup_remove_1. Qed.

Lemma omap_cons_eq {A B} (f : A -> option B) x l :
  omap f (x :: l) = match f x with Some y => y :: omap f l | None => omap f l end.
Proof. reflexivity. Qed.

Lemma member_cases (k : list N) x :
  (x = JUndefined \/ x = JFunction) \/
  (exists sx, serialize x = Some sx /\ member_size (k, x) = Some (S (jsize x)) /\
              member_normal (k, x) = Some (k, normalize x)).
Proof. destruct x as [| |[]| | | | | |]; simpl; [left; by left|..|left; by right|]; right; eexists; split_and!; reflexivity. Qed.

Lemma parse_members_ok props acc (g : nat) r :
  Forall (fun kv => roundtrips kv.2) props ->
  Forall (fun kv => plain_json kv.2 = true) props ->
  NoDup (map fst acc ++ map fst props) ->
  omap member_out (map member_pair props) <> [] ->
  (list_sum (omap member_size props) <= g)%nat ->
  parse_members g (join [44] (omap member_out (map member_pair props)) ++ 125 :: r) acc =
    Some (JObject (acc ++ omap member_normal props), r).
Proof.
  revert acc g. induction props as [|[k x] props IH]; intros acc g Hrt Hwf Hnd Hne Hg; [done|].
  apply Forall_cons_1 in Hrt as [Hx Hrt]. apply Forall_cons_1 in Hwf as [Hpx Hwf].
  simpl in Hx, Hpx, Hnd. cbn [map] in Hne, Hnd |- *.
  rewrite omap_cons_eq in Hne. rewrite omap_cons_eq in Hg. rewrite !omap_cons_eq.
  destruct (member_cases k x) as [[-> | ->]|(sx & Es & Hsz & Hnm)].
  - apply IH; try done. by apply NoDup_drop_mid in Hnd.
  - apply IH; try done. by apply NoDup_drop_mid in Hnd.
  - rewrite Hsz in Hg. rewrite Hnm. cbv beta iota in Hne |- *. rewrite Es in Hne |- *.
    cbn [fmap option_fmap option_map] in *. simpl in Hg. destruct g as [|g]; [lia|].
    assert (Hacc : ~ In k (map fst acc)).
    { intros Hin. apply NoDup_app in Hnd as (_ & Hdis & _).
      apply (Hdis k); [by apply list_elem_of_In|by left]. }
    destruct (omap member_out (map member_pair props)) as [|t ts] eqn:Eo.
    + cbn [join]. rewrite parse_members_member by done.
      rewrite (Hx g (125 :: r) sx) by (done || lia).
      rewrite skip_ws_other by done. cbv beta iota. rewrite obj_set_new by done.
      by rewrite no_members.
    + rewrite join_cons2, <- !app_assoc. cbn [app].
      rewrite parse_members_member by done. rewrite (Hx g _ sx) by (done || lia).
      rewrite skip_ws_other by done. cbv beta iota. rewrite obj_set_new by done.
      rewrite IH; [by rewrite <- app_assoc|done|done| |done|lia].
      by rewrite map_app, <- app_assoc.
Qed.

Lemma plain_object props :
  plain_json (JObject props) = true ->
  NoDup (map fst props) /\
  Forall (fun kv => plain_json kv.2 = true) props /\
  Forall (fun kv => array_index kv.1 = None) props.
Proof.
  simpl. intros [Hnd Hall]%andb_prop. apply bool_decide_eq_true in Hnd.
  rewrite forallb_forall in Hall. split; [done|].
  split; apply List.Forall_forall; intros [k x] Hin; specialize (Hall _ Hin);
    simpl in *; apply andb_prop in Hall as [Hi Hx]; [done|by apply bool_decide_eq_true in Hi].
Qed.

Lemma member_pair_keys props :
  Forall (fun kv => array_index kv.1 = None) props ->
  Forall (fun kv => array_index kv.1 = None) (map member_pair props).
Proof. induction 1 as [|[k x] props Hk _ IH]; simpl; by constructor. Qed.

Lemma member_out_head props :
  Forall (fun t => exists t', t = 34 :: t') (omap member_out (map member_pair props)).
Proof.
  induction props as [|[k x] props IH]; simpl; [constructor|].
  destruct (serialize x); simpl; [|done]. constructor; [by eexists|done].
Qed.

Lemma elements_head x items :
  plain_json x = true ->
  exists c rest, join [44] (map (fun x => element_text x) (x :: items)) = c :: rest /\
                 value_start c = true.
Proof.
  intros Hp. destruct (element_start x Hp) as (c & tx & Ex & Hc).
  exists c. cbn [map]. destruct (join_head [44] _ tx c (map (fun x => element_text x) items) Ex)
    as [rest ->]. by eexists.
Qed.

(** Every plain value parses back, with enough fuel, to its normal form. *)
Lemma serialize_roundtrips v : roundtrips v.
Proof.
  induction v as [| |b|q|s|items IH|props IH| |] using jsvalue_ind;
    intros f r t Hp Hs Hf Hr; try discriminate Hs;
    (destruct f as [|f]; [simpl in Hf; lia|]); try injection Hs as <-.
  - reflexivity.
  - destruct b; injection Hs as <-; reflexivity.
  - destruct (plain_number q Hp) as (z & -> & Hz).
    rewrite number_to_string_int by done. by apply parse_value_number, delim_num_stop.
  - unfold quote_json. rewrite <- !app_assoc. cbn [app].
    rewrite parse_value_string, string_body_quote. reflexivity.
  - simpl in Hp, Hf. cbn [app]. rewrite <- !app_assoc. cbn [app]. rewrite parse_value_array.
    destruct items as [|x items]; [reflexivity|].
    destruct (elements_head x items) as (c & rest & Ej & Hc);
      [simpl in Hp; by apply andb_prop in Hp as []|].
    rewrite Ej. cbn [app]. rewrite skip_ws_start by done.
    replace (head_is 93 _) with false by (symmetry; unfold value_start, is_digit in Hc;
                                          simpl; apply not_true_iff_false; bool_lia).
    cbv beta iota. change (c :: rest ++ 93 :: r) with ((c :: rest) ++ 93 :: r).
    rewrite <- Ej, parse_elements_ok by (done || lia). reflexivity.
  - destruct (plain_object props Hp) as (Hnd & Hwf & Hidx). simpl in Hf.
    rewrite ordered_props_plain by (by apply member_pair_keys).
    cbn [app]. rewrite <- !app_assoc. cbn [app]. rewrite parse_value_object.
    pose proof (member_out_head props) as Hheads.
    destruct (omap member_out (map member_pair props)) as [|t0 ts] eqn:Eo.
    + cbn [join app]. cbv beta iota. change (normalize (JObject props))
        with (JObject (omap member_normal props)). by rewrite no_members.
    + apply Forall_cons_1 in Hheads as [[t' ->] _]. rewrite join_cons_34; cbv beta iota.
      rewrite <- Eo, parse_members_ok by (done || by rewrite Eo || lia). reflexivity.
  - reflexivity.
Qed.

(** *** Enough fuel *)

Lemma join_length (sep : list N) l :
  l <> [] -> (length (join sep l) + length sep = list_sum (map (fun s => length s + length sep) l))%nat.
Proof.
  induction l as [|a l IH]; [done|]. intros _. destruct l as [|b l]; simpl; [lia|].
  rewrite !length_app. simpl in IH. rewrite <- IH by done. lia.
Qed.

Lemma list_sum_map_le {A} (f g : A -> nat) l :
  Forall (fun x => f x <= g x)%nat l -> (list_sum (map f l) <= list_sum (map g l))%nat.
Proof. induction 1; simpl; lia. Qed.

Lemma Z_to_js_length z : (1 <= length (Z_to_js z))%nat.
Proof. destruct (Z_to_js_start z) as (c & t & -> & _). simpl. lia. Qed.

Lemma list_sum_cons (n : nat) l : list_sum (n :: l) = (n + list_sum l)%nat.
Proof. reflexivity. Qed.

Lemma member_text_length k sx : (length sx + 3 <= length (member_text k sx))%nat.
Proof. unfold member_text, quote_json. rewrite !length_app. simpl. lia. Qed.

Lemma member_sizes_le props :
  Forall (fun kv => forall t, plain_json kv.2 = true -> serialize kv.2 = Some t ->
                              (jsize kv.2 <= length t)%nat) props ->
  Forall (fun kv => plain_json kv.2 = true) props ->
  (list_sum (omap member_size props) <=
   list_sum (map (fun s => length s + 1) (omap member_out (map member_pair props))))%nat.
Proof.
  induction props as [|[k x] props IH]; intros Hle Hp; [done|].
  apply Forall_cons_1 in Hle as [Hx Hle]. apply Forall_cons_1 in Hp as [Hpx Hp]. simpl in Hx, Hpx.
  cbn [map]. rewrite !omap_cons_eq.
  destruct (member_cases k x) as [[-> | ->]|(sx & Es & Hsz & Hnm)]; [by apply IH..|].
  rewrite Hsz. cbv beta iota. rewrite Es. cbn [fmap option_fmap option_map]. cbv beta iota.
  cbn [map]. rewrite !list_sum_cons. specialize (Hx sx Hpx Es).
  pose proof (member_text_length k sx). specialize (IH Hle Hp). lia.
Qed.

(** The parser needs no more fuel than the serialisation has code units. *)
Lemma jsize_le_length v t : plain_json v = true -> serialize v = Some t -> (jsize v <= length t)%nat.
Proof.
  revert t. induction v as [| |b|q|s|items IH|props IH| |] using jsvalue_ind;
    intros t Hp Hs; try discriminate Hs; try (injection Hs as <-).
  - simpl. lia.
  - destruct b; injection Hs as <-; simpl; lia.
  - destruct (plain_number q Hp) as (z & -> & Hz). rewrite number_to_string_int by done.
    apply Z_to_js_length.
  - unfold quote_json. rewrite !length_app. simpl. lia.
  - simpl in Hp |- *. rewrite length_app. simpl.
    destruct items as [|x items]; [simpl; lia|].
    pose proof (join_length [44] (map (fun x => element_text x) (x :: items)) ltac:(done)) as Hj.
    change (length [44]) with 1%nat in Hj. rewrite map_map in Hj.
    enough (list_sum (map (fun x => S (jsize x)) (x :: items)) <=
            list_sum (map (fun x => length (element_text x) + 1) (x :: items)))%nat by lia.
    apply list_sum_map_le.
    assert (Hp' : Forall (fun y => plain_json y = true) (x :: items))
      by (apply List.Forall_forall; by apply forallb_forall).
    apply List.Forall_forall. intros y Hin.
    pose proof (proj1 (List.Forall_forall _ _) IH y Hin) as Hy.
    pose proof (proj1 (List.Forall_forall _ _) Hp' y Hin) as Hpy. simpl in Hy. destruct (serialize y) as [sy|] eqn:Ey; [specialize (Hy sy Hpy eq_refl); lia|].
    apply serialize_none in Ey as [-> | ->]; simpl; lia.
  - destruct (plain_object props Hp) as (Hnd & Hwf & Hidx).
    rewrite ordered_props_plain by (by apply member_pair_keys).
    cbn [length]. rewrite length_app. change (length [125]) with 1%nat.
    change (jsize (JObject props)) with (S (list_sum (omap member_size props))).
    assert (Hle := member_sizes_le props IH Hwf).
    destruct (omap member_out (map member_pair props)) as [|t0 ts] eqn:Eo; [simpl in Hle; lia|].
    pose proof (join_length [44] (t0 :: ts) ltac:(done)) as Hj.
    change (length [44]) with 1%nat in Hj. lia.
  - simpl. lia.
Qed.

(** JSON.parse undoes JSON.stringify on plain values, up to the
    normal form. *)
Lemma json_parse_serialize v t :
  plain_json v = true -> serialize v = Some t -> json_parse_text t = inr (normalize v).
Proof.
  intros Hp Hs. pose proof (jsize_le_length v t Hp Hs) as Hle. unfold json_parse_text.
  replace (parse_value (2 * length t + 2)%nat t)
    with (parse_value (2 * length t + 2)%nat (t ++ [])) by by rewrite app_nil_r.
  rewrite (serialize_roundtrips v _ [] t) by (done || lia). reflexivity.
Qed.

(** [JSON.parse] of the text gives only keys the object had. *)
Lemma normalize_keys props k :
  k ∉ map fst props -> own_prop (omap member_normal props) k = None.
Proof.
  induction props as [|[k0 x] props IH]; intros Hk; [done|].
  cbn [map fst] in Hk. rewrite not_elem_of_cons in Hk. destruct Hk as [Hk0 Hk].
  rewrite omap_cons_eq. destruct (member_cases k0 x) as [[-> | ->]|(_ & _ & _ & ->)]; [by apply IH..|].
  unfold own_prop in *. simpl. rewrite bool_decide_false by congruence. by apply IH.
Qed.

End RoundTrip.

(** ** Instances *)

(** The exact decimal expansion of a rational whose denominator has no
    prime factor but 2 and 5, in plain notation; other rationals print
    their integer part. *)
Fixpoint pow_factor (p : positive) (d : positive) (fuel : nat) : nat * positive :=
  match fuel with
  | O => (O, d)
  | S f => if (Z.pos d mod Z.pos p =? 0)%Z
           then let '(k, r) := pow_factor p (Z.to_pos (Z.pos d / Z.pos p)) f in (S k, r)
           else (O, d)
  end.

Definition decimal_places (q : Q) : option nat :=
  let '(a, r) := pow_factor 2 (Qden q) 64 in
  let '(b, r') := pow_factor 5 r 64 in
  if Pos.eqb r' 1 then Some (Nat.max a b) else None.

Definition decimal_to_string (q : Q) : list N :=
  match decimal_places q with
  | Some O | None => Z_to_js (Qfloor q)
  | Some k =>
      let scaled := Qfloor (q * inject_Z (10 ^ Z.of_nat k)) in
      let sign := if (scaled <? 0)%Z then [45] else [] in
      let digits := uint_js (N.to_uint (Z.abs_N scaled)) in
      let digits := if (length digits <=? k)%nat then repeat 48 (S k - length digits)%nat ++ digits
                    else digits in
      let int := take (length digits - k)%nat digits in
      let frac := drop (length digits - k)%nat digits in
      let frac := rev (drop_while (fun c => c =? 48) (rev frac)) in
      sign ++ int ++ (if bool_decide (frac = []) then [] else [46] ++ frac)
  end.

Lemma decimal_to_string_int z : decimal_to_string (inject_Z z) = Z_to_js z.
Proof.
  unfold decimal_to_string, decimal_places. cbn -[Qfloor Z_to_js]. by rewrite Qfloor_Z.
Qed.

#[export] Instance decimal_number_format : NumberFormat := {|
  number_to_string := decimal_to_string;
  number_to_string_int z _ := decimal_to_string_int z
|}.

#[export] Instance json_codec `{NumberFormat} : JsonCodec := {|
  json_parse := json_parse_text;
  json_stringify := serialize
|}.

End Json.
