(* ===== verification/JsonFacts.v ===== *)
(** * JSON.parse on every text

    [Json] proves what [JSON.parse] gives back for the texts
    [JSON.stringify] writes.  This file is about every input text:
    - the parser consumes input: each successful call returns a strict
      suffix of its input (the lemmas [*_shorter]);
    - termination: [Json.json_parse_text] runs the parser with
      [2 * length text + 2] units of fuel, and any larger amount gives
      the same result, so the fuel never decides the outcome;
    - type: every value [JSON.parse] returns is a JSON value (no
      [undefined], function or prototype inside, distinct keys in every
      object), and is its own normal form. *)

From S2P Require Import Prelude JsString JsValue Json.
From Stdlib Require Import ZArith QArith.
Import JsString JsValue Json.

Module JsonFacts.

Local Open Scope N_scope.

(** The values [JSON.parse] can build: no [undefined], function or
    prototype anywhere, and distinct keys in every object. *)
Fixpoint json_value (v : JsValue) : bool :=
  match v with
  | JNull | JBool _ | JNumber _ | JString _ => true
  | JArray items => forallb json_value items
  | JObject props =>
      bool_decide (NoDup (map fst props)) && forallb (fun kv => json_value kv.2) props
  | JUndefined | JFunction | JObjectPrototype => false
  end.

(** A text with every kind of JSON value, for concrete runs. *)
(** ** Consumption *)

Section Suffixes.
Context {A : Type}.
Implicit Types (l s : list A).

Lemma tail_suffix_of l s : l `suffix_of` s -> tail l `suffix_of` s.
Proof. intros H. destruct l as [|x l]; [apply suffix_nil|]. by apply suffix_cons_l in H. Qed.

Lemma drop_while_suffix_of (f : A -> bool) l s : l `suffix_of` s -> drop_while f l `suffix_of` s.
Proof.
  intros H. etrans; [|exact H]. exists (take_while f l). by rewrite take_drop_while.
Qed.

Lemma drop_suffix_of n l s : l `suffix_of` s -> drop n l `suffix_of` s.
Proof. intros H. etrans; [apply suffix_drop|exact H]. Qed.

Lemma if_suffix_of (b : bool) l1 l2 s :
  l1 `suffix_of` s -> l2 `suffix_of` s -> (if b then l1 else l2) `suffix_of` s.
Proof. by destruct b. Qed.

End Suffixes.

Create HintDb suffix.
#[local] Hint Resolve tail_suffix_of drop_while_suffix_of drop_suffix_of if_suffix_of : suffix.
#[local] Hint Extern 1 (_ `suffix_of` _) => reflexivity : suffix.

Lemma skip_ws_suffix s : skip_ws s `suffix_of` s.
Proof. unfold skip_ws. auto with suffix. Qed.

Lemma cons_fst_some {B} (c : N) x (str : list N) (r : B) :
  cons_fst c x = Some (str, r) -> exists str', x = Some (str', r).
Proof. destruct x as [[]|]; simpl; [intros [= _ ->]|done]. by eexists. Qed.

Lemma string_body_shorter s str r : string_body s = Some (str, r) -> (length r < length s)%nat.
Proof.
  revert str r. induction s as [s IH] using length_ind. intros str r.
  destruct s as [|c s']; simpl; [done|].
  destruct (c =? 34); [intros [= _ ->]; lia|].
  destruct (c =? 92).
  - destruct s' as [|e s'']; [done|].
    destruct (escape_value e).
    + intros (str' & Hs)%cons_fst_some. apply IH in Hs; simpl; lia.
    + destruct s'' as [|h1 [|h2 [|h3 [|h4 s3]]]]; try done.
      destruct (e =? 117), (hex_value h1), (hex_value h2), (hex_value h3), (hex_value h4);
        try done.
      intros (str' & Hs)%cons_fst_some. apply IH in Hs; simpl in *; lia.
  - destruct (c <? 32); [done|].
    intros (str' & Hs)%cons_fst_some. apply IH in Hs; simpl; lia.
Qed.

Lemma take_while_length {A} (f : A -> bool) l : (length (take_while f l) <= length l)%nat.
Proof.
  rewrite <- (take_drop_while f l) at 2. rewrite length_app. lia.
Qed.

Lemma parse_number_shorter s q r : parse_number s = Some (q, r) -> (length r < length s)%nat.
Proof.
  unfold parse_number. cbv zeta.
  set (s1 := if head_is 45 s then tail s else s).
  set (int := if head_is 48 s1 then [48] else take_while is_digit s1).
  case_bool_decide as Hint; [done|].
  assert (Hs1 : s1 `suffix_of` s) by (subst s1; auto with suffix).
  assert (Hlen : (length int <= length s1)%nat).
  { subst int. destruct (head_is 48 s1) eqn:E; [|apply take_while_length].
    destruct s1; [done|]. simpl. lia. }
  assert (Hne : (1 <= length int)%nat) by (destruct int; [done|simpl; lia]).
  set (s2 := drop (length int) s1).
  assert (Hs2 : (length s2 < length s)%nat).
  { subst s2. rewrite length_drop. apply suffix_length in Hs1. lia. }
  intros H. repeat (destruct (_ && bool_decide _) in H; [done|]).
  injection H as _ <-. eapply Nat.le_lt_trans; [|exact Hs2].
  apply suffix_length. auto 20 with suffix.
Qed.

(** The member and element loops with their literal patterns written
    as tests. *)
Lemma parse_members_S f s acc :
  parse_members (S f) s acc =
  match skip_ws s with
  | c :: s1 =>
      if c =? 34 then
        match string_body s1 with
        | Some (k, s2) =>
            match skip_ws s2 with
            | c2 :: s3 =>
                if c2 =? 58 then
                  match parse_value f s3 with
                  | Some (v, s4) =>
                      match skip_ws s4 with
                      | c4 :: s5 =>
                          if c4 =? 44 then parse_members f s5 (obj_set acc k v)
                          else if c4 =? 125 then Some (JObject (obj_set acc k v), s5) else None
                      | [] => None
                      end
                  | None => None
                  end
                else None
            | [] => None
            end
        | None => None
        end
      else None
  | [] => None
  end.
Proof. cbn [parse_members]. repeat case_match; simplify_eq/=; done. Qed.

Lemma parse_elements_S f s acc :
  parse_elements (S f) s acc =
  match parse_value f s with
  | Some (v, s1) =>
      match skip_ws s1 with
      | c :: s2 =>
          if c =? 44 then parse_elements f s2 (acc ++ [v])
          else if c =? 93 then Some (JArray (acc ++ [v]), s2) else None
      | [] => None
      end
  | None => None
  end.
Proof. cbn [parse_elements]. repeat case_match; simplify_eq/=; done. Qed.

Lemma skip_ws_length s : (length (skip_ws s) <= length s)%nat.
Proof. apply suffix_length, skip_ws_suffix. Qed.

Lemma tail_skip_ws_length s : (length (tail (skip_ws s)) <= length s)%nat.
Proof. apply suffix_length. auto using skip_ws_suffix with suffix. Qed.

(** Every successful call returns a strict suffix of its input. *)
Lemma parse_shorter f :
  (forall s v r, parse_value f s = Some (v, r) -> (length r < length s)%nat) /\
  (forall s acc v r, parse_members f s acc = Some (v, r) -> (length r < length s)%nat) /\
  (forall s acc v r, parse_elements f s acc = Some (v, r) -> (length r < length s)%nat).
Proof.
  induction f as [|f (IHv & IHm & IHe)]; [split_and!; done|]. split_and!.
  - intros s v r Hp. cbn [parse_value] in Hp. pose proof (skip_ws_length s) as Hw.
    destruct (skip_ws s) as [|c s'] eqn:Ew; [done|]. simpl in Hw.
    repeat case_match; simplify_eq/=; try done.
    all: try (pose proof (tail_skip_ws_length s'); lia).
    all: try (rewrite length_drop; lia).
    all: repeat match goal with
           | H : _ <$> _ = Some _ |- _ => apply fmap_pair_Some in H as (? & H & _)
           | H : string_body _ = _ |- _ => apply string_body_shorter in H
           | H : parse_number _ = _ |- _ => apply parse_number_shorter in H
           | H : parse_members _ _ _ = _ |- _ => apply IHm in H
           | H : parse_elements _ _ _ = _ |- _ => apply IHe in H
           end; simpl in *; lia.
  - intros s acc v r Hp. rewrite parse_members_S in Hp. pose proof (skip_ws_length s).
    repeat case_match; simplify_eq/=; try done.
    all: repeat match goal with
           | H : string_body _ = _ |- _ => apply string_body_shorter in H
           | H : parse_value _ _ = _ |- _ => apply IHv in H
           | H : parse_members _ _ _ = _ |- _ => apply IHm in H
           | H : skip_ws ?x = _ |- _ =>
               let E := fresh in pose proof (skip_ws_length x) as E; rewrite H in E; clear H
           end; simpl in *; lia.
  - intros s acc v r Hp. rewrite parse_elements_S in Hp.
    repeat case_match; simplify_eq/=; try done.
    all: repeat match goal with
           | H : parse_value _ _ = _ |- _ => apply IHv in H
           | H : parse_elements _ _ _ = _ |- _ => apply IHe in H
           | H : skip_ws ?x = _ |- _ =>
               let E := fresh in pose proof (skip_ws_length x) as E; rewrite H in E; clear H
           end; simpl in *; lia.
Qed.

(** ** Fuel *)

Ltac shorter_facts :=
  repeat match goal with
  | H : skip_ws ?x = _ |- _ =>
      let E := fresh "L" in pose proof (skip_ws_length x) as E; rewrite H in E; clear H
  | H : string_body _ = Some _ |- _ => apply string_body_shorter in H
  | H : parse_value _ _ = Some _ |- _ => apply (proj1 (parse_shorter _)) in H
  end; simpl in *.

(** Above the bound, one more unit of fuel changes nothing: the value
    parser needs [2 * length s + 2], the member loop [2 * length s + 1]
    and the element loop [2 * length s + 3]. *)
Lemma parse_fuel_step f :
  (forall s, (2 * length s + 2 <= f)%nat -> parse_value f s = parse_value (S f) s) /\
  (forall s acc, (2 * length s + 1 <= f)%nat ->
     parse_members f s acc = parse_members (S f) s acc) /\
  (forall s acc, (2 * length s + 3 <= f)%nat ->
     parse_elements f s acc = parse_elements (S f) s acc).
Proof.
  induction f as [|f (IHv & IHm & IHe)]; [split_and!; intros; lia|]. split_and!.
  - intros s Hf. cbn [parse_value]. pose proof (skip_ws_length s) as Hw.
    destruct (skip_ws s) as [|c s'] eqn:Ew; [done|]. simpl in Hw.
    rewrite IHm, IHe by lia. reflexivity.
  - intros s acc Hf. rewrite !parse_members_S.
    destruct (skip_ws s) as [|c s1] eqn:E1; [done|]. destruct (c =? 34); [|done].
    destruct (string_body s1) as [[k s2]|] eqn:E2; [|done].
    destruct (skip_ws s2) as [|c2 s3] eqn:E3; [done|]. destruct (c2 =? 58); [|done].
    assert (Hs3 : (2 * length s3 + 2 <= f)%nat) by (shorter_facts; lia).
    rewrite IHv by done. destruct (parse_value (S f) s3) as [[v s4]|] eqn:E4; [|done].
    destruct (skip_ws s4) as [|c4 s5] eqn:E5; [done|]. destruct (c4 =? 44); [|done].
    apply IHm. shorter_facts. lia.
  - intros s acc Hf. rewrite !parse_elements_S. rewrite IHv by lia.
    destruct (parse_value (S f) s) as [[v s1]|] eqn:E; [|done].
    destruct (skip_ws s1) as [|c s2] eqn:E2; [done|]. destruct (c =? 44); [|done].
    apply IHe. shorter_facts. lia.
Qed.

Lemma parse_value_fuel s k :
  parse_value (2 * length s + 2 + k) s = parse_value (2 * length s + 2) s.
Proof.
  induction k as [|k IH]; [by rewrite Nat.add_0_r|].
  rewrite Nat.add_succ_r, <- IH. symmetry. apply (proj1 (parse_fuel_step _)). lia.
Qed.

(** ** The values the parser builds *)

Lemma json_array items :
  Forall (fun x => json_value x = true) items -> json_value (JArray items) = true.
Proof. intros H. cbn [json_value]. apply forallb_forall. by apply List.Forall_forall. Qed.

Lemma json_object props :
  NoDup (map fst props) -> Forall (fun kv => json_value kv.2 = true) props ->
  json_value (JObject props) = true.
Proof.
  intros Hnd H. cbn [json_value]. rewrite bool_decide_eq_true_2 by done.
  apply forallb_forall. by apply List.Forall_forall.
Qed.

Lemma obj_set_keys props k v x :
  x ∈ map fst (obj_set props k v) -> x ∈ map fst props \/ x = k.
Proof.
  induction props as [|[k' v'] props IH]; simpl; [rewrite list_elem_of_singleton; auto|].
  case_bool_decide; simpl; rewrite !elem_of_cons; intros [-> | Hx]; auto.
  destruct (IH Hx); auto.
Qed.

Lemma obj_set_NoDup props k v : NoDup (map fst props) -> NoDup (map fst (obj_set props k v)).
Proof.
  induction props as [|[k' v'] props IH]; simpl; [repeat constructor; apply not_elem_of_nil|].
  rewrite !NoDup_cons. intros [Hk Hnd]. case_bool_decide as E; simpl; subst.
  - by rewrite NoDup_cons.
  - rewrite NoDup_cons. split; [|auto]. intros [Hin | ->]%obj_set_keys; done.
Qed.

Lemma obj_set_json props k v :
  Forall (fun kv => json_value kv.2 = true) props -> json_value v = true ->
  Forall (fun kv => json_value kv.2 = true) (obj_set props k v).
Proof.
  intros Hp Hv. induction Hp as [|[k' v'] props Hkv Hps IH]; simpl; [by repeat constructor|].
  case_bool_decide; by repeat constructor.
Qed.

Lemma parse_json f :
  (forall s v r, parse_value f s = Some (v, r) -> json_value v = true) /\
  (forall s acc v r, NoDup (map fst acc) -> Forall (fun kv => json_value kv.2 = true) acc ->
     parse_members f s acc = Some (v, r) -> json_value v = true) /\
  (forall s acc v r, Forall (fun x => json_value x = true) acc ->
     parse_elements f s acc = Some (v, r) -> json_value v = true).
Proof.
  induction f as [|f (IHv & IHm & IHe)]; [split_and!; done|]. split_and!.
  - intros s v r Hp. cbn [parse_value] in Hp.
    destruct (skip_ws s) as [|c s'] eqn:Ew; [done|].
    repeat case_match; simplify_eq/=; try done.
    all: repeat match goal with
           H : _ <$> _ = Some _ |- _ => apply fmap_pair_Some in H as (? & _ & ->) end.
    all: simplify_eq/=; try done.
    + eapply (IHm _ []); [constructor|constructor|done].
    + eapply (IHe _ []); [constructor|done].
  - intros s acc v r Hnd Hacc Hp. rewrite parse_members_S in Hp.
    repeat case_match; simplify_eq/=; try done.
    + eapply IHm; [by apply obj_set_NoDup|apply obj_set_json; [done|by eapply IHv]|done].
    + apply json_object; [by apply obj_set_NoDup|apply obj_set_json; [done|by eapply IHv]].
  - intros s acc v r Hacc Hp. rewrite parse_elements_S in Hp.
    repeat case_match; simplify_eq/=; try done.
    + eapply IHe; [|done]. apply Forall_app; split; [done|]. constructor; [by eapply IHv|done].
    + apply json_array, Forall_app; split; [done|]. constructor; [by eapply IHv|done].
Qed.

(** A JSON value is its own normal form: [normalize] only acts on
    [undefined], functions and the prototype. *)
Lemma normalize_json v : json_value v = true -> normalize v = v.
Proof.
  induction v as [| | | | |items IH|props IH| |] using jsvalue_ind; try done.
  - cbn [json_value]. intros Hv. rewrite forallb_forall, <- List.Forall_forall in Hv.
    cbn [normalize]. f_equal.
    induction IH as [|x items Hx _ IHl]; [done|]. apply Forall_cons_1 in Hv as [Hx' Hv].
    cbn [map]. rewrite IHl by done. f_equal. by destruct x; try apply Hx.
  - cbn [json_value]. intros [_ Hv]%andb_prop. cbn [normalize]. f_equal.
    rewrite forallb_forall, <- List.Forall_forall in Hv.
    induction IH as [|[k x] props Hx _ IHl]; [done|]. apply Forall_cons_1 in Hv as [Hx' Hv].
    rewrite omap_cons_eq. rewrite IHl by done. cbn [snd] in *. by destruct x; try rewrite Hx.
Qed.

(** ** The parser's contract *)

(** Termination of [JSON.parse]: the fuel [2 * length t + 2]
    that [json_parse_text] gives the parser is never what ends it: with
    any larger amount the parser returns the same result, so the
    bounded parser computes the parse of the whole text. *)
Lemma json_parse_fuel_independent t f :
  (2 * length t + 2 <= f)%nat ->
  json_parse_text t =
  match parse_value f t with
  | Some (v, rest) => if bool_decide (skip_ws rest = []) then inr v else inl syntax_error
  | None => inl syntax_error
  end.
Proof.
  intros Hf. replace f with (2 * length t + 2 + (f - (2 * length t + 2)))%nat by lia.
  by rewrite parse_value_fuel.
Qed.

(** Every value [JSON.parse] returns is a JSON value (no
    [undefined], function or prototype inside, distinct keys in each
    object) and is its own normal form, so a second round trip through
    [JSON.stringify] and [JSON.parse] has nothing left to drop. *)
Lemma json_parse_type t v : json_parse_text t = inr v -> json_value v = true /\ normalize v = v.
Proof.
  unfold json_parse_text. destruct (parse_value _ t) as [[v' rest]|] eqn:E; [|done].
  case_bool_decide; [|done]. intros [= <-].
  assert (Hv : json_value v' = true) by (eapply (proj1 (parse_json _)); eauto).
  split; [done|by apply normalize_json].
Qed.

End JsonFacts.
