(* ===== verification/Normalizer.v ===== *)
(** * The response normaliser of the network-insight handler

    [formatNetworkResponse] and [generateMockTimeline]
    ([src/app/api/gemini/route.js] lines 34-65) and the colour and emoji
    tables the POST handler attaches (lines 89-99).

    [Math.random()] is a stream of draws, the state of a state monad
    ([Rng]); each call consumes one draw, in the evaluation order of the
    object literals: [riskScore], [priorityLevel], then for each of the
    seven timeline entries [risk] and [bandwidth].  The ISO time stamp is
    an input.  JavaScript's [Math.floor] of the draw times [k] is
    [Qfloor (r * k)] on the exact value of the draw.

    The emoji table is a plain object indexed by [severity.toLowerCase()];
    a key that is not an own property falls through to
    [Object.prototype] ([object_prototype_keys]), so the lookup result is
    a string, a function, the prototype object, or [undefined]. *)

From S2P Require Import Prelude JsString Scan JsValue.
From Stdlib Require Import ZArith QArith Qround.
From stdpp Require Import sets.
Import JsString Scan JsValue.

Module Normalizer.

Local Open Scope js_scope.

(** ** Literals *)

Definition glow_marker : list N := [55356; 57119; 32]%N.       (* "🌟 " *)
Definition prediction_marker : list N := [55357; 56521; 32]%N. (* "📉 " *)
Definition recommendation_marker : list N := [9989; 32]%N.     (* "✅ " *)
Definition no_predictions : list N := js "No predictions available".
Definition no_recommendations : list N := js "No recommendations available".
Definition item_separator : list N := js ", ".
Definition medium : list N := js "medium".

(** ** [Math.random()] as a stream *)

Definition Rng : Type := nat -> Q.

Definition random : St Rng Q := fun s => (s 0%nat, fun n => s (S n)).

(** [Math.floor(Math.random() * k)] on the exact value of the draw. *)
Definition floor_scaled (r : Q) (k : Z) : Z := Qfloor (r * inject_Z k).

(** ** The structured insight *)

Record TimelineEntry := {
  day : list N;
  risk : Z;
  bandwidth : Z
}.

Record VisualData := {
  riskScore : Z;
  priorityLevel : option (list N);
  timeline : list TimelineEntry
}.

Record NetworkInsight := {
  summary : list N;
  severity : list N;
  predictions : list (list N);
  recommendations : list (list N);
  visualData : VisualData;
  rawText : list N;
  timestamp : list N
}.

(** [{ day: `Day ${i + 1}`, risk: ..., bandwidth: 80 + ... }] *)
Definition timeline_entry (i : nat) : St Rng TimelineEntry :=
  let* r1 := random in
  let* r2 := random in
  st_ret {| day := js "Day " ++ nat_to_js (i + 1);
            risk := floor_scaled r1 100;
            bandwidth := 80 + floor_scaled r2 20 |}.

(** [Array.from({ length: 7 }, (_, i) => ...)] *)
Definition generateMockTimeline : St Rng (list TimelineEntry) :=
  st_replicate 7 timeline_entry 0.

Definition priority_levels : list (list N) := [js "low"; medium; js "high"].

(** [["low", "medium", "high"][k]]: [undefined] out of range. *)
Definition index_array (l : list (list N)) (k : Z) : option (list N) :=
  if (k <? 0)%Z then None else l !! Z.to_nat k.

(** [text.split("\n")[0]] *)
Definition first_line (text : list N) : list N :=
  match split text [newline] with
  | x :: _ => x
  | [] => []
  end.

(** [severityMatch ? severityMatch[1] : "medium"] *)
Definition severity_of (m : option (list N)) : list N :=
  match m with
  | Some w => w
  | None => medium
  end.

(** [m ? m[1].split(", ").map((p) => `<marker> ${p}`) : [placeholder]] *)
Definition items_of (m : option (list N)) (marker placeholder : list N) : list (list N) :=
  match m with
  | Some c => map (fun p => marker ++ p) (split c item_separator)
  | None => [placeholder]
  end.

Definition formatNetworkResponse (text now : list N) : St Rng NetworkInsight :=
  let severityMatch := severity_match text in
  let predictionsMatch := predictions_match text in
  let recommendationsMatch := recommendations_match text in
  let* r1 := random in
  let* r2 := random in
  let* tl := generateMockTimeline in
  st_ret {| summary := replace_all [star; star] glow_marker (first_line text);
            severity := severity_of severityMatch;
            predictions := items_of predictionsMatch prediction_marker no_predictions;
            recommendations :=
              items_of recommendationsMatch recommendation_marker no_recommendations;
            visualData := {| riskScore := floor_scaled r1 100;
                             priorityLevel := index_array priority_levels (floor_scaled r2 3);
                             timeline := tl |};
            rawText := strip_markup text;
            timestamp := now |}.

(** ** The colour and emoji tables of the POST handler *)

(** [structuredResponse.colorCodes], in insertion order. *)
Definition colorCodes : list (list N * list N) :=
  [(js "low", js "#2ecc71"); (medium, js "#f1c40f"); (js "high", js "#e74c3c")].

Definition green_circle : list N := [55357; 57314]%N.   (* "🟢" *)
Definition yellow_circle : list N := [55357; 57313]%N.  (* "🟡" *)
Definition red_circle : list N := [55357; 56628]%N.     (* "🔴" *)

Definition emoji_entries : list (list N * list N) :=
  [(js "low", green_circle); (medium, yellow_circle); (js "high", red_circle)].

(** The own properties of [{ low: "🟢", medium: "🟡", high: "🔴" }]. *)
Definition emoji_props : list (list N * JsValue) :=
  map (fun '(k, e) => (k, JString e)) emoji_entries.

(** [{ low: "🟢", medium: "🟡", high: "🔴" }[key]] *)
Definition emoji_lookup (key : list N) : JsValue := object_get emoji_props key.

(** [structuredResponse.emoji = {...}[structuredResponse.severity.toLowerCase()]] *)
Definition emoji_of (insight : NetworkInsight) : JsValue :=
  emoji_lookup (to_lower_ascii (severity insight)).

(** The reply layout the network-analyst prompt asks the provider for
    (lines 75-80 of the handler): a severity tag, then one line per
    section, each heading in bold markup. *)
Definition requested_reply (sev S P R T : list N) : list N :=
  js "[SEVERITY: " ++ sev ++ js "]" ++ [newline] ++
  js "**Summary**: " ++ S ++ [newline] ++
  js "**Predictions**: " ++ P ++ [newline] ++
  js "**Recommendations**: " ++ R ++ [newline] ++
  js "**Technical Analysis**: " ++ T.

(** ** Lemmas *)

(** A draw of [Math.random()] lies in [[0, 1)]. *)
Definition valid_rng (s : Rng) : Prop := forall n, (0 <= s n < 1)%Q.

Lemma floor_scaled_bounds r k :
  (0 <= r < 1)%Q -> (0 < k)%Z -> (0 <= floor_scaled r k < k)%Z.
Proof.
  intros [H0 H1] Hk. unfold floor_scaled.
  assert (0 < inject_Z k)%Q as Hk'.
  { change 0%Q with (inject_Z 0). rewrite <- Zlt_Qlt. lia. }
  split.
  - change 0%Z with (Qfloor 0). apply Qfloor_resp_le.
    apply Qmult_le_0_compat; [done|]. by apply Qlt_le_weak.
  - pose proof (Qfloor_le (r * inject_Z k)) as Hle.
    assert (r * inject_Z k < inject_Z k)%Q as Hlt.
    { rewrite <- (Qmult_1_l (inject_Z k)) at 2. by apply Qmult_lt_r. }
    rewrite Zlt_Qlt. eapply Qle_lt_trans; eauto.
Qed.

Lemma search_sev_skip pre t :
  Forall (fun c => c <> 91%N) pre -> severity_match (pre ++ t) = severity_match t.
Proof.
  intros Hpre. unfold severity_match. apply search_app_skip.
  intros j Hj. rewrite drop_app_le by lia.
  destruct (drop j pre) as [|c rest] eqn:Ed.
  { apply (f_equal length) in Ed. rewrite length_drop in Ed. simpl in Ed. lia. }
  assert (c <> 91%N) as Hc.
  { apply (Forall_drop _ j) in Hpre. rewrite Ed in Hpre. by inversion Hpre. }
  by apply sev_at_cons_other.
Qed.

Lemma first_line_no_newline text :
  sep_free [newline] text -> first_line text = text.
Proof.
  intros H. unfold first_line. rewrite split_eq by done.
  by rewrite (proj2 (break_at_none_iff [newline] text ltac:(done)) H).
Qed.

(** Separator-freedom of a concatenation of literals and variables whose
    literal parts start with a code unit outside the pattern. *)
Ltac sep_free_concat :=
  repeat match goal with
  | |- sep_free _ (js _ ++ _) =>
      apply sep_free_app_l;
      [apply break_at_none_iff; [discriminate|vm_compute; reflexivity]| |vm_compute; reflexivity]
  | |- sep_free _ ([_] ++ _) =>
      apply sep_free_app_l;
      [apply break_at_none_iff; [discriminate|vm_compute; reflexivity]| |vm_compute; reflexivity]
  | |- sep_free _ (_ ++ _) =>
      apply sep_free_app_head;
      [discriminate|assumption| |intros ? ? [= <- _]; vm_compute; intuition discriminate]
  | |- sep_free _ _ => assumption
  end.

(** The fields of the result, one equation each. *)
Section Fields.
Context (text now : list N) (s : Rng).
Let ins := fst (formatNetworkResponse text now s).

Lemma severity_format : severity ins = severity_of (severity_match text).
Proof. reflexivity. Qed.

Lemma predictions_format :
  predictions ins = items_of (predictions_match text) prediction_marker no_predictions.
Proof. reflexivity. Qed.

Lemma recommendations_format :
  recommendations ins =
    items_of (recommendations_match text) recommendation_marker no_recommendations.
Proof. reflexivity. Qed.
End Fields.

#[export] Hint Rewrite severity_format predictions_format recommendations_format : js_rw.

Lemma items_of_shape m marker ph :
  items_of m marker ph = [ph] \/
  (items_of m marker ph <> [] /\ Forall (fun p => exists q, p = marker ++ q) (items_of m marker ph)).
Proof.
  destruct m as [c|]; [right|by left]. unfold items_of.
  match goal with
  | |- context [split c ?sep] =>
      destruct (split_not_nil c sep) as [Hne|[Habs _]]; [|done];
      split; [by destruct (split c sep)|]
  end.
  apply List.Forall_forall. intros p (q & <- & _)%in_map_iff. eauto.
Qed.

(** Keys other than the three levels fall through to [Object.prototype]. *)
Lemma emoji_lookup_other key : key ∉ priority_levels -> emoji_lookup key = inherited key.
Proof.
  intros Hout. unfold emoji_lookup, object_get, own_prop. simpl.
  rewrite !bool_decide_false by (intros <-; apply Hout; set_solver). done.
Qed.

Lemma ascii_lower_idem c : ascii_lower (ascii_lower c) = ascii_lower c.
Proof.
  unfold ascii_lower.
  destruct ((65 <=? c) && (c <=? 90))%N eqn:E; rewrite ?E; [|done].
  apply andb_true_iff in E as [E1 E2]. apply N.leb_le in E1, E2.
  replace ((65 <=? c + 32) && (c + 32 <=? 90))%N with false; [done|].
  symmetry. apply andb_false_iff. right. apply N.leb_gt. lia.
Qed.

Lemma to_lower_ascii_idem w : to_lower_ascii (to_lower_ascii w) = to_lower_ascii w.
Proof. unfold to_lower_ascii. rewrite map_map. apply map_ext, ascii_lower_idem. Qed.

(** The key [__proto__] and the inherited names reachable after
    lower-casing. *)
Lemma prototype_key_lower key :
  to_lower_ascii key = key -> key ∈ object_prototype_keys -> key = js "constructor".
Proof.
  intros Hl Hin. unfold object_prototype_keys in Hin. simpl in Hin.
  repeat (apply elem_of_cons in Hin as [->|Hin]; [try done; vm_compute in Hl; discriminate|]).
  by apply elem_of_nil in Hin.
Qed.

(** ** Theorems *)

(** C1: a completion without a [[SEVERITY: <word>]] marker is normalised
    to severity ["medium"], shown with the yellow emoji. *)
Theorem format_severity_default text now s :
  (forall i, sev_at (drop i text) = None) ->
  severity (fst (formatNetworkResponse text now s)) = medium /\
  emoji_of (fst (formatNetworkResponse text now s)) = JString yellow_circle.
Proof.
  intros H. unfold emoji_of. rewrite severity_format.
  unfold severity_match. rewrite search_all_none by done. done.
Qed.

(** C2: the first marker [[SEVERITY: <word>]], with the literal in any
    letter case, sets the severity to the word exactly as the completion
    writes it (["HIGH"] stays ["HIGH"]); the emoji is looked up with the
    word lower-cased. *)
Theorem format_severity_marker pre p w post now s :
  Forall (fun c => c <> 91%N) pre ->
  Forall2 (fun y x => ascii_upper y = ascii_upper x) p severity_open ->
  w <> [] -> Forall (fun c => is_word_char c = true) w ->
  severity (fst (formatNetworkResponse (pre ++ p ++ w ++ close_bracket :: post) now s)) = w /\
  emoji_of (fst (formatNetworkResponse (pre ++ p ++ w ++ close_bracket :: post) now s))
    = emoji_lookup (to_lower_ascii w).
Proof.
  intros Hpre Hp Hw Hword. unfold emoji_of. rewrite severity_format, search_sev_skip by done.
  assert (Forall2 (fun y x => ci_eq y x = true) p severity_open) as Hci.
  { eapply Forall2_impl; [exact Hp|]. intros y x Hyx. unfold ci_eq. rewrite Hyx. apply N.eqb_refl. }
  unfold severity_match. rewrite (search_here sev_at _ w) by (by apply sev_at_complete). done.
Qed.

(** The emoji lookup returns a string exactly for the keys
    ["low"], ["medium"] and ["high"], each with its own emoji. *)
Theorem emoji_lookup_string key e :
  emoji_lookup key = JString e <-> (key, e) ∈ emoji_entries.
Proof.
  destruct (decide (key ∈ priority_levels)) as [Hin|Hout].
  - unfold priority_levels in Hin. rewrite list_elem_of_In in Hin. simpl in Hin.
    unfold emoji_entries. rewrite list_elem_of_In. simpl.
    destruct Hin as [<-|[<-|[<-|[]]]]; vm_compute;
      (split; [intros [= <-]; tauto|intros [H|[H|[H|[]]]]; inversion H; reflexivity]).
  - rewrite emoji_lookup_other by done. split.
    + unfold inherited. by repeat case_decide.
    + intros He. exfalso. apply Hout. unfold emoji_entries, priority_levels in *.
      apply list_elem_of_In in He. apply list_elem_of_In. simpl in *.
      destruct He as [[= -> _]|[[= -> _]|[[= -> _]|[]]]]; tauto.
Qed.

(** C30: a severity word other than low, medium, high (in any case)
    leaves the emoji [undefined], so the field is dropped from the JSON
    reply, except for the inherited names ["constructor"] and
    ["__proto__"]. *)
Theorem emoji_undefined_other ins :
  to_lower_ascii (severity ins) ∉ priority_levels ->
  to_lower_ascii (severity ins) <> js "constructor" ->
  to_lower_ascii (severity ins) <> js "__proto__" ->
  emoji_of ins = JUndefined.
Proof.
  unfold emoji_of. set (key := to_lower_ascii (severity ins)). intros Hnot Hc Hp.
  rewrite emoji_lookup_other by done. unfold inherited.
  case_decide; [done|]. case_decide as Hin; [|done].
  exfalso. apply Hc. apply prototype_key_lower; [apply to_lower_ascii_idem|done].
Qed.

(** C3: the predictions and recommendations are never empty: either
    the fixed one-element placeholder, or a non-empty list of items each
    starting with its marker. *)
Theorem format_items_shape text now s :
  let ins := fst (formatNetworkResponse text now s) in
  (predictions ins = [no_predictions] \/
   (predictions ins <> [] /\
    Forall (fun p => exists q, p = prediction_marker ++ q) (predictions ins))) /\
  (recommendations ins = [no_recommendations] \/
   (recommendations ins <> [] /\
    Forall (fun p => exists q, p = recommendation_marker ++ q) (recommendations ins))).
Proof.
  cbv zeta. rewrite predictions_format, recommendations_format. split; apply items_of_shape.
Qed.

Lemma index_array_in l k :
  (0 <= k < Z.of_nat (length l))%Z -> exists x, index_array l k = Some x /\ x ∈ l.
Proof.
  intros Hk. unfold index_array. replace (k <? 0)%Z with false by lia.
  destruct (lookup_lt_is_Some_2 l (Z.to_nat k)) as [x Hx]; [lia|].
  exists x. split; [done|]. by eapply list_elem_of_lookup_2.
Qed.

(** The placeholder data in closed form: draw [0] is the risk score,
    draw [1] the priority, draws [2 + 2 i] and [3 + 2 i] the entry [i]. *)
Lemma format_visual text now s :
  visualData (fst (formatNetworkResponse text now s)) =
  {| riskScore := floor_scaled (s 0%nat) 100;
     priorityLevel := index_array priority_levels (floor_scaled (s 1%nat) 3);
     timeline := map (fun i => {| day := js "Day " ++ nat_to_js (i + 1);
                                  risk := floor_scaled (s (2 + 2 * i)%nat) 100;
                                  bandwidth := 80 + floor_scaled (s (3 + 2 * i)%nat) 20 |})
                     (seq 0 7) |}.
Proof. reflexivity. Qed.

Lemma entry_bounds r1 r2 :
  (0 <= r1 < 1)%Q -> (0 <= r2 < 1)%Q ->
  (0 <= floor_scaled r1 100 < 100)%Z /\ (80 <= 80 + floor_scaled r2 20 < 100)%Z.
Proof.
  intros H1 H2.
  pose proof (floor_scaled_bounds r1 100 H1 ltac:(lia)).
  pose proof (floor_scaled_bounds r2 20 H2 ltac:(lia)). lia.
Qed.

(** C4: a prediction line [Predictions: a, b, c] (ending the text or
    followed by a newline, with no earlier occurrence of the label)
    yields the items in their original order, each with the marker. *)
Theorem format_predictions_line pre items rest now s :
  sep_free predictions_label pre -> no_partial_suffix predictions_label pre = true ->
  items <> [] ->
  Forall (fun p => Forall (fun x => not_lt x = true) p /\ sep_free item_separator p /\
                   no_partial_suffix item_separator p = true) items ->
  (rest = [] \/ exists r, rest = newline :: r) ->
  predictions (fst (formatNetworkResponse
                      (pre ++ predictions_label ++ join item_separator items ++ rest) now s))
    = map (fun p => prediction_marker ++ p) items.
Proof.
  intros Hpre Hsuf Hne Hitems Hrest. rewrite predictions_format. unfold predictions_match.
  rewrite search_app_skip.
  2: { intros j Hj. apply field_at_starts. by apply no_occurrence_in_prefix. }
  rewrite (search_here _ _ (join item_separator items)).
  2: { apply field_at_complete; [|done]. apply Forall_join.
       - vm_compute. repeat constructor.
       - eapply Forall_impl; [exact Hitems|]. by intros p (Hp & _ & _). }
  unfold items_of. rewrite split_join; [done|discriminate|done|].
  eapply Forall_impl; [exact Hitems|]. intros p (_ & Hs & Hn); auto.
Qed.

(** C5: a reply in exactly the layout the prompt requests
    ([**Predictions**: ...], [**Recommendations**: ...]) never matches the
    patterns [Predictions: ] and [Recommendations: ] (the bold markup sits
    between the word and the colon), so both lists are the placeholders
    whatever the provider writes in the sections. *)
Theorem format_requested_layout_placeholders sev S P R T now s :
  (forall x, x ∈ [sev; S; P; R; T] ->
     sep_free predictions_label x /\ sep_free recommendations_label x) ->
  predictions (fst (formatNetworkResponse (requested_reply sev S P R T) now s))
    = [no_predictions] /\
  recommendations (fst (formatNetworkResponse (requested_reply sev S P R T) now s))
    = [no_recommendations].
Proof.
  intros Hall.
  destruct (Hall sev) as [Hsev1 Hsev2]; [by repeat constructor|].
  destruct (Hall S) as [HS1 HS2]; [by repeat constructor|].
  destruct (Hall P) as [HP1 HP2]; [by repeat constructor|].
  destruct (Hall R) as [HR1 HR2]; [by repeat constructor|].
  destruct (Hall T) as [HT1 HT2]; [by repeat constructor|].
  rewrite predictions_format, recommendations_format.
  unfold predictions_match, recommendations_match, requested_reply.
  rewrite !field_search_sep_free; [done| |]; sep_free_concat.
Qed.

(** C31: the placeholder data take exactly 16 draws of [Math.random()]
    and nothing from the completion; with draws in [[0,1)] the risk score
    is in [[0,100)], the priority is one of low/medium/high, and the
    timeline has the seven days [Day 1] .. [Day 7] with risk in [[0,100)]
    and bandwidth in [[80,100)]. *)
Theorem format_placeholder_data text now s :
  valid_rng s ->
  let ins := fst (formatNetworkResponse text now s) in
  (forall n, snd (formatNetworkResponse text now s) n = s (16 + n)%nat) /\
  (forall text' now', visualData (fst (formatNetworkResponse text' now' s)) = visualData ins) /\
  (0 <= riskScore (visualData ins) < 100)%Z /\
  (exists lvl, priorityLevel (visualData ins) = Some lvl /\ lvl ∈ priority_levels) /\
  map day (timeline (visualData ins)) = map (fun i => js "Day " ++ nat_to_js i) (seq 1 7) /\
  Forall (fun e => (0 <= risk e < 100)%Z /\ (80 <= bandwidth e < 100)%Z)
         (timeline (visualData ins)).
Proof.
  intros Hs. cbv zeta. rewrite !format_visual.
  split; [intros n; reflexivity|]. split; [done|]. cbn [riskScore priorityLevel timeline].
  split; [apply floor_scaled_bounds; [apply Hs|lia]|].
  split.
  { apply index_array_in. pose proof (floor_scaled_bounds (s 1%nat) 3 (Hs _)). simpl. lia. }
  split; [reflexivity|].
  apply List.Forall_map, List.Forall_forall. intros i _. apply entry_bounds; apply Hs.
Qed.

(** ** Witnesses *)

Definition half_rng : Rng := fun _ => (1 # 2)%Q.

Lemma half_rng_valid : valid_rng half_rng.
Proof. intros n. split; vm_compute; [discriminate|reflexivity]. Qed.

Ltac sep_free_closed := apply break_at_none_iff; [discriminate|vm_compute; reflexivity].

Lemma format_severity_default_witness :
  (forall i, sev_at (drop i (js "All links nominal")) = None) /\
  severity (fst (formatNetworkResponse (js "All links nominal") [] half_rng)) = medium /\
  emoji_of (fst (formatNetworkResponse (js "All links nominal") [] half_rng))
    = JString yellow_circle.
Proof.
  assert (forall i, sev_at (drop i (js "All links nominal")) = None) as H
    by (apply search_none; vm_compute; reflexivity).
  split; [exact H|]. apply (format_severity_default _ [] half_rng H).
Defined.

Lemma format_severity_marker_witness :
  Forall (fun c => c <> 91%N) (js "Status ") /\
  Forall2 (fun y x => ascii_upper y = ascii_upper x) (js "[severity: ") severity_open /\
  js "HIGH" <> [] /\ Forall (fun c => is_word_char c = true) (js "HIGH") /\
  severity (fst (formatNetworkResponse
                   (js "Status " ++ js "[severity: " ++ js "HIGH" ++ close_bracket :: js " now")
                   [] half_rng)) = js "HIGH" /\
  emoji_of (fst (formatNetworkResponse
                   (js "Status " ++ js "[severity: " ++ js "HIGH" ++ close_bracket :: js " now")
                   [] half_rng)) = emoji_lookup (to_lower_ascii (js "HIGH")).
Proof.
  assert (Forall (fun c => c <> 91%N) (js "Status ")) as H1 by (repeat constructor; discriminate).
  assert (Forall2 (fun y x => ascii_upper y = ascii_upper x) (js "[severity: ") severity_open) as H2
    by (vm_compute; repeat constructor).
  assert (js "HIGH" <> []) as H3 by discriminate.
  assert (Forall (fun c => is_word_char c = true) (js "HIGH")) as H4 by (repeat constructor).
  do 4 (split; [assumption|]). apply (format_severity_marker _ _ _ _ [] half_rng H1 H2 H3 H4).
Defined.

Lemma emoji_undefined_other_witness :
  let ins := fst (formatNetworkResponse (js "[SEVERITY: CRITICAL]") [] half_rng) in
  (to_lower_ascii (severity ins) ∉ priority_levels) /\
  to_lower_ascii (severity ins) <> js "constructor" /\
  to_lower_ascii (severity ins) <> js "__proto__" /\
  emoji_of ins = JUndefined.
Proof.
  cbv zeta.
  assert (to_lower_ascii (severity (fst (formatNetworkResponse (js "[SEVERITY: CRITICAL]") []
            half_rng))) ∉ priority_levels) as H1 by (apply (bool_decide_unpack _); vm_compute; reflexivity).
  assert (to_lower_ascii (severity (fst (formatNetworkResponse (js "[SEVERITY: CRITICAL]") []
            half_rng))) <> js "constructor") as H2 by (vm_compute; discriminate).
  assert (to_lower_ascii (severity (fst (formatNetworkResponse (js "[SEVERITY: CRITICAL]") []
            half_rng))) <> js "__proto__") as H3 by (vm_compute; discriminate).
  do 3 (split; [assumption|]). apply (emoji_undefined_other _ H1 H2 H3).
Defined.

Lemma format_predictions_line_witness :
  let pre := js "[SEVERITY: LOW]" ++ [newline] in
  let items := [js "a"; js "b"; js "c"] in
  let rest := [newline] ++ js "Recommendations: x, y, z" in
  sep_free predictions_label pre /\ no_partial_suffix predictions_label pre = true /\
  items <> [] /\
  Forall (fun p => Forall (fun x => not_lt x = true) p /\ sep_free item_separator p /\
                   no_partial_suffix item_separator p = true) items /\
  (rest = [] \/ exists r, rest = newline :: r) /\
  predictions (fst (formatNetworkResponse
                      (pre ++ predictions_label ++ join item_separator items ++ rest) [] half_rng))
    = map (fun p => prediction_marker ++ p) items.
Proof.
  cbv zeta.
  assert (sep_free predictions_label (js "[SEVERITY: LOW]" ++ [newline])) as H1 by sep_free_closed.
  assert (no_partial_suffix predictions_label (js "[SEVERITY: LOW]" ++ [newline]) = true) as H2
    by (vm_compute; reflexivity).
  assert ([js "a"; js "b"; js "c"] <> []) as H3 by discriminate.
  assert (Forall (fun p => Forall (fun x => not_lt x = true) p /\ sep_free item_separator p /\
                   no_partial_suffix item_separator p = true) [js "a"; js "b"; js "c"]) as H4
    by (repeat constructor; sep_free_closed).
  assert ([newline] ++ js "Recommendations: x, y, z" = [] \/
          exists r, [newline] ++ js "Recommendations: x, y, z" = newline :: r) as H5
    by (right; eexists; reflexivity).
  do 5 (split; [assumption|]). apply (format_predictions_line _ _ _ [] half_rng H1 H2 H3 H4 H5).
Defined.

Lemma format_requested_layout_placeholders_witness :
  (forall x, x ∈ [js "HIGH"; js "Stable"; js "a, b, c"; js "x, y, z"; js "Fine"] ->
     sep_free predictions_label x /\ sep_free recommendations_label x) /\
  predictions (fst (formatNetworkResponse
     (requested_reply (js "HIGH") (js "Stable") (js "a, b, c") (js "x, y, z") (js "Fine"))
     [] half_rng)) = [no_predictions] /\
  recommendations (fst (formatNetworkResponse
     (requested_reply (js "HIGH") (js "Stable") (js "a, b, c") (js "x, y, z") (js "Fine"))
     [] half_rng)) = [no_recommendations].
Proof.
  assert (forall x, x ∈ [js "HIGH"; js "Stable"; js "a, b, c"; js "x, y, z"; js "Fine"] ->
     sep_free predictions_label x /\ sep_free recommendations_label x) as H.
  { intros x Hx.
    repeat (apply elem_of_cons in Hx as [->|Hx]; [split; sep_free_closed|]).
    by apply elem_of_nil in Hx. }
  split; [exact H|]. apply (format_requested_layout_placeholders _ _ _ _ _ [] half_rng H).
Defined.

Lemma format_placeholder_data_witness :
  valid_rng half_rng /\
  (0 <= riskScore (visualData (fst (formatNetworkResponse (js "ok") [] half_rng))) < 100)%Z.
Proof.
  split; [exact half_rng_valid|].
  apply (format_placeholder_data (js "ok") [] half_rng half_rng_valid).
Defined.

End Normalizer.
