(* ===== verification/Handlers.v ===== *)
(** * The route handlers

    One definition per exported route handler of [src/app/api/*/route.js].
    A handler takes the request body text (what [await req.json()]
    parses) and returns an [Outcome]: a reply (status and the object
    passed to [NextResponse.json] / [Response.json] / [JSON.stringify]) or
    [Rejected], a rejection that escapes the handler because it happens
    before its [try] block.

    The generative-language provider is the interface [Provider]: one
    completion text or one failure per prompt; the external insights API
    of [/api/insights] is the interface [InsightsApi].  Handlers that call
    [Math.random()] run in the state monad over the stream of draws.
    Every theorem holds for every provider, every JSON codec and every
    [Number::toString] instance. *)

From S2P Require Import Prelude JsString Scan JsValue Json Normalizer.
From Stdlib Require Import ZArith QArith Qround Qabs.
Import JsString JsValue Json Normalizer.

Module Handlers.

Local Open Scope js_scope.

(** ** Interfaces of the outside world *)

(** [model.generateContent(prompt)] then [response.text()]. *)
Inductive Completion :=
| Completed (text : list N)
| ProviderFailed (message : list N).

Class Provider := { generateContent : list N -> Completion }.

(** [fetch(url, { body })] of [/api/insights]: a network failure, or the
    HTTP status and body text of the response. *)
Inductive FetchResult :=
| FetchFailed (message : list N)
| FetchResponse (status : Z) (text : list N).

Class InsightsApi := { fetch_insights : list N -> FetchResult }.

(** ** Replies *)

Record Reply := {
  status : Z;
  headers : list (list N * list N);
  body : JsValue
}.

Inductive Outcome :=
| Replied (r : Reply)
| Rejected.

Definition json_headers : list (list N * list N) := [(js "Content-Type", js "application/json")].

(** [NextResponse.json(v, { status })] *)
Definition reply (st : Z) (v : JsValue) : Outcome :=
  Replied {| status := st; headers := json_headers; body := v |}.

Definition obj (l : list (string * JsValue)) : JsValue :=
  JObject (map (fun '(k, v) => (js k, v)) l).

Definition quote : list N := [34%N].

(** The [TypeError] message of ToString on an object whose own
    [toString] is not callable (V8). *)
Definition to_primitive_error : list N := js "Cannot convert object to primitive value".

Section Handlers.
Context {NF : NumberFormat} {JC : JsonCodec} {PV : Provider} {IA : InsightsApi}.

(** [const { k1, k2, ... } = await req.json()]: [None] when the body is
    not JSON or is [null]; both happen before the [try]. *)
Definition request_fields (body : list N) (keys : list (list N)) : option (list JsValue) :=
  match json_parse body with
  | inl _ => None
  | inr v => match v with
             | JUndefined | JNull => None
             | _ => mapM (get_value v) keys
             end
  end.

(** ** [POST /api/ai-tutor] *)

Definition tutor_prompt (question : list N) : list N :=
  js "As an AI tutor, please answer the following question: " ++ question.

Definition tutor_error : JsValue :=
  obj [("error", JString (js "An error occurred while processing your request."))].

Definition ai_tutor_POST (body : list N) : Outcome :=
  match request_fields body [js "question"] with
  | Some [question] =>
      match to_js_string question with
      | None => reply 500 tutor_error
      | Some q =>
          match generateContent (tutor_prompt q) with
          | Completed text => reply 200 (obj [("response", JString (strip_markup text))])
          | ProviderFailed _ => reply 500 tutor_error
          end
      end
  | _ => Rejected
  end.

(** ** [POST /api/evaluate-answer] *)

Definition evaluation_prompt (question answer difficulty : list N) : list N :=
  [newline] ++
  js "      Question: " ++ quote ++ question ++ quote ++ [newline] ++
  js "      Student's Answer: " ++ quote ++ answer ++ quote ++ [newline] ++
  js "      Difficulty Level: " ++ difficulty ++ js "/10" ++ [newline] ++
  [newline] ++
  js "      Please evaluate the student's answer based on the following criteria:" ++ [newline] ++
  js "      1. Relevance to the question" ++ [newline] ++
  js "      2. Depth of understanding" ++ [newline] ++
  js "      3. Critical thinking" ++ [newline] ++
  js "      4. Clarity of expression" ++ [newline] ++
  [newline] ++
  js "      Provide a brief feedback comment (2-3 sentences) and a score between 0 and 1, where 0 is completely incorrect and 1 is a perfect answer." ++ [newline] ++
  [newline] ++
  js "      Format your response as a JSON object with 'comment' and 'score' fields." ++ [newline] ++
  js "    ".

Definition evaluation_error : JsValue := obj [("error", JString (js "Failed to evaluate answer"))].

(** [JSON.parse(text)], then [evaluation.comment] and [evaluation.score]. *)
Definition feedback_of (text : list N) : option JsValue :=
  match json_parse text with
  | inl _ => None
  | inr ev =>
      match get_value ev (js "comment"), get_value ev (js "score") with
      | Some c, Some s => Some (obj [("feedback", obj [("comment", c); ("score", s)])])
      | _, _ => None
      end
  end.

Definition evaluate_answer_POST (body : list N) : Outcome :=
  match request_fields body [js "question"; js "answer"; js "difficulty"] with
  | Some [question; answer; difficulty] =>
      match to_js_string question, to_js_string answer, to_js_string difficulty with
      | Some q, Some a, Some d =>
          match generateContent (evaluation_prompt q a d) with
          | Completed text =>
              match feedback_of text with
              | Some fb => reply 200 fb
              | None => reply 500 evaluation_error
              end
          | ProviderFailed _ => reply 500 evaluation_error
          end
      | _, _, _ => reply 500 evaluation_error
      end
  | _ => Rejected
  end.

(** ** [GET /api/dashboard-data] *)

Definition school (name : string) (uptime : Q) : JsValue :=
  obj [("school", JString (js name)); ("uptime", JNumber uptime)].

Definition week (name : string) (progress : Z) : JsValue :=
  obj [("week", JString (js name)); ("progress", JNumber (inject_Z progress))].

Definition networkStatus : list JsValue :=
  [school "School A" (985 # 10); school "School B" (952 # 10); school "School C" (927 # 10);
   school "School D" (971 # 10); school "School E" (993 # 10)].

Definition learningProgress : list JsValue :=
  [week "Week 1" 22; week "Week 2" 37; week "Week 3" 48; week "Week 4" 62; week "Week 5" 78].

Definition dashboard_data_GET : Outcome :=
  reply 200 (obj [("networkStatus", JArray networkStatus);
                  ("learningProgress", JArray learningProgress)]).

(** ** [GET /api/network-data] *)

Definition network_data_GET : St Rng Outcome :=
  let* r1 := random in
  let* r2 := random in
  let* r3 := random in
  st_ret (reply 200 (obj [("bandwidth", JNumber (r1 * 100));
                          ("latency", JNumber (r2 * 200));
                          ("downtime", JNumber (r3 * 10))])).

(** ** [POST /api/gemini] *)

Definition analyst_prompt (query hist : list N) : list N :=
  js "Act as a Network Health AI Analyst. Analyze this network query: " ++
    quote ++ query ++ quote ++ [newline] ++
  js "      Historical data: " ++ hist ++ [newline] ++
  js "      Respond in this format:" ++ [newline] ++
  js "      [SEVERITY: LOW/MEDIUM/HIGH]" ++ [newline] ++
  js "      **Summary**: One-line emoji-rich summary" ++ [newline] ++
  js "      **Predictions**: 3 comma-separated future predictions" ++ [newline] ++
  js "      **Recommendations**: 3 comma-separated action items" ++ [newline] ++
  js "      **Technical Analysis**: 2-3 sentence expert analysis".

Definition siren : list N := [55357; 57000]%N.  (* "🚨" *)

(** The 500 envelope; [debug] is the error message in development. *)
Definition gemini_error (dev : bool) (message : list N) : Outcome :=
  reply 500 (obj [("error", JString (siren ++ js " Critical System Error"));
                  ("message", JString (js "Our AI engines are overheating! Try again later."));
                  ("debug", if dev then JString message else JUndefined)]).

Definition timeline_js (e : TimelineEntry) : JsValue :=
  obj [("day", JString (day e)); ("risk", JNumber (inject_Z (risk e)));
       ("bandwidth", JNumber (inject_Z (bandwidth e)))].

(** The structured response after [colorCodes] and [emoji] are added. *)
Definition insight_js (ins : NetworkInsight) : JsValue :=
  let vd := visualData ins in
  obj [("summary", JString (summary ins));
       ("severity", JString (severity ins));
       ("predictions", JArray (map JString (predictions ins)));
       ("recommendations", JArray (map JString (recommendations ins)));
       ("visualData", obj [("riskScore", JNumber (inject_Z (riskScore vd)));
                           ("priorityLevel", match priorityLevel vd with
                                             | Some p => JString p
                                             | None => JUndefined
                                             end);
                           ("timeline", JArray (map timeline_js (timeline vd)))]);
       ("rawText", JString (rawText ins));
       ("timestamp", JString (timestamp ins));
       ("colorCodes", JObject (map (fun '(k, c) => (k, JString c)) colorCodes));
       ("emoji", emoji_of ins)].

Definition gemini_headers : list (list N * list N) :=
  [(js "Content-Type", js "application/json"); (js "X-AI-Engine", js "NetworkPulsePro v2.0")].

(** [JSON.stringify(historicalData || {})] inside the template literal. *)
Definition history_text (hist : JsValue) : list N :=
  match json_stringify (js_or hist (JObject [])) with
  | Some s => s
  | None => js "undefined"
  end.

Definition gemini_POST (dev : bool) (now : list N) (body : list N) : St Rng Outcome :=
  match request_fields body [js "query"; js "historicalData"] with
  | Some [query; hist] =>
      match to_js_string query with
      | None => st_ret (gemini_error dev to_primitive_error)
      | Some q =>
          match generateContent (analyst_prompt q (history_text hist)) with
          | Completed text =>
              let* ins := formatNetworkResponse text now in
              st_ret (Replied {| status := 200; headers := gemini_headers; body := insight_js ins |})
          | ProviderFailed message => st_ret (gemini_error dev message)
          end
      end
  | _ => st_ret Rejected
  end.

(** ** [GET /api/network-performance] *)

(** [x.toFixed(2)]: the integer [n] nearest to [x * 100] (the larger on a
    tie), written with two decimals; [ToString] from 10^21 on. *)
Definition to_fixed2 (x : Q) : list N :=
  let sign := if Qle_bool 0 x then [] else [45%N] in
  let ax := Qabs x in
  if Qle_bool (inject_Z (10 ^ 21)) ax then sign ++ number_to_string ax
  else
    let n := Qfloor (ax * 100 + (1 # 2)) in
    let m := uint_js (N.to_uint (Z.to_N n)) in
    let m := if length m <=? 2 then repeat 48%N (3 - length m) ++ m else m in
    sign ++ take (length m - 2) m ++ [46%N] ++ drop (length m - 2) m.

Definition performance_prompt (bw lat loss : list N) : list N :=
  [newline] ++
  js "      Analyze the following network performance data:" ++ [newline] ++
  js "      Bandwidth: " ++ bw ++ js " Mbps" ++ [newline] ++
  js "      Latency: " ++ lat ++ js " ms" ++ [newline] ++
  js "      Packet Loss: " ++ loss ++ js "%" ++ [newline] ++
  [newline] ++
  js "      Provide a brief assessment of the network quality and any potential issues or recommendations." ++ [newline] ++
  js "      Consider the following in your analysis:" ++ [newline] ++
  js "      - Is the bandwidth sufficient for most online activities?" ++ [newline] ++
  js "      - Is the latency acceptable for real-time applications?" ++ [newline] ++
  js "      - Is the packet loss within an acceptable range?" ++ [newline] ++
  js "      " ++ [newline] ++
  js "      Keep the response concise, within 2-3 sentences." ++ [newline] ++
  js "    ".

(** [simulateNetworkPerformance()] *)
Definition simulateNetworkPerformance : St Rng (list Q) :=
  let* r1 := random in
  let* r2 := random in
  let* r3 := random in
  st_ret [r1 * 100; r2 * 200; r3 * 5]%Q.

Definition performance_error : JsValue :=
  obj [("error", JString (js "Failed to analyze network performance"))].

Definition network_performance_GET : St Rng Outcome :=
  let* pd := simulateNetworkPerformance in
  st_ret
    (match pd with
     | [bw; lat; loss] =>
         match generateContent
                 (performance_prompt (to_fixed2 bw) (to_fixed2 lat) (to_fixed2 loss)) with
         | Completed analysis =>
             reply 200 (obj [("performanceData", JArray (map JNumber pd));
                             ("analysis", JString analysis)])
         | ProviderFailed _ => reply 500 performance_error
         end
     | _ => reply 500 performance_error
     end).

(** ** [POST /api/insights] *)

Definition insights_error (message : list N) : Outcome :=
  reply 500 (obj [("error", JString (js "Failed to fetch insights")); ("details", JString message)]).

(** The [TypeError] message of [data.insights] on [null] (V8). *)
Definition null_read_error : list N := js "Cannot read properties of null (reading 'insights')".

Definition stringified (v : JsValue) : list N :=
  match json_stringify v with Some s => s | None => js "undefined" end.

(** [JSON.stringify({ bandwidth, latency, downtime })], the body of the
    request to the external API. *)
Definition insights_request_body (bw lat down : JsValue) : list N :=
  stringified (obj [("bandwidth", bw); ("latency", lat); ("downtime", down)]).

Definition insights_POST (body : list N) : Outcome :=
  match request_fields body [js "bandwidth"; js "latency"; js "downtime"] with
  | Some [bw; lat; down] =>
      let payload := insights_request_body bw lat down in
      match fetch_insights payload with
      | FetchFailed message => insights_error message
      | FetchResponse st text =>
          match json_parse text with
          | inl message => insights_error message
          | inr data =>
              if ((200 <=? st) && (st <? 300))%Z then
                match get_value data (js "insights") with
                | Some i => reply 200 (obj [("insights",
                                             js_or i (JString (js "No insights available.")))])
                | None => insights_error null_read_error
                end
              else
                insights_error (js "API request failed with status " ++
                                number_to_string (inject_Z st) ++ js ": " ++ stringified data)
          end
      end
  | _ => Rejected
  end.

(** ** Lemmas *)

Lemma request_fields_length req keys l :
  request_fields req keys = Some l -> length l = length keys.
Proof.
  unfold request_fields. destruct (json_parse req) as [|v]; [done|].
  destruct v; try done; intros Hm; symmetry; by apply length_mapM in Hm.
Qed.

Lemma request_fields_object req props keys :
  json_parse req = inr (JObject props) ->
  request_fields req keys = Some (map (object_get props) keys).
Proof.
  intros Hp. unfold request_fields. rewrite Hp. simpl.
  induction keys as [|k keys IH]; [done|]. simpl. by rewrite IH.
Qed.

(** [JSON.stringify] of a handler's object literal loses nothing: its
    keys are distinct and not array indices, its numbers integers. *)
Lemma plain_obj (l : list (string * JsValue)) :
  bool_decide (NoDup (map fst (map (fun '(k, v) => (js k, v)) l))) = true ->
  Forall (fun kv => array_index (js kv.1) = None /\ plain_json kv.2 = true) l ->
  plain_json (obj l) = true.
Proof.
  intros Hd Hl. unfold obj. cbn [plain_json]. rewrite Hd. apply forallb_forall.
  intros [k v] ([k' v'] & Heq & Hin)%in_map_iff. injection Heq as <- <-.
  rewrite List.Forall_forall in Hl. destruct (Hl _ Hin) as [Hi Hp]. simpl in Hi, Hp |- *.
  by rewrite Hi, Hp.
Qed.

Lemma plain_int z : (Z.abs z < 10 ^ 21)%Z -> plain_json (JNumber (inject_Z z)) = true.
Proof. intros Hz. simpl. by apply Z.ltb_lt in Hz as ->. Qed.

Lemma plain_strings l : plain_json (JArray (map JString l)) = true.
Proof. cbn [plain_json]. apply forallb_forall. by intros x (y & <- & _)%in_map_iff. Qed.

Lemma plain_object_get props k :
  Forall (fun kv => plain_json kv.2 = true) props -> plain_json (object_get props k) = true.
Proof.
  intros Hp. unfold object_get, own_prop.
  destruct (List.find _ _) as [[k' v]|] eqn:E; simpl.
  - apply List.find_some in E as [Hin _]. rewrite List.Forall_forall in Hp. exact (Hp _ Hin).
  - unfold inherited. by repeat case_decide.
Qed.

Lemma plain_insight ins :
  (Z.abs (riskScore (visualData ins)) < 10 ^ 21)%Z ->
  Forall (fun e => Z.abs (risk e) < 10 ^ 21 /\ Z.abs (bandwidth e) < 10 ^ 21)%Z
         (timeline (visualData ins)) ->
  plain_json (insight_js ins) = true.
Proof.
  intros Hr Ht. unfold insight_js. apply plain_obj; [vm_compute; reflexivity|].
  repeat apply Forall_cons_2; try apply Forall_nil_2; (split; [vm_compute; reflexivity|]);
    cbn [snd]; try reflexivity; try apply plain_strings.
  - apply plain_obj; [vm_compute; reflexivity|].
    repeat apply Forall_cons_2; try apply Forall_nil_2; (split; [vm_compute; reflexivity|]);
      cbn [snd]; [by apply plain_int|by destruct (priorityLevel _)|].
    cbn [plain_json]. apply forallb_forall. intros x (e & <- & He)%in_map_iff.
    rewrite List.Forall_forall in Ht. destruct (Ht e He) as [Hrk Hbw].
    apply plain_obj; [vm_compute; reflexivity|].
    repeat apply Forall_cons_2; try apply Forall_nil_2; (split; [vm_compute; reflexivity|]);
      cbn [snd]; [reflexivity|by apply plain_int..].
  - apply plain_object_get. repeat constructor.
Qed.

Lemma plain_formatted text now g :
  valid_rng g -> plain_json (insight_js (fst (formatNetworkResponse text now g))) = true.
Proof.
  intros Hg. apply plain_insight; rewrite format_visual; cbn [riskScore timeline].
  - pose proof (floor_scaled_bounds (g 0%nat) 100 (Hg _) ltac:(lia)). lia.
  - apply List.Forall_map, List.Forall_forall. intros i _. cbn [risk bandwidth].
    destruct (entry_bounds _ _ (Hg (2 + 2 * i)%nat) (Hg (3 + 2 * i)%nat)). lia.
Qed.

(** ** Theorems *)

(** C16: the tutor handler rejects (outside its [try]) exactly the
    bodies that are not JSON or are [null]; every reply is either 200 with
    [{ response }] free of ['*'] or 500 with the fixed error envelope. *)
Theorem ai_tutor_outcomes req :
  (ai_tutor_POST req = Rejected <-> request_fields req [js "question"] = None) /\
  (forall r, ai_tutor_POST req = Replied r ->
     (status r = 200%Z /\ exists s, body r = obj [("response", JString s)] /\ ~ In star s) \/
     (status r = 500%Z /\ body r = tutor_error)).
Proof.
  unfold ai_tutor_POST.
  destruct (request_fields req [js "question"]) as [l|] eqn:E; [|done].
  pose proof (request_fields_length _ _ _ E) as Hl.
  destruct l as [|question [|]]; try done. split; [|intros r].
  - split; [|done]. destruct (to_js_string question); [|done].
    by destruct (generateContent _).
  - destruct (to_js_string question) as [q|]; [|intros [= <-]; by right].
    destruct (generateContent (tutor_prompt q)) as [text|m]; intros [= <-]; [left|by right].
    split; [done|]. exists (strip_markup text). split; [done|apply strip_markup_no_star].
Qed.

(** C29: the tutor handler does not check that [question] is present:
    a JSON object without it sends the prompt ending in ["undefined"]. *)
Theorem ai_tutor_missing_question req props :
  json_parse req = inr (JObject props) -> own_prop props (js "question") = None ->
  ai_tutor_POST req =
    match generateContent (tutor_prompt (js "undefined")) with
    | Completed text => reply 200 (obj [("response", JString (strip_markup text))])
    | ProviderFailed _ => reply 500 tutor_error
    end.
Proof.
  intros Hp Hq. unfold ai_tutor_POST. rewrite (request_fields_object _ _ _ Hp). simpl.
  unfold object_get. rewrite Hq. reflexivity.
Qed.

(** C25: when the completion is a JSON object, the evaluation handler
    replies 200 with exactly its [comment] and [score] properties. *)
Theorem evaluate_answer_feedback req q a d qs ans ds text props :
  request_fields req [js "question"; js "answer"; js "difficulty"] = Some [q; a; d] ->
  to_js_string q = Some qs -> to_js_string a = Some ans -> to_js_string d = Some ds ->
  generateContent (evaluation_prompt qs ans ds) = Completed text ->
  json_parse text = inr (JObject props) ->
  evaluate_answer_POST req =
    reply 200 (obj [("feedback", obj [("comment", object_get props (js "comment"));
                                      ("score", object_get props (js "score"))])]).
Proof.
  intros Hreq Hq Ha Hd Hgen Hparse. unfold evaluate_answer_POST.
  rewrite Hreq, Hq, Ha, Hd, Hgen. unfold feedback_of. by rewrite Hparse.
Qed.

(** C26: a completion that is not JSON, or is JSON [null], makes the
    evaluation handler reply 500, never 200. *)
Theorem evaluate_answer_invalid_json req q a d qs ans ds text :
  request_fields req [js "question"; js "answer"; js "difficulty"] = Some [q; a; d] ->
  to_js_string q = Some qs -> to_js_string a = Some ans -> to_js_string d = Some ds ->
  generateContent (evaluation_prompt qs ans ds) = Completed text ->
  (exists m, json_parse text = inl m) \/ json_parse text = inr JNull ->
  evaluate_answer_POST req = reply 500 evaluation_error.
Proof.
  intros Hreq Hq Ha Hd Hgen Hbad. unfold evaluate_answer_POST.
  rewrite Hreq, Hq, Ha, Hd, Hgen. unfold feedback_of.
  by destruct Hbad as [[m ->]| ->].
Qed.

(** The 500 envelope of the network-insight handler, as the spec of
    [gemini_outcomes] reads it: the fixed [error] and [message] texts,
    and [debug] the error's message in development only. *)
Definition overheating_envelope (dev : bool) (m : list N) : JsValue :=
  obj [("error", JString (siren ++ js " Critical System Error"));
       ("message", JString (js "Our AI engines are overheating! Try again later."));
       ("debug", if dev then JString m else JUndefined)].

(** C6: the network-insight handler rejects (before its [try], taking no
    draw) exactly when the body is not a JSON value with properties;
    otherwise, with [q] the query as a string and [hist] the historical
    data, it asks the provider to complete [analyst_prompt q (history_text
    hist)]: a completion [text] is replied 200 with the engine headers
    and the normal form of [text] (16 draws taken), a provider failure
    with message [m] is the 500 envelope whose [debug] is [m] in
    development, and a query with no string form is that envelope with
    the [TypeError] message (no draw taken). *)
Theorem gemini_outcomes dev now req s :
  (gemini_POST dev now req s = (Rejected, s) <->
   request_fields req [js "query"; js "historicalData"] = None) /\
  (forall query hist, request_fields req [js "query"; js "historicalData"] = Some [query; hist] ->
   (to_js_string query = None ->
      gemini_POST dev now req s = (reply 500 (overheating_envelope dev to_primitive_error), s)) /\
   forall q, to_js_string query = Some q ->
   (forall text, generateContent (analyst_prompt q (history_text hist)) = Completed text ->
      fst (gemini_POST dev now req s) =
        Replied {| status := 200; headers := gemini_headers;
                   body := insight_js (fst (formatNetworkResponse text now s)) |} /\
      forall n, snd (gemini_POST dev now req s) n = s (16 + n)%nat) /\
   (forall m, generateContent (analyst_prompt q (history_text hist)) = ProviderFailed m ->
      gemini_POST dev now req s = (reply 500 (overheating_envelope dev m), s))).
Proof.
  unfold gemini_POST. split.
  - destruct (request_fields req _) as [l|] eqn:E; [|done].
    pose proof (request_fields_length _ _ _ E) as Hl.
    destruct l as [|query [|hist [|]]]; try done. split; [|done].
    destruct (to_js_string query); [|done]. by destruct (generateContent _).
  - intros query hist ->. split; [by intros ->|]. intros q ->. split.
    + intros text ->. split; [reflexivity|]. intros n. reflexivity.
    + by intros m ->.
Qed.

Lemma scaled_draw_bounds r k : (0 <= r < 1)%Q -> (0 < k)%Q -> (0 <= r * k < k)%Q.
Proof.
  intros [Hr0 Hr1] Hk. split.
  - apply Qmult_le_0_compat; [done|]. by apply Qlt_le_weak.
  - rewrite <- (Qmult_1_l k) at 2. by apply Qmult_lt_r.
Qed.

(** C28: the performance handler takes exactly three draws, and a 200
    reply carries the three simulated metrics, with bandwidth in
    [[0,100)], latency in [[0,200)] and packet loss in [[0,5)], next to the
    provider's analysis. *)
Theorem network_performance_data s :
  valid_rng s ->
  (forall n, snd (network_performance_GET s) n = s (3 + n)%nat) /\
  (forall r, fst (network_performance_GET s) = Replied r -> status r = 200%Z ->
     exists bw lat loss analysis,
       body r = obj [("performanceData", JArray [JNumber bw; JNumber lat; JNumber loss]);
                     ("analysis", JString analysis)] /\
       (0 <= bw < 100)%Q /\ (0 <= lat < 200)%Q /\ (0 <= loss < 5)%Q).
Proof.
  intros Hs. split; [intros n; reflexivity|]. intros r.
  cbn [fst network_performance_GET simulateNetworkPerformance st_bind st_ret random].
  destruct (generateContent _) as [analysis|m]; intros [= <-]; [|done]. intros _.
  eexists _, _, _, analysis. split; [reflexivity|].
  repeat split; apply scaled_draw_bounds; try apply Hs; done.
Qed.

(** A successful insights response whose [insights] property is
    missing or falsy is replaced by the fixed text. *)
Theorem insights_fallback req bw lat down st text props :
  request_fields req [js "bandwidth"; js "latency"; js "downtime"] = Some [bw; lat; down] ->
  fetch_insights (insights_request_body bw lat down) = FetchResponse st text ->
  (200 <= st < 300)%Z -> json_parse text = inr (JObject props) ->
  to_boolean (object_get props (js "insights")) = false ->
  insights_POST req = reply 200 (obj [("insights", JString (js "No insights available."))]).
Proof.
  intros Hreq Hfetch Hst Hparse Hfalse. unfold insights_POST.
  rewrite Hreq, Hfetch, Hparse. replace ((200 <=? st) && (st <? 300))%Z with true by lia.
  simpl. unfold js_or. by rewrite Hfalse.
Qed.

(** C27: a response outside 200-299 with a JSON body becomes the 500
    envelope whose [details] read "API request failed with status <st>:
    <body>", the status in decimal digits. *)
Theorem insights_http_error req bw lat down st text data :
  request_fields req [js "bandwidth"; js "latency"; js "downtime"] = Some [bw; lat; down] ->
  fetch_insights (insights_request_body bw lat down) = FetchResponse st text ->
  ~ (200 <= st < 300)%Z -> (Z.abs st < 10 ^ 21)%Z -> json_parse text = inr data ->
  insights_POST req =
    insights_error (js "API request failed with status " ++ Z_to_js st ++ js ": " ++ stringified data).
Proof.
  intros Hreq Hfetch Hst Hbound Hparse. unfold insights_POST.
  rewrite Hreq, Hfetch, Hparse. replace ((200 <=? st) && (st <? 300))%Z with false by lia.
  by rewrite number_to_string_int.
Qed.

End Handlers.

(** ** Concrete runs

    The theorems above at concrete requests, with the JSON codec and the
    decimal [Number::toString] of [Json], a provider that always completes
    with one text and an insights API that always answers with one
    response.  In [json_text] a single quote stands for a double quote. *)

Definition canned_provider (t : list N) : Provider := {| generateContent _ := Completed t |}.
Definition canned_api (st : Z) (t : list N) : InsightsApi :=
  {| fetch_insights _ := FetchResponse st t |}.
Definition json_text (s : string) : list N :=
  map (fun c => if (c =? 39)%N then 34%N else c) (js s).

Lemma ai_tutor_missing_question_witness :
  ai_tutor_POST (PV := canned_provider (js "**Ohm's law**: V = I*R"))
    (json_text "{'topic': 'circuits'}") =
  reply 200 (obj [("response", JString (js "Ohm's law: V = IR"))]).
Proof.
  rewrite (ai_tutor_missing_question (PV := canned_provider (js "**Ohm's law**: V = I*R"))
             _ [(js "topic", JString (js "circuits"))]); [|vm_compute; reflexivity|reflexivity].
  vm_compute. reflexivity.
Defined.

Definition quiz_request : list N :=
  json_text "{'question': 'What is 2+2?', 'answer': '4', 'difficulty': 'easy'}".

Lemma evaluate_answer_feedback_witness :
  evaluate_answer_POST (PV := canned_provider (json_text "{'comment': 'Correct.', 'score': 10}"))
    quiz_request =
  reply 200 (obj [("feedback", obj [("comment", JString (js "Correct."));
                                    ("score", JNumber 10)])]).
Proof.
  rewrite (evaluate_answer_feedback (PV := canned_provider (json_text "{'comment': 'Correct.', 'score': 10}"))
             _ (JString (js "What is 2+2?")) (JString (js "4")) (JString (js "easy"))
             (js "What is 2+2?") (js "4") (js "easy") (json_text "{'comment': 'Correct.', 'score': 10}")
             [(js "comment", JString (js "Correct.")); (js "score", JNumber 10)]);
    [| vm_compute; reflexivity | reflexivity | reflexivity | reflexivity | reflexivity
     | vm_compute; reflexivity].
  vm_compute. reflexivity.
Defined.

Lemma evaluate_answer_invalid_json_witness :
  evaluate_answer_POST (PV := canned_provider (js "Score: 10/10")) quiz_request =
  reply 500 evaluation_error.
Proof.
  apply (evaluate_answer_invalid_json _ (JString (js "What is 2+2?")) (JString (js "4"))
           (JString (js "easy")) (js "What is 2+2?") (js "4") (js "easy")
           (js "Score: 10/10")); [vm_compute; reflexivity | reflexivity | reflexivity
                                  | reflexivity | reflexivity | left; eexists; vm_compute; reflexivity].
Defined.

Lemma network_performance_data_witness :
  snd (network_performance_GET (PV := canned_provider (js "Stable.")) half_rng) 0%nat =
  half_rng 3%nat.
Proof. apply (proj1 (network_performance_data half_rng half_rng_valid) 0%nat). Defined.

Definition metrics_request : list N :=
  json_text "{'bandwidth': 90, 'latency': 20, 'downtime': 0}".

Lemma insights_fallback_witness :
  insights_POST (IA := canned_api 200 (json_text "{'insights': ''}")) metrics_request =
  reply 200 (obj [("insights", JString (js "No insights available."))]).
Proof.
  apply (insights_fallback _ (JNumber 90) (JNumber 20) (JNumber 0) 200
           (json_text "{'insights': ''}") [(js "insights", JString [])]);
    [vm_compute; reflexivity | reflexivity | lia | vm_compute; reflexivity | reflexivity].
Defined.

Lemma insights_http_error_witness :
  insights_POST (IA := canned_api 503 (json_text "{'error': 'down'}")) metrics_request =
  insights_error (json_text "API request failed with status 503: {'error':'down'}").
Proof.
  rewrite (insights_http_error _ (JNumber 90) (JNumber 20) (JNumber 0) 503
             (json_text "{'error': 'down'}") (JObject [(js "error", JString (js "down"))]));
    [| vm_compute; reflexivity | reflexivity | lia | reflexivity | vm_compute; reflexivity].
  vm_compute. reflexivity.
Defined.

End Handlers.
