(* ===== verification/Secrets.v ===== *)
(** * The API key: where the route handlers send it

    Every route that calls a model builds, when its module loads, a
    client [new GoogleGenerativeAI(key)] from the environment variable
    [NEXT_PUBLIC_GEMINI_API_KEY] (two routes pass the variable as is,
    two pass [|| ""]) and asks it for the model ["gemini-pro"].  The
    generic insights route instead calls [fetch] itself, with the same
    variable in a [Bearer] authorization header.

    The environment is a function from variable names to values
    ([process.env.X] is [undefined] for an unset [X]).  [GoogleGenerativeAI]
    and its model are the [Provider] interface of [Handlers]; this file
    records the key and model each client is built with, and the URL,
    method, headers and body of the insights route's upstream request
    ([insights_upstream]), whose body is the one [insights_POST] hands
    to [fetch_insights]. *)

From S2P Require Import Prelude JsString JsValue Json Handlers.
From Stdlib Require Import ZArith QArith.
Import JsString JsValue Json Handlers.

Module Secrets.

Local Open Scope N_scope.

Definition Env := list N -> option (list N).

Definition GEMINI_KEY : list N := js "NEXT_PUBLIC_GEMINI_API_KEY".

(** [process.env.X] *)
Definition env_read (env : Env) (k : list N) : JsValue :=
  match env k with Some v => JString v | None => JUndefined end.

(** The key a client is built with and the model it asks for. *)
Record GenAIClient := mkClient { client_key : JsValue; client_model : list N }.

Definition gemini_client (env : Env) : GenAIClient :=
  mkClient (env_read env GEMINI_KEY) (js "gemini-pro").

Definition ai_tutor_client (env : Env) : GenAIClient :=
  mkClient (env_read env GEMINI_KEY) (js "gemini-pro").

Definition evaluate_answer_client (env : Env) : GenAIClient :=
  mkClient (js_or (env_read env GEMINI_KEY) (JString [])) (js "gemini-pro").

Definition network_performance_client (env : Env) : GenAIClient :=
  mkClient (js_or (env_read env GEMINI_KEY) (JString [])) (js "gemini-pro").

Record UpstreamRequest := mkUpstream {
  up_url : list N;
  up_method : list N;
  up_headers : list (list N * list N);
  up_body : list N
}.

Section Upstream.
Context {NF : NumberFormat} {JC : JsonCodec}.

(** [fetch('https://api.gemini.com/v1/', { method: 'POST', headers,
    body: JSON.stringify({ bandwidth, latency, downtime }) })]; the
    header is the template literal [`Bearer ${...}`]. *)
Definition insights_upstream (env : Env) (bw lat down : JsValue) : option UpstreamRequest :=
  auth ← to_js_string (env_read env GEMINI_KEY);
  Some (mkUpstream (js "https://api.gemini.com/v1/") (js "POST")
          [(js "Content-Type", js "application/json"); (js "Authorization", js "Bearer " ++ auth)]
          (insights_request_body bw lat down)).

End Upstream.

(** The host of an absolute URL: what follows ["://"] up to the next
    ['/']. *)
Definition url_host (u : list N) : list N :=
  match break_at (js "://") u with
  | Some (_, rest) => take_while (fun c => negb (c =? 47)) rest
  | None => []
  end.

Lemma api_host : url_host (js "https://api.gemini.com/v1/") = js "api.gemini.com".
Proof. reflexivity. Qed.

Section KeyFlow.
Context {NF : NumberFormat} {JC : JsonCodec}.

(** C15: the insights route sends the key of the Google clients to
    another service: its upstream request goes by [POST] to the host
    [api.gemini.com] (not a Google host) with the body [insights_POST]
    hands to [fetch_insights], and its authorization header carries
    [NEXT_PUBLIC_GEMINI_API_KEY], the very value the tutor and insight
    routes build their [GoogleGenerativeAI] clients with.  When the
    variable is unset the header reads "Bearer undefined", two clients
    get [undefined] and the other two the empty key. *)
Theorem insights_key_destination env bw lat down :
  exists r, insights_upstream env bw lat down = Some r /\
    url_host (up_url r) = js "api.gemini.com" /\ up_method r = js "POST" /\
    up_body r = insights_request_body bw lat down /\
    (forall k, env GEMINI_KEY = Some k ->
       (js "Authorization", js "Bearer " ++ k) ∈ up_headers r /\
       client_key (gemini_client env) = JString k /\ client_key (ai_tutor_client env) = JString k) /\
    (env GEMINI_KEY = None ->
       (js "Authorization", js "Bearer undefined") ∈ up_headers r /\
       client_key (gemini_client env) = JUndefined /\ client_key (ai_tutor_client env) = JUndefined /\
       client_key (evaluate_answer_client env) = JString [] /\
       client_key (network_performance_client env) = JString []).
Proof.
  unfold insights_upstream, gemini_client, ai_tutor_client, evaluate_answer_client,
    network_performance_client, env_read.
  destruct (env GEMINI_KEY) as [k|] eqn:Ek; simpl; eexists; (split; [reflexivity|]);
    cbn [up_url up_method up_body up_headers client_key]; rewrite api_host; split_and!; try done.
  - intros k' [= <-]. split_and!; [|done|done].
    apply elem_of_cons. right. by apply list_elem_of_singleton.
  - intros _. split_and!; try done. apply elem_of_cons. right. by apply list_elem_of_singleton.
Qed.

End KeyFlow.

(** An environment with the key set. *)
Definition sample_env : Env :=
  fun k => if bool_decide (k = GEMINI_KEY) then Some (js "AIza-test") else None.

Lemma insights_key_destination_witness :
  exists r, insights_upstream (NF := decimal_number_format) (JC := json_codec) sample_env
              (JNumber 40) (JNumber 120) (JNumber 7) = Some r /\
    url_host (up_url r) = js "api.gemini.com" /\
    (js "Authorization", js "Bearer AIza-test") ∈ up_headers r.
Proof.
  destruct (insights_key_destination (NF := decimal_number_format) (JC := json_codec) sample_env
              (JNumber 40) (JNumber 120) (JNumber 7)) as (r & Hr & Hh & _ & _ & Hk & _).
  exists r. split_and!; [exact Hr|exact Hh|]. apply (Hk (js "AIza-test")). reflexivity.
Defined.

End Secrets.
