(* ===== verification/Client.v ===== *)
(** * What a client component receives from a route

    A [fetch] (or [axios]) call settles with a network error or with an
    HTTP response (status and body text).  [serve] is what the Next.js
    runtime sends for a handler's [Outcome]: the status and the
    [JSON.stringify] of the reply's object, and for a handler that
    rejects the status 500 with an empty body.  [response_json] is
    [await response.json()]: [JSON.parse] of the body text, [inl] being
    the SyntaxError.  [react_text] is what React renders for a value
    placed as a child, [{value}] in JSX. *)

From S2P Require Import Prelude JsString JsValue Json Handlers.
From Stdlib Require Import ZArith.
Import JsString JsValue Json Handlers.

Module Client.

Inductive HttpResult :=
| NetError (message : list N)
| Http (status : Z) (text : list N).

Section Client.
Context {JC : JsonCodec}.

Definition serve (o : Outcome) : HttpResult :=
  match o with
  | Replied r => Http (status r) (stringified (body r))
  | Rejected => Http 500 []
  end.

(** [await response.json()] *)
Definition response_json (text : list N) : list N + JsValue := json_parse text.

(** [response.ok] *)
Definition response_ok (st : Z) : bool := ((200 <=? st) && (st <? 300))%Z.
End Client.

Section React.
Context {NF : NumberFormat}.

(** [{value}] as a React child: strings and numbers are written out,
    [null], [undefined] and booleans render nothing (a function only
    draws a warning), an array renders its items one after the other,
    and a plain object makes React throw ("Objects are not valid as a
    React child"), [None] here. *)
Fixpoint react_text (v : JsValue) : option (list N) :=
  match v with
  | JString s => Some s
  | JNumber q => Some (number_to_string q)
  | JUndefined | JNull | JBool _ | JFunction => Some []
  | JArray items =>
      (fix go (l : list JsValue) : option (list N) :=
         match l with
         | [] => Some []
         | x :: l' => t ← react_text x; r ← go l'; Some (t ++ r)
         end) items
  | JObject _ | JObjectPrototype => None
  end.
End React.

(** With the JSON functions of [Json]: the body a reply is sent with
    parses back to the reply's object, in normal form. *)
Lemma parse_stringified `{NumberFormat} v :
  plain_json v = true -> serialize v <> None ->
  json_parse_text (stringified (JC := json_codec) v) = inr (normalize v).
Proof.
  intros Hp Hs. unfold stringified. simpl.
  destruct (serialize v) as [t|] eqn:Et; [|done]. by apply json_parse_serialize.
Qed.

Lemma response_json_stringified `{NumberFormat} v :
  plain_json v = true -> serialize v <> None ->
  response_json (JC := json_codec) (stringified (JC := json_codec) v) = inr (normalize v).
Proof. apply parse_stringified. Qed.

End Client.
