(* ===== verification/Chat.v ===== *)
(** * The chat page

    [src/app/chatbot/page.js] ([AITutor]) as a state machine over its
    React state.  An event is one handler run up to its next [await]:
    typing ([onChange]), submitting the form, and the settling of one
    request in flight.  [fetch] and [response.json()] are merged into one
    settling event, since nothing changes the state between the two
    [await]s.  Requests in flight are kept with the id of their
    submission, so that any order of settlement can be played:
    submissions and settlements interleave as the browser allows.

    A [setConversation(prev => ...)] updater runs while React renders;
    the property read [data.response] inside it is therefore outside the
    [try], and a [TypeError] there is a crash of the page ([None]). *)

From S2P Require Import Prelude JsString JsValue Json Normalizer Handlers Client.
From Stdlib Require Import ZArith.
Import JsString JsValue Json Normalizer Handlers Client.

Module Chat.

Inductive Role := User | Ai.

#[export] Instance role_eq_dec : EqDecision Role.
Proof. solve_decision. Defined.

Record Message := mkMessage { role : Role; content : JsValue }.

Record ChatState := mkChat {
  question : list N;
  conversation : list Message;
  isTyping : bool;
  in_flight : list (nat * list N);
  next_id : nat
}.

(** [useState("")], [useState([])], [useState(false)] *)
Definition initial : ChatState := mkChat [] [] false [] 0.

Definition error_message : list N := js "Sorry, I encountered an error. Please try again.".

Inductive ChatEvent :=
| Typed (s : list N)
| Submit
| Settled (id : nat) (r : HttpResult).

(** [JSON.stringify({ question })], the body of the request. *)
Definition request_body (q : list N) : JsValue := obj [("question", JString q)].

Section Chat.
Context {JC : JsonCodec}.

(** The message appended once a request settles: the error text from the
    [catch], or [data.response] read by the updater ([None]: it throws). *)
Definition reply_message (r : HttpResult) : option Message :=
  match r with
  | NetError _ => Some (mkMessage Ai (JString error_message))
  | Http _ text =>
      match response_json text with
      | inl _ => Some (mkMessage Ai (JString error_message))
      | inr data => mkMessage Ai <$> get_value data (js "response")
      end
  end.

(** [handleSubmit] up to [await fetch]: a blank question returns; else
    the user's turn is appended, the field cleared and the indicator set. *)
Definition handleSubmit (s : ChatState) : ChatState :=
  if bool_decide (trim (question s) = []) then s
  else mkChat [] (conversation s ++ [mkMessage User (JString (question s))]) true
              (in_flight s ++ [(next_id s, question s)]) (S (next_id s)).

(** [handleSubmit] after its [await]s, for the request [id]: the reply
    appended and [setIsTyping(false)].  A request not in flight changes
    nothing. *)
Definition settle (s : ChatState) (id : nat) (r : HttpResult) : option ChatState :=
  match list_find (fun p => p.1 = id) (in_flight s) with
  | None => Some s
  | Some (i, _) =>
      m ← reply_message r;
      Some (mkChat (question s) (conversation s ++ [m]) false
                   (delete i (in_flight s)) (next_id s))
  end.

Definition chat_step (s : ChatState) (e : ChatEvent) : option ChatState :=
  match e with
  | Typed q => Some (mkChat q (conversation s) (isTyping s) (in_flight s) (next_id s))
  | Submit => Some (handleSubmit s)
  | Settled id r => settle s id r
  end.

Fixpoint chat_run (s : ChatState) (es : list ChatEvent) : option ChatState :=
  match es with
  | [] => Some s
  | e :: es' => s' ← chat_step s e; chat_run s' es'
  end.

Inductive reachable : ChatState -> Prop :=
| reach_init : reachable initial
| reach_step s e s' : reachable s -> chat_step s e = Some s' -> reachable s'.

Definition count_role (r : Role) (l : list Message) : nat :=
  length (filter (fun m => role m = r) l).

End Chat.

(** ** What the page shows

    The conversation as bubbles (the placeholder when it is empty) and
    the typing bubble; a message whose content React cannot render
    makes the render throw. *)

Inductive Bubble := UserBubble (text : list N) | AiBubble (text : list N).

Record ChatView := mkChatView {
  placeholder : bool;
  bubbles : list Bubble;
  typing_bubble : bool;
  input_value : list N
}.

Section Render.
Context {NF : NumberFormat}.

(** One entry of [conversation.map]: the side from [msg.role], the text
    from [{msg.content}]. *)
Definition render_message (m : Message) : option Bubble :=
  t ← react_text (content m);
  Some (match role m with User => UserBubble t | Ai => AiBubble t end).

Definition chat_render (s : ChatState) : option ChatView :=
  bs ← mapM render_message (conversation s);
  Some (mkChatView (bool_decide (conversation s = [])) bs (isTyping s) (question s)).
End Render.

(** ** The scroll effect

    [useEffect(() => { ref.current.scrollTop = ref.current.scrollHeight },
    [conversation, isTyping])]: after a render in which the conversation
    (a new array at every [setConversation], each of which appends) or
    the typing flag changed, the message list is scrolled to its end; the
    browser clamps [scrollTop] to [scrollHeight - clientHeight].  The
    layout's height is a parameter. *)

Section Scroll.
Context {JC : JsonCodec} (layout_height : ChatState -> N) (clientHeight : N).

Record ChatScreen := mkScreen { chat : ChatState; scrollTop : N }.

Definition max_scroll (s : ChatState) : N := layout_height s - clientHeight.

(** The dependencies [conversation] and [isTyping] compared with
    [Object.is]. *)
Definition effect_runs (s s' : ChatState) : bool :=
  negb (length (conversation s) =? length (conversation s'))%nat ||
  negb (Bool.eqb (isTyping s) (isTyping s')).

Definition scroll_effect (s s' : ChatState) (top : N) : N :=
  if effect_runs s s' then max_scroll s' else N.min top (max_scroll s').

Inductive ScreenEvent := ChatEv (e : ChatEvent) | UserScroll (top : N).

Definition screen_step (sc : ChatScreen) (e : ScreenEvent) : option ChatScreen :=
  match e with
  | ChatEv e =>
      s' ← chat_step (chat sc) e; Some (mkScreen s' (scroll_effect (chat sc) s' (scrollTop sc)))
  | UserScroll t => Some (mkScreen (chat sc) (N.min t (max_scroll (chat sc))))
  end.

(** Every new turn brings the list to its end; typing in the field
    leaves where the user scrolled (clamped to the list). *)
Lemma scroll_follows_turns sc e sc' :
  screen_step sc (ChatEv e) = Some sc' ->
  (length (conversation (chat sc)) < length (conversation (chat sc')))%nat ->
  scrollTop sc' = max_scroll (chat sc').
Proof.
  simpl. destruct (chat_step (chat sc) e) as [s'|]; simpl; [|done]. intros [= <-] Hlen.
  simpl in *. unfold scroll_effect, effect_runs.
  destruct (Nat.eqb_spec (length (conversation (chat sc))) (length (conversation s'))); [lia|done].
Qed.

Lemma scroll_kept_typing sc q sc' :
  screen_step sc (ChatEv (Typed q)) = Some sc' ->
  scrollTop sc' = N.min (scrollTop sc) (max_scroll (chat sc')).
Proof.
  simpl. intros [= <-]. unfold scroll_effect, effect_runs. simpl.
  by rewrite Nat.eqb_refl, Bool.eqb_reflx.
Qed.

End Scroll.

(** ** The page with the tutor route

    The closed system of the page and [POST /api/ai-tutor]: every
    request settles with the route's reply to its own question, sent
    with [JSON.stringify] and read with [response.json()], or with a
    network error. *)

Section Loop.
Context {NF : NumberFormat} {PV : Provider}.

(** What the page shows for the tutor's answer to [q]. *)
Definition tutor_answer (q : list N) : JsValue :=
  match generateContent (tutor_prompt q) with
  | Completed text => JString (strip_markup text)
  | ProviderFailed _ => JUndefined
  end.

Definition tutor_reply (q : list N) : HttpResult :=
  serve (JC := json_codec) (ai_tutor_POST (JC := json_codec)
                              (stringified (JC := json_codec) (request_body q))).

Inductive served : ChatState -> Prop :=
| served_init : served initial
| served_step s e s' :
    served s -> chat_step (JC := json_codec) s e = Some s' ->
    (forall id r, e = Settled id r ->
       exists q, (id, q) ∈ in_flight s /\ (r = tutor_reply q \/ exists m, r = NetError m)) ->
    served s'.

(** A turn of a conversation [conv] of the closed system: the user's
    text, or the apology, or the tutor's answer to a question that is in
    [conv]. *)
Definition answered (conv : list Message) (m : Message) : Prop :=
  match role m with
  | User => exists q, content m = JString q
  | Ai => content m = JString error_message \/
          exists q, mkMessage User (JString q) ∈ conv /\ content m = tutor_answer q
  end.

Definition served_ok (s : ChatState) : Prop :=
  Forall (answered (conversation s)) (conversation s) /\
  forall id q, (id, q) ∈ in_flight s -> mkMessage User (JString q) ∈ conversation s.
End Loop.

Section ChatFacts.
Context {JC : JsonCodec}.

(** ** Lemmas *)

Lemma reply_message_role r m : reply_message r = Some m -> role m = Ai.
Proof.
  destruct r as [|st text]; simpl; [by intros [= <-]|].
  destruct (response_json text) as [|data]; [by intros [= <-]|].
  destruct (get_value data _); simpl; by intros [= <-].
Qed.

Lemma chat_run_reachable s es s' : reachable s -> chat_run s es = Some s' -> reachable s'.
Proof.
  revert s. induction es as [|e es IH]; simpl; intros s Hs; [by intros [= <-]|].
  destruct (chat_step s e) as [s1|] eqn:E; [|done]. apply IH. by econstructor.
Qed.

Lemma settle_cases s id r s' :
  settle s id r = Some s' ->
  s' = s \/
  exists i p m, in_flight s !! i = Some p /\ p.1 = id /\ reply_message r = Some m /\
    s' = mkChat (question s) (conversation s ++ [m]) false (delete i (in_flight s)) (next_id s).
Proof.
  unfold settle. destruct (list_find _ _) as [[i p]|] eqn:Ef; [|intros [= <-]; by left].
  apply list_find_Some in Ef as (Hi & Hp & _).
  destruct (reply_message r) as [m|] eqn:Em; simpl; [|done]. intros [= <-].
  right. eauto 7.
Qed.

Lemma count_role_app r l1 l2 : count_role r (l1 ++ l2) = count_role r l1 + count_role r l2.
Proof. unfold count_role. by rewrite filter_app, length_app. Qed.

Lemma count_role_single r m : count_role r [m] = if decide (role m = r) then 1 else 0.
Proof. unfold count_role. rewrite filter_cons, filter_nil. by case_decide. Qed.

(** Every step leaves the conversation alone, submits a non-blank
    question, or settles one request in flight with an AI turn. *)
Lemma chat_step_cases s e s' :
  chat_step s e = Some s' ->
  (conversation s' = conversation s /\ isTyping s' = isTyping s /\ in_flight s' = in_flight s) \/
  (exists q, trim q <> [] /\
     conversation s' = conversation s ++ [mkMessage User (JString q)] /\
     isTyping s' = true /\ in_flight s' = in_flight s ++ [(next_id s, q)]) \/
  (exists i p m, in_flight s !! i = Some p /\ role m = Ai /\
     conversation s' = conversation s ++ [m] /\ isTyping s' = false /\
     in_flight s' = delete i (in_flight s)).
Proof.
  destruct e as [q| |id r]; simpl.
  - intros [= <-]. by left.
  - unfold handleSubmit. case_bool_decide; intros [= <-]; [by left|].
    right; left. eexists. eauto.
  - intros [->|(i & p & m & Hi & _ & Hm & ->)]%settle_cases; [by left|].
    right; right. exists i, p, m. split; [done|]. split; [|done]. by eapply reply_message_role.
Qed.

Lemma count_role_snoc r l m :
  count_role r (l ++ [m]) = count_role r l + if decide (role m = r) then 1 else 0.
Proof. by rewrite count_role_app, count_role_single. Qed.

(** The typing indicator needs a request in flight. *)
Lemma typing_needs_request s : reachable s -> isTyping s = true -> in_flight s <> [].
Proof.
  induction 1 as [|s e s' Hs IH Hstep]; [done|].
  destruct (chat_step_cases _ _ _ Hstep)
    as [(_ & -> & ->)|[(q & _ & _ & _ & ->)|(i & p & m & _ & _ & _ & -> & _)]]; [done| |done].
  intros _. by destruct (in_flight s).
Qed.

(** The user's turns are the AI's turns plus the requests in flight. *)
Lemma turns_balanced s :
  reachable s ->
  count_role User (conversation s) = count_role Ai (conversation s) + length (in_flight s).
Proof.
  induction 1 as [|s e s' Hs IH Hstep]; [done|].
  destruct (chat_step_cases _ _ _ Hstep)
    as [(-> & _ & ->)|[(q & _ & -> & _ & ->)|(i & p & m & Hi & Hm & -> & _ & ->)]]; [done| |].
  - rewrite !count_role_snoc, length_app. simpl. repeat case_decide; simplify_eq; lia.
  - rewrite !count_role_snoc, Hm. destruct (length_delete_lookup _ _ _ Hi).
    repeat case_decide; simplify_eq; lia.
Qed.

(** Settling a request in flight removes one entry with its id and
    appends the answer. *)
Lemma settle_present s id r m :
  id ∈ map fst (in_flight s) -> reply_message r = Some m ->
  exists i p, in_flight s !! i = Some p /\ p.1 = id /\
    settle s id r = Some (mkChat (question s) (conversation s ++ [m]) false
                                 (delete i (in_flight s)) (next_id s)).
Proof.
  intros Hin Hm. apply list_elem_of_In, in_map_iff in Hin as (p & Hp & Hin).
  destruct (list_find_elem_of (fun p => p.1 = id) (in_flight s) p) as [[i p'] Hf];
    [by apply list_elem_of_In|done|].
  exists i, p'. pose proof Hf as (Hi & Hid & _)%list_find_Some. split_and!; [done|done|].
  unfold settle. rewrite Hf. simpl. by rewrite Hm.
Qed.

(** Settling every request in flight, in any order. *)
Lemma settle_all s ids answer :
  ids ≡ₚ map fst (in_flight s) -> (forall id, is_Some (reply_message (answer id))) ->
  exists s', chat_run s (map (fun id => Settled id (answer id)) ids) = Some s' /\
    in_flight s' = [] /\ count_role User (conversation s') = count_role User (conversation s) /\
    count_role Ai (conversation s') = count_role Ai (conversation s) + length ids /\
    (isTyping s' = true -> isTyping s = true /\ ids = []).
Proof.
  revert s. induction ids as [|id ids IH]; intros s Hp Ha; simpl.
  - exists s. apply Permutation_nil, map_eq_nil in Hp. split_and!; auto; lia.
  - destruct (Ha id) as [m Hm].
    assert (Hin : id ∈ map fst (in_flight s)) by (rewrite <- Hp; constructor).
    destruct (settle_present s id (answer id) m Hin Hm) as (i & p & Hi & Hid & Hs1).
    rewrite Hs1. cbn [mbind option_bind].
    edestruct (IH (mkChat (question s) (conversation s ++ [m]) false (delete i (in_flight s))
                       (next_id s))) as (s' & Hrun & Hf & Hu & Hai & Ht); [|exact Ha|].
    { cbn [in_flight]. apply Permutation_cons_inv with (a := id). rewrite Hp.
      etrans; [apply Permutation_map, (delete_Permutation _ _ _ Hi)|]. cbn [map]. by rewrite Hid. }
    exists s'. split_and!; [exact Hrun|done| | |].
    + rewrite Hu. cbn [conversation]. rewrite count_role_snoc, (reply_message_role _ _ Hm).
      case_decide; [done|lia].
    + rewrite Hai. cbn [conversation]. rewrite count_role_snoc, (reply_message_role _ _ Hm).
      case_decide; [simpl; lia|done].
    + intros Hts. by destruct (Ht Hts) as [Hf1 _].
Qed.

(** ** Theorems *)

(** The typing indicator is shown only while a request of the
    chat page is in flight. *)
Theorem chat_typing_sound s : reachable s -> isTyping s = true -> in_flight s <> [].
Proof. apply typing_needs_request. Qed.

(** C19: in every reachable state of the chat page, the user's turns
    are the AI's turns plus the requests in flight: every submission gets
    exactly one answer, and no answer comes without a submission. *)
Theorem chat_turns_balance s :
  reachable s ->
  count_role User (conversation s) = count_role Ai (conversation s) + length (in_flight s).
Proof. apply turns_balanced. Qed.

(** C11: liveness of the chat page: whatever the order in which the
    requests in flight are answered, once every one has settled (each
    with a response the page can read) no request is left, the typing
    indicator is off and every question has its answer. *)
Theorem chat_all_answered s ids answer :
  reachable s -> ids ≡ₚ map fst (in_flight s) ->
  (forall id, is_Some (reply_message (answer id))) ->
  exists s', chat_run s (map (fun id => Settled id (answer id)) ids) = Some s' /\
    in_flight s' = [] /\ isTyping s' = false /\
    count_role Ai (conversation s') = count_role User (conversation s').
Proof.
  intros Hs Hp Ha. destruct (settle_all s ids answer Hp Ha) as (s' & Hrun & Hf & Hu & Hai & Ht).
  exists s'. split_and!; [done|done| |].
  - destruct (isTyping s') eqn:E; [|done]. destruct (Ht eq_refl) as [Hts ->].
    apply (typing_needs_request s Hs) in Hts. apply Permutation_nil in Hp.
    by destruct (in_flight s).
  - rewrite Hai, Hu, (turns_balanced s Hs). apply Permutation_length in Hp.
    rewrite length_map in Hp. lia.
Qed.

(** C17: [isTyping] is one flag for all requests: after two
    submissions, the settling of the first one hides the indicator while
    the second is still in flight. *)
Theorem chat_typing_cleared_early a b r m :
  trim a <> [] -> trim b <> [] -> reply_message r = Some m ->
  exists s, chat_run initial [Typed a; Submit; Typed b; Submit; Settled 0 r] = Some s /\
    isTyping s = false /\ in_flight s = [(1, b)].
Proof.
  intros Ha Hb Hr. cbn [chat_run chat_step mbind option_bind].
  unfold handleSubmit. simpl. rewrite !bool_decide_eq_false_2 by done.
  unfold settle. simpl. rewrite Hr. by eexists.
Qed.

(** C18: answers are appended in the order the requests settle, not in
    the order of the questions: when the second request settles first,
    its answer comes right after the two questions. *)
Theorem chat_reply_order a b ra rb ma mb :
  trim a <> [] -> trim b <> [] -> reply_message ra = Some ma -> reply_message rb = Some mb ->
  chat_run initial [Typed a; Submit; Typed b; Submit; Settled 1 rb; Settled 0 ra] =
    Some (mkChat [] [mkMessage User (JString a); mkMessage User (JString b); mb; ma] false [] 2).
Proof.
  intros Ha Hb Hra Hrb. cbn [chat_run chat_step mbind option_bind].
  unfold handleSubmit. simpl. rewrite !bool_decide_eq_false_2 by done.
  unfold settle. simpl. rewrite Hrb. simpl. by rewrite Hra.
Qed.

End ChatFacts.

(** ** End to end, with the tutor handler and the JSON functions *)

Section EndToEnd.
Context {NF : NumberFormat} {PV : Provider}.

(** The reply of the tutor route, read by the page. *)
Lemma tutor_reply_message q :
  reply_message (JC := json_codec) (tutor_reply q) = Some (mkMessage Ai (tutor_answer q)).
Proof.
  assert (Hreq : json_parse (JsonCodec := json_codec)
                   (stringified (JC := json_codec) (request_body q)) =
                 inr (JObject [(js "question", JString q)]))
    by (apply (parse_stringified (request_body q)); done).
  unfold tutor_reply, tutor_answer, ai_tutor_POST. rewrite (request_fields_object _ _ _ Hreq).
  change (map (object_get [(js "question", JString q)]) [js "question"]) with [JString q].
  cbn [to_js_string]. cbv beta iota.
  destruct (generateContent (tutor_prompt q)) as [text|m]; unfold serve, reply; cbv beta iota;
    unfold reply_message; rewrite response_json_stringified by done; reflexivity.
Qed.

Lemma answered_mono conv conv' m :
  (forall x, x ∈ conv -> x ∈ conv') -> answered conv m -> answered conv' m.
Proof. unfold answered. destruct (role m); [done|]. intros Hc [He|(q & Hq & Hm)]; eauto. Qed.

Lemma answered_render conv m : answered conv m -> is_Some (render_message m).
Proof.
  unfold answered, render_message. destruct (role m).
  - intros [q ->]. by eexists.
  - intros [->|(q & _ & ->)]; [by eexists|]. unfold tutor_answer.
    destruct (generateContent _); by eexists.
Qed.

Lemma served_inv s : served s -> served_ok s.
Proof.
  induction 1 as [|s e s' Hs IH Hstep Hr]; [split; [constructor|by intros ? ? ?%elem_of_nil]|].
  destruct IH as [Ha Hb]. destruct e as [q| |id r]; simpl in Hstep.
  - injection Hstep as <-. by split.
  - injection Hstep as <-. unfold handleSubmit. case_bool_decide; [by split|].
    split; cbn [conversation in_flight].
    + apply Forall_app. split.
      * eapply Forall_impl; [exact Ha|]. intros m. apply answered_mono.
        intros x Hx. apply elem_of_app. by left.
      * constructor; [|constructor]. by eexists.
    + intros id q Hin. apply elem_of_app in Hin as [Hin|Hin]; apply elem_of_app.
      * left. by eapply Hb.
      * right. apply list_elem_of_singleton in Hin. injection Hin as -> ->.
        by apply list_elem_of_singleton.
  - destruct (Hr id r eq_refl) as (q & Hin & Hrq).
    apply settle_cases in Hstep as [-> | (i & p & m & Hi & Hid & Hm & ->)]; [by split|].
    assert (Hsub : forall x, x ∈ conversation s -> x ∈ conversation s ++ [m])
      by (intros x Hx; apply elem_of_app; by left).
    split; cbn [conversation in_flight].
    + apply Forall_app. split.
      * eapply Forall_impl; [exact Ha|]. intros x. by apply answered_mono.
      * constructor; [|constructor]. destruct Hrq as [-> | [m' ->]].
        -- rewrite tutor_reply_message in Hm. injection Hm as <-.
           right. exists q. split; [by apply Hsub, (Hb id)|done].
        -- injection Hm as <-. by left.
    + intros id' q' Hin'%list_elem_of_delete_inv. by apply Hsub, (Hb id').
Qed.

(** C9: end to end, a question typed in the chat page reaches the
    tutor prompt unchanged; the page then shows the completion without
    its markup, and when the provider fails it shows an undefined (empty)
    answer: it reads [data.response] of the 500 envelope, which has
    only [error]. *)
Theorem chat_tutor_end_to_end q :
  reply_message (JC := json_codec)
    (serve (JC := json_codec)
       (ai_tutor_POST (JC := json_codec) (stringified (JC := json_codec) (request_body q)))) =
  Some (mkMessage Ai (match generateContent (tutor_prompt q) with
                      | Completed text => JString (strip_markup text)
                      | ProviderFailed _ => JUndefined
                      end)).
Proof.
  exact (tutor_reply_message q).
Qed.

(** C12: the chat page with the tutor route: in every state the
    closed system reaches, each AI turn is the apology of the [catch]
    or the route's answer to a question the user asked before (the
    completion without markup, or [undefined] when the provider failed),
    and the page renders without throwing. *)
Theorem chat_served_renders s :
  served s -> Forall (answered (conversation s)) (conversation s) /\ is_Some (chat_render s).
Proof.
  intros Hs. destruct (served_inv s Hs) as [Ha _]. split; [done|].
  unfold chat_render. destruct (mapM_is_Some_2 render_message (conversation s)) as [bs ->];
    [|by eexists].
  eapply Forall_impl; [exact Ha|]. intros m. apply answered_render.
Qed.

End EndToEnd.

(** ** Concrete runs *)

Definition sample_chat_events : list ChatEvent := [Typed (js "Hi"); Submit].

Lemma chat_typing_sound_witness :
  exists s, chat_run (JC := json_codec) initial sample_chat_events = Some s /\
    reachable (JC := json_codec) s /\ isTyping s = true /\ in_flight s <> [].
Proof.
  eexists. split; [vm_compute; reflexivity|].
  match goal with |- reachable ?s /\ _ => assert (Hr : reachable (JC := json_codec) s) end.
  { apply (chat_run_reachable initial sample_chat_events); [constructor|vm_compute; reflexivity]. }
  split; [exact Hr|]. split; [reflexivity|]. exact (chat_typing_sound _ Hr eq_refl).
Defined.

Lemma chat_turns_balance_witness :
  exists s, chat_run (JC := json_codec) initial sample_chat_events = Some s /\
    reachable (JC := json_codec) s /\
    count_role User (conversation s) = count_role Ai (conversation s) + length (in_flight s).
Proof.
  eexists. split; [vm_compute; reflexivity|].
  match goal with |- reachable ?s /\ _ => assert (Hr : reachable (JC := json_codec) s) end.
  { apply (chat_run_reachable initial sample_chat_events); [constructor|vm_compute; reflexivity]. }
  split; [exact Hr|]. exact (chat_turns_balance _ Hr).
Defined.

Definition two_questions : list ChatEvent := [Typed (js "Hi"); Submit; Typed (js "Why?"); Submit].

Lemma chat_all_answered_witness :
  exists s, chat_run (JC := json_codec) initial two_questions = Some s /\
    reachable (JC := json_codec) s /\ [1%nat; 0%nat] ≡ₚ map fst (in_flight s) /\
    exists s', chat_run (JC := json_codec) s
                 (map (fun id => Settled id (NetError [])) [1%nat; 0%nat]) = Some s' /\
      in_flight s' = [] /\ isTyping s' = false /\
      count_role Ai (conversation s') = count_role User (conversation s').
Proof.
  eexists. split; [vm_compute; reflexivity|].
  match goal with |- reachable ?s /\ _ => assert (Hr : reachable (JC := json_codec) s) end.
  { apply (chat_run_reachable initial two_questions); [constructor|vm_compute; reflexivity]. }
  assert (Hp : [1%nat; 0%nat] ≡ₚ [0%nat; 1%nat]) by constructor.
  split; [exact Hr|]. split; [exact Hp|].
  apply (chat_all_answered _ _ (fun _ => NetError []) Hr Hp). intros id. by eexists.
Defined.

Definition asked : ChatState := mkChat (js "Capital?") [] false [] 0.

Lemma chat_served_renders_witness :
  exists s, served (NF := decimal_number_format) (PV := canned_provider (js "**Paris**")) s /\
    Forall (answered (PV := canned_provider (js "**Paris**"))
              (conversation s)) (conversation s) /\
    is_Some (chat_render (NF := decimal_number_format) s).
Proof.
  set (PV := canned_provider (js "**Paris**")).
  assert (H1 : served (NF := decimal_number_format) (PV := PV) asked).
  { apply (served_step initial (Typed (js "Capital?"))); [constructor|reflexivity|].
    by intros ? ? [=]. }
  assert (H2 : served (NF := decimal_number_format) (PV := PV) (handleSubmit asked)).
  { apply (served_step asked Submit); [exact H1|reflexivity|]. by intros ? ? [=]. }
  eexists. split.
  - eapply (served_step (handleSubmit asked)
              (Settled 0 (tutor_reply (NF := decimal_number_format) (PV := PV) (js "Capital?"))));
      [exact H2|vm_compute; reflexivity|].
    intros id r [= <- <-]. exists (js "Capital?"). split; [by left|by left].
  - apply chat_served_renders.
    eapply (served_step (handleSubmit asked)
              (Settled 0 (tutor_reply (NF := decimal_number_format) (PV := PV) (js "Capital?"))));
      [exact H2|vm_compute; reflexivity|].
    intros id r [= <- <-]. exists (js "Capital?"). split; [by left|by left].
Defined.

Lemma chat_typing_cleared_early_witness :
  exists s, chat_run (JC := json_codec) initial
              [Typed (js "Hi"); Submit; Typed (js "Why?"); Submit; Settled 0 (NetError [])] = Some s /\
    isTyping s = false /\ in_flight s = [(1, js "Why?")].
Proof.
  apply (chat_typing_cleared_early _ _ _ (mkMessage Ai (JString error_message)));
    [vm_compute; discriminate | vm_compute; discriminate | reflexivity].
Defined.

Lemma chat_reply_order_witness :
  chat_run (JC := json_codec) initial
    [Typed (js "Hi"); Submit; Typed (js "Why?"); Submit;
     Settled 1 (Http 200 (js "{}")); Settled 0 (NetError [])] =
  Some (mkChat [] [mkMessage User (JString (js "Hi")); mkMessage User (JString (js "Why?"));
                   mkMessage Ai JUndefined; mkMessage Ai (JString error_message)] false [] 2).
Proof.
  apply chat_reply_order; [vm_compute; discriminate | vm_compute; discriminate
                           | reflexivity | vm_compute; reflexivity].
Defined.

End Chat.
