(* ===== verification/Assistant.v ===== *)
(** * The AI assistant widget

    [src/app/components/AiAssistant.jsx] as a state machine over its
    React state, as in [Chat]: an event is one handler run up to its
    next [await], and the request settles as a separate event.  End to
    end with [POST /api/gemini] and the JSON functions: the widget never
    shows an answer, since it reads [data.response], a key the route
    never sends. *)

From S2P Require Import Prelude JsString JsValue Json Normalizer Handlers Client.
From Stdlib Require Import ZArith.
Import JsString JsValue Json Normalizer Handlers Client.

Module Assistant.

Record AssistantState := mkAssistant {
  query : list N;
  response : JsValue;
  loading : bool;
  pending : list (nat * list N);
  next_request : nat
}.

(** [useState("")], [useState("")], [useState(false)] *)
Definition initial : AssistantState := mkAssistant [] (JString []) false [] 0.

Definition error_text : list N := js "An error occurred while processing your request.".

Inductive AssistantEvent :=
| Typed (s : list N)
| Submit
| Settled (id : nat) (r : HttpResult).

(** [JSON.stringify({ query })], the body of the request to [/api/gemini]. *)
Definition request_body (q : list N) : JsValue := obj [("query", JString q)].

Section Assistant.
Context {JC : JsonCodec}.

(** [setResponse(data.response)] inside the [try]: a failed fetch, a body
    that is not JSON or a read on [null] all give the error text. *)
Definition response_of (r : HttpResult) : JsValue :=
  match r with
  | NetError _ => JString error_text
  | Http _ text =>
      match response_json text with
      | inl _ => JString error_text
      | inr data => match get_value data (js "response") with
                    | Some v => v
                    | None => JString error_text
                    end
      end
  end.

(** [handleSubmit] up to [await fetch].  The submit button is disabled
    while [loading], and a form whose default button is disabled is not
    submitted; the query is sent even when blank. *)
Definition handleSubmit (s : AssistantState) : AssistantState :=
  if loading s then s
  else mkAssistant (query s) (response s) true (pending s ++ [(next_request s, query s)])
                   (S (next_request s)).

Definition settle (s : AssistantState) (id : nat) (r : HttpResult) : AssistantState :=
  match list_find (fun p => p.1 = id) (pending s) with
  | None => s
  | Some (i, _) => mkAssistant (query s) (response_of r) false (delete i (pending s))
                               (next_request s)
  end.

Definition assistant_step (s : AssistantState) (e : AssistantEvent) : AssistantState :=
  match e with
  | Typed q => mkAssistant q (response s) (loading s) (pending s) (next_request s)
  | Submit => handleSubmit s
  | Settled id r => settle s id r
  end.

Inductive reachable : AssistantState -> Prop :=
| reach_init : reachable initial
| reach_step s e : reachable s -> reachable (assistant_step s e).

(** [{response && <p>{response}</p>}]: the text shown, if any. *)
Definition shown (s : AssistantState) : option JsValue :=
  if to_boolean (response s) then Some (response s) else None.

(** The invariant of the widget: the disabled button keeps at most one
    request in flight, and [loading] is set exactly while one is. *)
Lemma single_request_inv s :
  reachable s -> (length (pending s) <= 1)%nat /\ (loading s = true <-> pending s <> []).
Proof.
  induction 1 as [|s e Hs [Hlen Hload]].
  { split; [simpl; lia|]. split; [discriminate|]. intros Hn. by contradict Hn. }
  destruct e as [q| |id r]; simpl; [split; assumption| |].
  - unfold handleSubmit. destruct (loading s) eqn:L; simpl; [rewrite L; split; assumption|].
    destruct (pending s) as [|p ps].
    + simpl. split; [lia|]. split; [intros _; discriminate|intros _; reflexivity].
    + exfalso. assert (Hf : false = true) by (apply Hload; discriminate). discriminate Hf.
  - unfold settle. destruct (list_find _ _) as [[i p]|] eqn:Ef; simpl; [|split; assumption].
    apply list_find_Some in Ef as (Hi & _).
    destruct (pending s) as [|p0 [|]]; simpl in *; [done| |lia].
    destruct i; [|done]. split; [simpl; lia|]. split; [discriminate|]. intros Hn. by contradict Hn.
Qed.

(** C20: the assistant widget has at most one request in flight, and
    shows "Thinking..." exactly while it has one: the disabled button
    blocks a second submission. *)
Theorem assistant_single_request s :
  reachable s -> (length (pending s) <= 1)%nat /\ (loading s = true <-> pending s <> []).
Proof. apply single_request_inv. Qed.

End Assistant.

Section AssistantGemini.
Context {NF : NumberFormat} {PV : Provider}.

(** The body of a reply, sent with [JSON.stringify] and read with
    [response.json()], has no key the reply object did not have. *)
Lemma reply_field_absent v props k :
  v = JObject props -> plain_json v = true -> k ∉ map fst props ->
  exists data, response_json (JC := json_codec) (stringified (JC := json_codec) v) = inr data /\
               get_value data k = Some (inherited k).
Proof.
  intros -> Hp Hk. rewrite response_json_stringified by (done || discriminate).
  eexists. split; [reflexivity|]. cbn [normalize get_value]. unfold object_get.
  by rewrite normalize_keys.
Qed.

Lemma gemini_request_fields q :
  request_fields (JC := json_codec) (stringified (JC := json_codec) (request_body q))
    [js "query"; js "historicalData"] = Some [JString q; JUndefined].
Proof.
  rewrite (request_fields_object _ [(js "query", JString q)]); [reflexivity|].
  apply parse_stringified; [|discriminate]. apply plain_obj; [reflexivity|].
  repeat constructor.
Qed.

(** C8: the assistant widget of the dashboard never shows an answer of
    [/api/gemini]: it reads [data.response], a key that neither the 200
    insight nor the 500 envelope has, so after the request settles the
    response is [undefined] and nothing is rendered. *)
Theorem assistant_shows_no_reply dev now g s :
  valid_rng g -> loading s = false -> pending s = [] ->
  let s' := assistant_step (JC := json_codec) (handleSubmit s)
              (Settled (next_request s)
                 (serve (JC := json_codec)
                    (fst (gemini_POST (JC := json_codec) dev now
                            (stringified (JC := json_codec) (request_body (query s))) g)))) in
  response s' = JUndefined /\ loading s' = false /\ shown s' = None.
Proof.
  intros Hg Hl Hp. cbv zeta. unfold handleSubmit. rewrite Hl. cbn [assistant_step].
  unfold settle. cbn [pending]. rewrite Hp. cbn [app list_find].
  rewrite decide_True by reflexivity. cbn [response loading shown].
  enough (Hr : response_of (JC := json_codec) (serve (JC := json_codec)
            (fst (gemini_POST (JC := json_codec) dev now
                    (stringified (JC := json_codec) (request_body (query s))) g))) = JUndefined)
    by (unfold shown; cbn [response]; rewrite Hr; done).
  unfold gemini_POST. rewrite gemini_request_fields. cbn [to_js_string].
  destruct (generateContent _) as [text|m];
    [rewrite st_map_fst | unfold gemini_error, reply; cbn [fst st_ret]];
    cbn [serve body status]; unfold response_of;
    match goal with
    | |- context [response_json (stringified ?v)] =>
        destruct (reply_field_absent v _ (js "response") eq_refl) as (data & Hd & Hv)
    end;
    [by apply plain_formatted
    |apply (bool_decide_unpack _); vm_compute; reflexivity
    |by rewrite Hd, Hv
    |apply plain_obj; [reflexivity|]; destruct dev; repeat constructor
    |apply (bool_decide_unpack _); vm_compute; reflexivity
    |by rewrite Hd, Hv].
Qed.

End AssistantGemini.

Definition sample_assistant : AssistantState :=
  assistant_step (JC := json_codec (H := decimal_number_format))
    (assistant_step (JC := json_codec (H := decimal_number_format)) initial (Typed (js "Why?")))
    Submit.

Lemma assistant_single_request_witness :
  reachable (JC := json_codec (H := decimal_number_format)) sample_assistant /\
  (length (pending sample_assistant) <= 1)%nat /\
  (loading sample_assistant = true <-> pending sample_assistant <> []).
Proof.
  assert (Hr : reachable (JC := json_codec (H := decimal_number_format)) sample_assistant)
    by (repeat constructor).
  split; [exact Hr|]. exact (assistant_single_request _ Hr).
Defined.

Lemma assistant_shows_no_reply_witness :
  valid_rng half_rng /\
  (let s' := assistant_step (JC := json_codec (H := decimal_number_format)) (handleSubmit initial)
               (Settled 0
                  (serve (JC := json_codec (H := decimal_number_format))
                     (fst (gemini_POST (JC := json_codec (H := decimal_number_format))
                             (PV := canned_provider (js "Severity unknown")) false []
                             (stringified (JC := json_codec (H := decimal_number_format))
                                (request_body [])) half_rng)))) in
   response s' = JUndefined /\ loading s' = false /\ shown s' = None).
Proof.
  split; [apply half_rng_valid|].
  exact (assistant_shows_no_reply (NF := decimal_number_format)
           (PV := canned_provider (js "Severity unknown")) false [] half_rng initial
           half_rng_valid eq_refl eq_refl).
Defined.

End Assistant.
