(* ===== verification/NetworkPage.v ===== *)
(** * The network performance page

    [src/app/network/page.js] ([NetworkDashboard]) as a state machine.
    Its mount effect calls [fetchNetworkData()] and then
    [setInterval(fetchNetworkData, interval)]; but [setInterval] is the
    setter of [const [interval, setInterval] = useState(5000)], so the
    call is a functional state update: React runs [fetchNetworkData] as
    the updater (a second request) and stores the promise it returns as
    the new [interval].  No timer is ever created, and the cleanup
    [clearInterval(undefined)] does nothing.

    As in [Chat], an event runs a handler up to its next [await], and a
    request in flight settles in any order.  A property read inside a
    state updater runs while React renders, outside any [try]: its
    [TypeError] is a crash ([None]). *)

From S2P Require Import Prelude JsString JsValue Json Handlers Client.
From Stdlib Require Import ZArith QArith.
Import JsString JsValue Json Handlers Client.

Module NetworkPage.

(** [x[i]] *)
Definition index_get (v : JsValue) (i : nat) : option JsValue :=
  match v with
  | JUndefined | JNull => None
  | JArray items => Some (default JUndefined (items !! i))
  | JString s => Some (match s !! i with Some c => JString [c] | None => JUndefined end)
  | JObject props => Some (object_get props (nat_to_js i))
  | _ => Some (inherited (nat_to_js i))
  end.

(** The value of [interval]: a number of milliseconds, or the promise
    that [fetchNetworkData] returned when React ran it as an updater. *)
Inductive IntervalState := Millis (ms : Q) | PromiseValue.

Record Series := mkSeries {
  labels : list (list N);
  bandwidth : list JsValue;
  latency : list JsValue;
  packetLoss : list JsValue
}.

Record NetState := mkNet {
  networkData : Series;
  analysis : JsValue;
  interval : IntervalState;
  loading : bool;
  in_flight : list nat;
  fetches : nat;
  mounted : bool
}.

(** The [useState] initial values; the effect has not run yet. *)
Definition initial : NetState :=
  mkNet (mkSeries [] [] [] []) (JString []) (Millis 5000) true [] 0 false.

(** [fetchNetworkData()] up to [await fetch]: [setLoading(true)] and a
    new request. *)
Definition start_fetch (s : NetState) : NetState :=
  mkNet (networkData s) (analysis s) (interval s) true (in_flight s ++ [fetches s])
        (S (fetches s)) (mounted s).

(** The mount effect (its dependency list is empty: it runs once). *)
Definition mount (s : NetState) : NetState :=
  if mounted s then s
  else let s2 := start_fetch (start_fetch s) in
       mkNet (networkData s2) (analysis s2) PromiseValue (loading s2) (in_flight s2)
             (fetches s2) true.

(** [getLatestMetrics]: [arr[arr.length - 1] || 0]. *)
Definition latest (l : list JsValue) : JsValue := js_or (default JUndefined (last l)) (JNumber 0).

(** [arr.slice(-n)]: the last [n] elements. *)
Definition slice_last {A} (n : nat) (l : list A) : list A := drop (length l - n) l.

(** [packetLossBarChartData]: labels and values of the last ten points. *)
Definition packet_loss_bars (d : Series) : list (list N) * list JsValue :=
  (slice_last 10 (labels d), slice_last 10 (packetLoss d)).

(** [pieChartData.datasets[0].data] *)
Definition pie_values (d : Series) : list JsValue :=
  [latest (bandwidth d); latest (latency d); latest (packetLoss d)].

Section NetworkPage.
Context {JC : JsonCodec}.

(** The [data] of a request that passes [response.ok] and
    [response.json()]; [None] when the [try] throws. *)
Definition fetch_data (r : HttpResult) : option JsValue :=
  match r with
  | NetError _ => None
  | Http st text =>
      if response_ok st then
        match response_json text with inl _ => None | inr d => Some d end
      else None
  end.

(** The updater of [setNetworkData]: one point appended to each series,
    labelled with [new Date().toLocaleTimeString()]. *)
Definition append_point (data : JsValue) (now : list N) (prev : Series) : option Series :=
  pd ← get_value data (js "performanceData");
  b ← index_get pd 0;
  l ← index_get pd 1;
  p ← index_get pd 2;
  Some (mkSeries (labels prev ++ [now]) (bandwidth prev ++ [b]) (latency prev ++ [l])
                 (packetLoss prev ++ [p])).

(** [fetchNetworkData] after its [await]s, for request [id]: the point
    and [setAnalysis(data.analysis)], then [setLoading(false)] in
    [finally].  A failed request only clears [loading]. *)
Definition settle (s : NetState) (id : nat) (r : HttpResult) (now : list N) : option NetState :=
  match list_find (fun i => i = id) (in_flight s) with
  | None => Some s
  | Some (k, _) =>
      let rest := delete k (in_flight s) in
      match fetch_data r with
      | None => Some (mkNet (networkData s) (analysis s) (interval s) false rest (fetches s)
                            (mounted s))
      | Some data =>
          nd ← append_point data now (networkData s);
          match get_value data (js "analysis") with
          | Some a => Some (mkNet nd a (interval s) false rest (fetches s) (mounted s))
          | None => None
          end
      end
  end.

Inductive NetEvent :=
| Mount
| Settled (id : nat) (r : HttpResult) (now : list N)
| Select (ms : Q).

Definition net_step (s : NetState) (e : NetEvent) : option NetState :=
  match e with
  | Mount => Some (mount s)
  | Settled id r now => settle s id r now
  | Select ms => Some (mkNet (networkData s) (analysis s) (Millis ms) (loading s) (in_flight s)
                             (fetches s) (mounted s))
  end.

Inductive reachable : NetState -> Prop :=
| reach_init : reachable initial
| reach_step s e s' : reachable s -> net_step s e = Some s' -> reachable s'.

Fixpoint net_run (s : NetState) (es : list NetEvent) : option NetState :=
  match es with
  | [] => Some s
  | e :: es' => s' ← net_step s e; net_run s' es'
  end.

(** One more point on each of the four series. *)
Definition grows (d d' : Series) : Prop :=
  length (labels d') = S (length (labels d)) /\ length (bandwidth d') = S (length (bandwidth d)) /\
  length (latency d') = S (length (latency d)) /\
  length (packetLoss d') = S (length (packetLoss d)).

(** ** The series as a list of points

    The page keeps its history as four parallel arrays.  The abstract
    view is one list of points, each with its time label and the three
    metrics of one response; a settled response appends one point. *)

Record Point := mkPoint {
  at_label : list N;
  at_bandwidth : JsValue;
  at_latency : JsValue;
  at_packetLoss : JsValue
}.

Fixpoint zip4 (ls : list (list N)) (bs ts ps : list JsValue) : list Point :=
  match ls, bs, ts, ps with
  | l :: ls', b :: bs', t :: ts', p :: ps' => mkPoint l b t p :: zip4 ls' bs' ts' ps'
  | _, _, _, _ => []
  end.

(** The abstraction function. *)
Definition points (d : Series) : list Point :=
  zip4 (labels d) (bandwidth d) (latency d) (packetLoss d).

Definition aligned (d : Series) : Prop :=
  length (bandwidth d) = length (labels d) /\ length (latency d) = length (labels d) /\
  length (packetLoss d) = length (labels d).

(** The point a response gives: [data.performanceData[0..2]] and the
    time label, read in the order of the updater. *)
Definition point_of (data : JsValue) (now : list N) : option Point :=
  pd ← get_value data (js "performanceData");
  b ← index_get pd 0;
  l ← index_get pd 1;
  p ← index_get pd 2;
  Some (mkPoint now b l p).

(** The views of the specification: the pie of the latest metrics (0
    for a falsy or missing one) and the last ten packet-loss bars. *)
Definition spec_pie (ps : list Point) : list JsValue :=
  match last ps with
  | Some p => [js_or (at_bandwidth p) (JNumber 0); js_or (at_latency p) (JNumber 0);
               js_or (at_packetLoss p) (JNumber 0)]
  | None => [JNumber 0; JNumber 0; JNumber 0]
  end.

Definition spec_bars (ps : list Point) : list (list N) * list JsValue :=
  (map at_label (slice_last 10 ps), map at_packetLoss (slice_last 10 ps)).

(** ** Lemmas *)

Lemma net_run_reachable s es s' : reachable s -> net_run s es = Some s' -> reachable s'.
Proof.
  revert s. induction es as [|e es IH]; simpl; intros s Hs; [by intros [= <-]|].
  destruct (net_step s e) as [s1|] eqn:E; [|done]. apply IH. by econstructor.
Qed.

Lemma append_point_grows data now d d' : append_point data now d = Some d' -> grows d d'.
Proof.
  unfold append_point, grows. intros H. simplify_option_eq. simpl.
  rewrite !length_app. simpl. lia.
Qed.

Lemma net_settle_cases s id r now s' :
  settle s id r now = Some s' ->
  s' = s \/
  exists k x, in_flight s !! k = Some x /\ in_flight s' = delete k (in_flight s) /\
    fetches s' = fetches s /\ mounted s' = mounted s /\
    (networkData s' = networkData s \/ grows (networkData s) (networkData s')).
Proof.
  unfold settle. destruct (list_find _ _) as [[k x]|] eqn:Ef; intros Hs;
    [|injection Hs as <-; by left].
  apply list_find_Some in Ef as (Hk & _). right. exists k, x.
  destruct (fetch_data r) as [data|]; [|injection Hs as <-; simpl; auto 6].
  destruct (append_point data now (networkData s)) as [nd|] eqn:Ea; simpl in Hs; [|done].
  destruct (get_value data _); [|done]. injection Hs as <-. simpl.
  split_and!; auto. right. by eapply append_point_grows.
Qed.

Lemma mount_data s : networkData (mount s) = networkData s.
Proof. unfold mount. by destruct (mounted s). Qed.

(** The invariant behind [net_no_polling]: every point comes from a
    request that has settled, and only the mount effect starts requests. *)
Lemma net_bound s :
  reachable s ->
  (length (labels (networkData s)) + length (in_flight s) <= fetches s)%nat /\
  (fetches s <= 2)%nat /\ (mounted s = false -> fetches s = 0%nat).
Proof.
  induction 1 as [|s e s' Hs (IH1 & IH2 & IH3) Hstep]; [simpl; lia|].
  destruct e as [|id r now|ms]; simpl in Hstep.
  - injection Hstep as <-. unfold mount. destruct (mounted s) eqn:Hm.
    + rewrite Hm. split_and!; auto.
    + specialize (IH3 eq_refl). simpl. rewrite !length_app. simpl. split_and!; [lia|lia|done].
  - apply net_settle_cases in Hstep as [-> | (k & x & Hk & -> & -> & -> & Hd)]; [auto|].
    destruct (length_delete_lookup _ _ _ Hk).
    destruct Hd as [-> | (Hl & _)]; split_and!; try lia; auto.
  - injection Hstep as <-. simpl. auto.
Qed.

Lemma zip4_snoc ls bs ts ps l b t p :
  length bs = length ls -> length ts = length ls -> length ps = length ls ->
  zip4 (ls ++ [l]) (bs ++ [b]) (ts ++ [t]) (ps ++ [p]) = zip4 ls bs ts ps ++ [mkPoint l b t p].
Proof.
  revert bs ts ps. induction ls as [|l0 ls IH]; intros [|b0 bs] [|t0 ts] [|p0 ps];
    simpl; intros; try discriminate; [done|]. f_equal. apply IH; lia.
Qed.

Lemma map_points d :
  aligned d ->
  map at_label (points d) = labels d /\ map at_bandwidth (points d) = bandwidth d /\
  map at_latency (points d) = latency d /\ map at_packetLoss (points d) = packetLoss d.
Proof.
  destruct d as [ls bs ts ps]. unfold aligned, points; cbn [labels bandwidth latency packetLoss].
  revert bs ts ps. induction ls as [|l ls IH]; intros [|b bs] [|t ts] [|p ps];
    simpl; intros (? & ? & ?); try discriminate; [done|].
  destruct (IH bs ts ps) as (-> & -> & -> & ->); [lia|done].
Qed.

(** [append_point] is the push of the response's point. *)
Lemma append_point_of data now d d' :
  append_point data now d = Some d' ->
  exists p, point_of data now = Some p /\
    d' = mkSeries (labels d ++ [at_label p]) (bandwidth d ++ [at_bandwidth p])
                  (latency d ++ [at_latency p]) (packetLoss d ++ [at_packetLoss p]).
Proof. unfold append_point, point_of. intros H. simplify_option_eq. by eexists. Qed.

Lemma append_point_points data now d d' p :
  aligned d -> append_point data now d = Some d' -> point_of data now = Some p ->
  points d' = points d ++ [p].
Proof.
  intros (Hb & Ht & Hp) Ha Hpt. destruct (append_point_of _ _ _ _ Ha) as (p' & Hp' & ->).
  rewrite Hpt in Hp'. injection Hp' as <-. unfold points. cbn [labels bandwidth latency packetLoss].
  rewrite zip4_snoc by done. by destruct p.
Qed.

(** The invariant behind [net_series_aligned]. *)
Lemma series_aligned_inv s : reachable s -> aligned (networkData s).
Proof.
  induction 1 as [|s e s' Hs IH Hstep]; [done|]. unfold aligned in *.
  destruct e as [|id r now|ms]; simpl in Hstep.
  - injection Hstep as <-. by rewrite mount_data.
  - apply net_settle_cases in Hstep as [-> | (k & x & _ & _ & _ & _ & [-> | (H1 & H2 & H3 & H4)])];
      [done|done|]. lia.
  - by injection Hstep as <-.
Qed.

Lemma view_points d :
  aligned d -> pie_values d = spec_pie (points d) /\ packet_loss_bars d = spec_bars (points d).
Proof.
  intros Ha. destruct (map_points d Ha) as (Hl & Hb & Ht & Hp). split.
  - unfold pie_values, spec_pie, latest. rewrite <- Hb, <- Ht, <- Hp, !last_map.
    by destruct (last (points d)).
  - unfold packet_loss_bars, spec_bars, slice_last. rewrite <- Hl, <- Hp, !length_map, !drop_map.
    reflexivity.
Qed.

(** ** Theorems *)

(** C7: the network page never polls: its only requests are the two
    started on mount (the direct call and the one React makes when it
    runs [fetchNetworkData] as the updater of the shadowing
    [setInterval]), so its series never hold more than two points,
    whatever interval is selected. *)
Theorem net_no_polling s :
  reachable s -> (fetches s <= 2)%nat /\ (length (labels (networkData s)) <= 2)%nat.
Proof.
  intros Hs. destruct (net_bound s Hs) as (H1 & H2 & _). lia.
Qed.

(** The four series of the network page always have the same
    length: every settled request appends to all of them at once. *)
Theorem net_series_aligned s :
  reachable s ->
  length (bandwidth (networkData s)) = length (labels (networkData s)) /\
  length (latency (networkData s)) = length (labels (networkData s)) /\
  length (packetLoss (networkData s)) = length (labels (networkData s)).
Proof. apply series_aligned_inv. Qed.

(** C10: refinement of the list-of-points specification: every step
    of the page either leaves the abstract series alone or, for a
    settled response that passed the ok check and [response.json()],
    appends exactly the point of that response, [performanceData[0..2]]
    with the time label. *)
Theorem net_series_refinement s e s' :
  reachable s -> net_step s e = Some s' ->
  points (networkData s') = points (networkData s) \/
  exists id r now data p, e = Settled id r now /\ fetch_data r = Some data /\
    point_of data now = Some p /\ points (networkData s') = points (networkData s) ++ [p].
Proof.
  intros Hs Hstep. pose proof (series_aligned_inv s Hs) as Ha.
  destruct e as [|id r now|ms]; simpl in Hstep.
  - injection Hstep as <-. left. by rewrite mount_data.
  - unfold settle in Hstep. destruct (list_find _ _) as [[k x]|]; [|injection Hstep as <-; by left].
    destruct (fetch_data r) as [data|] eqn:Ef; [|injection Hstep as <-; by left].
    destruct (append_point data now (networkData s)) as [nd|] eqn:Ea; simpl in Hstep; [|done].
    destruct (get_value data _); [|done]. injection Hstep as <-. right.
    destruct (append_point_of _ _ _ _ Ea) as (p & Hp & _).
    exists id, r, now, data, p. split_and!; try done. cbn [networkData].
    by apply (append_point_points data now (networkData s) nd p).
  - injection Hstep as <-. by left.
Qed.

(** The charts the page derives from its four arrays are the
    views of the specification: the pie shows the latest point's
    metrics (0 when the series is empty or a metric is falsy) and the
    packet-loss bars the last ten points, label beside value. *)
Theorem net_view_points d :
  aligned d -> pie_values d = spec_pie (points d) /\ packet_loss_bars d = spec_bars (points d).
Proof. apply view_points. Qed.

End NetworkPage.

(** ** What the page renders

    The JSX of [NetworkDashboard]: the spinner while [loading], else the
    three metric cards ([bandwidth.toFixed(2)] and so on, on the values
    of [getLatestMetrics]), the interval [<select>], the three line
    charts, the pie, the two bar charts and the AI analysis paragraph
    ([{analysis}], a React child).  [toFixed] exists on numbers only: on
    a string, boolean, array or object read from the response it throws
    and the page crashes ([None]), as does an object placed as a child. *)

Section NetRender.
Context {NF : NumberFormat}.

(** [createChartOptions(title)] and [pieChartOptions]: the title, the
    legend's position, whether the y axis begins at zero ([None]: the
    pie has no y axis) and [maintainAspectRatio] (true by default). *)
Record NetChartOptions := mkNetOptions {
  opt_title : list N;
  opt_legend : list N;
  opt_beginAtZero : option bool;
  opt_maintainAspectRatio : bool
}.

Definition createChartOptions (title : list N) : NetChartOptions :=
  mkNetOptions title (js "top") (Some true) true.

Definition pieChartOptions : NetChartOptions :=
  mkNetOptions (js "Current Network Metrics") (js "right") None false.

(** A chart's [data]: its labels and its datasets, each with its
    [label] (the pie's has none) and values; colours are constants. *)
Record Dataset := mkDataset { ds_label : option (list N); ds_data : list JsValue }.

Record ChartData := mkChartData { cd_labels : list (list N); cd_datasets : list Dataset }.

Definition bandwidthChartData (d : Series) : ChartData :=
  mkChartData (labels d) [mkDataset (Some (js "Bandwidth (Mbps)")) (bandwidth d)].

Definition latencyChartData (d : Series) : ChartData :=
  mkChartData (labels d) [mkDataset (Some (js "Latency (ms)")) (latency d)].

Definition packetLossChartData (d : Series) : ChartData :=
  mkChartData (labels d) [mkDataset (Some (js "Packet Loss (%)")) (packetLoss d)].

Definition pieChartData (d : Series) : ChartData :=
  mkChartData [js "Bandwidth"; js "Latency"; js "Packet Loss"] [mkDataset None (pie_values d)].

Definition barChartData (d : Series) : ChartData :=
  mkChartData (labels d)
    [mkDataset (Some (js "Bandwidth (Mbps)")) (bandwidth d);
     mkDataset (Some (js "Latency (ms)")) (latency d);
     mkDataset (Some (js "Packet Loss (%)")) (packetLoss d)].

Definition packetLossBarChartData (d : Series) : ChartData :=
  mkChartData (packet_loss_bars d).1 [mkDataset (Some (js "Packet Loss (%)")) (packet_loss_bars d).2].

(** The six charts, in the page's order, with their options. *)
Definition net_charts (d : Series) : list (NetChartOptions * ChartData) :=
  [(createChartOptions (js "Bandwidth Over Time"), bandwidthChartData d);
   (createChartOptions (js "Latency Over Time"), latencyChartData d);
   (createChartOptions (js "Packet Loss Over Time"), packetLossChartData d);
   (pieChartOptions, pieChartData d);
   (createChartOptions (js "Network Metrics Comparison"), barChartData d);
   (createChartOptions (js "Packet Loss Distribution"), packetLossBarChartData d)].

Inductive NetView :=
| NetSpinner
| NetDashboard (cards : list (list N)) (selected : IntervalState)
    (charts : list (NetChartOptions * ChartData)) (analysis_text : list N).

(** [v.toFixed(2)] *)
Definition to_fixed_text (v : JsValue) : option (list N) :=
  match v with JNumber q => Some (to_fixed2 q) | _ => None end.

Definition net_render (s : NetState) : option NetView :=
  if loading s then Some NetSpinner else
  let d := networkData s in
  b ← to_fixed_text (latest (bandwidth d));
  l ← to_fixed_text (latest (latency d));
  p ← to_fixed_text (latest (packetLoss d));
  a ← react_text (analysis s);
  Some (NetDashboard [b; l; p] (interval s) (net_charts d) a).

Lemma to_fixed_text_None v : to_fixed_text v = None <-> forall q, v <> JNumber q.
Proof.
  destruct v; simpl; split; intros H; try done; try (intros ? ?; discriminate).
  by destruct (H q).
Qed.

(** C13: once loaded, the page crashes exactly when a metric of the
    specification's pie (the latest point, [|| 0] applied) is not a
    number, so that [toFixed] is missing, or the analysis is not a
    renderable React child. *)
Theorem net_render_crash s :
  reachable s -> loading s = false ->
  (net_render s = None <->
   Exists (fun v => forall q, v <> JNumber q) (spec_pie (points (networkData s))) \/
   react_text (analysis s) = None).
Proof.
  intros Hs Hl. rewrite <- (proj1 (view_points _ (series_aligned_inv s Hs))).
  unfold net_render, pie_values. rewrite Hl, !Exists_cons, Exists_nil, <- !to_fixed_text_None.
  destruct (to_fixed_text _), (to_fixed_text _), (to_fixed_text _), (react_text _);
    simpl; intuition congruence.
Qed.

Lemma slice_last_length {A} n (l : list A) : length (slice_last n l) = Nat.min n (length l).
Proof. unfold slice_last. rewrite length_drop. lia. Qed.

(** C24: every chart the page draws pairs each label with one value:
    in every reachable state each dataset of the three line charts, the
    comparison bars, the pie and the packet-loss bars has exactly as
    many values as its chart has labels, and the packet-loss bars show
    at most ten. *)
Theorem net_charts_paired s :
  reachable s ->
  Forall (fun c => Forall (fun ds => length (ds_data ds) = length (cd_labels c.2)) (cd_datasets c.2))
    (net_charts (networkData s)) /\
  (length (cd_labels (packetLossBarChartData (networkData s))) <= 10)%nat.
Proof.
  intros Hs. destruct (series_aligned_inv s Hs) as (Hb & Ht & Hp).
  unfold net_charts, bandwidthChartData, latencyChartData, packetLossChartData, pieChartData,
    pie_values, barChartData, packetLossBarChartData, packet_loss_bars.
  cbn [cd_labels cd_datasets ds_data fst snd]. rewrite !slice_last_length.
  split; [|lia]. repeat (apply Forall_cons; split); try done;
    cbn [length ds_data cd_labels snd]; rewrite ?slice_last_length; lia.
Qed.

End NetRender.

(** ** Concrete runs *)

Definition sample_events : list NetEvent :=
  [Mount;
   Settled 1 (Http 200 (json_text "{'performanceData': [80, 20, 1], 'analysis': 'Stable.'}"))
     (js "10:00:00 AM");
   Select 1000].

Lemma net_no_polling_witness :
  exists s, net_run (JC := json_codec) initial sample_events = Some s /\
    (fetches s <= 2)%nat /\ (length (labels (networkData s)) <= 2)%nat.
Proof.
  eexists. split; [vm_compute; reflexivity|]. apply net_no_polling.
  apply (net_run_reachable initial sample_events); [constructor|reflexivity].
Defined.

Lemma net_series_aligned_witness :
  exists s, net_run (JC := json_codec) initial sample_events = Some s /\
    length (bandwidth (networkData s)) = length (labels (networkData s)) /\
    length (latency (networkData s)) = length (labels (networkData s)) /\
    length (packetLoss (networkData s)) = length (labels (networkData s)).
Proof.
  eexists. split; [vm_compute; reflexivity|]. apply net_series_aligned.
  apply (net_run_reachable initial sample_events); [constructor|reflexivity].
Defined.

Definition sample_response : HttpResult :=
  Http 200 (json_text "{'performanceData': [80, 20, 1], 'analysis': 'Stable.'}").

Lemma net_series_refinement_witness :
  reachable (JC := json_codec) (mount initial) /\
  exists s', net_step (JC := json_codec) (mount initial)
               (Settled 1 sample_response (js "10:00:00 AM")) = Some s' /\
    (points (networkData s') = points (networkData (mount initial)) \/
     exists id r now data p, Settled 1 sample_response (js "10:00:00 AM") = Settled id r now /\
       fetch_data (JC := json_codec) r = Some data /\ point_of data now = Some p /\
       points (networkData s') = points (networkData (mount initial)) ++ [p]).
Proof.
  assert (Hr : reachable (JC := json_codec) (mount initial)).
  { apply (reach_step initial Mount); [constructor|reflexivity]. }
  split; [exact Hr|].
  eexists. split; [vm_compute; reflexivity|].
  eapply net_series_refinement; [exact Hr|vm_compute; reflexivity].
Defined.

Definition sample_series : Series :=
  mkSeries [js "10:00"; js "10:05"] [JNumber 80; JNumber 75] [JNumber 20; JNumber 0]
           [JNumber 1; JNumber 2].

Lemma net_view_points_witness :
  aligned sample_series /\
  pie_values sample_series = spec_pie (points sample_series) /\
  packet_loss_bars sample_series = spec_bars (points sample_series).
Proof.
  assert (Ha : aligned sample_series) by (split_and!; reflexivity).
  split; [exact Ha|]. exact (net_view_points _ Ha).
Defined.

Definition string_metric_events : list NetEvent :=
  [Mount;
   Settled 1 (Http 200 (json_text "{'performanceData': ['fast', 20, 1], 'analysis': 'Stable.'}"))
     (js "10:00:00 AM")].

Lemma net_render_crash_witness :
  exists s, net_run (JC := json_codec) initial string_metric_events = Some s /\
    loading s = false /\ net_render (NF := decimal_number_format) s = None /\
    (net_render (NF := decimal_number_format) s = None <->
     Exists (fun v => forall q, v <> JNumber q) (spec_pie (points (networkData s))) \/
     react_text (NF := decimal_number_format) (analysis s) = None).
Proof.
  eexists. split; [vm_compute; reflexivity|]. split; [reflexivity|]. split; [vm_compute; reflexivity|].
  apply net_render_crash; [|reflexivity].
  apply (net_run_reachable initial string_metric_events); [constructor|reflexivity].
Defined.

Lemma net_charts_paired_witness :
  exists s, net_run (JC := json_codec) initial sample_events = Some s /\
    Forall (fun c => Forall (fun ds => length (ds_data ds) = length (cd_labels c.2)) (cd_datasets c.2))
      (net_charts (networkData s)) /\
    (length (cd_labels (packetLossBarChartData (networkData s))) <= 10)%nat.
Proof.
  eexists. split; [vm_compute; reflexivity|]. apply (net_charts_paired (NF := decimal_number_format)).
  apply (net_run_reachable initial sample_events); [constructor|reflexivity].
Defined.

End NetworkPage.
