(* ===== verification/SchoolDashboard.v ===== *)
(** * The school network dashboard page

    [src/app/layout/page.jsx] ([Home]) as a state machine: the data,
    insights and alert effects, the chart series and the theme kept in
    [localStorage].

    As in [Chat], an event runs a handler up to its next [await], and a
    request in flight settles in any order.  A property read inside a
    state updater runs while React renders, outside any [try]: its
    [TypeError] is a crash ([None]). *)

From S2P Require Import Prelude JsString JsValue Json Handlers Client.
From Stdlib Require Import ZArith QArith.
Import JsString JsValue Json Handlers Client.

Module SchoolDashboard.

(** StringToNumber, which [>] applies to a string operand ([None] is
    NaN); the code only compares the numbers of [/api/network-data]. *)
Class StringNumber := { string_to_number : list N -> option Q }.

Record DashState := mkDash {
  networkData : JsValue;
  insights : JsValue;
  alerts : list (list N);
  isDarkMode : bool;
  theme_store : option (list N);
  data_requests : list nat;
  insight_requests : list (nat * JsValue);
  next_request : nat;
  mounted : bool
}.

(** The [useState] initial values, with what [localStorage] holds under
    ['theme'] from earlier sessions. *)
Definition initial (saved : option (list N)) : DashState :=
  mkDash JNull (JString []) [] false saved [] [] 0 false.

(** [v?.k] *)
Definition opt_get (v : JsValue) (k : list N) : JsValue :=
  match v with
  | JUndefined | JNull => JUndefined
  | _ => default JUndefined (get_value v k)
  end.

(** The body of [axios.post('/api/insights', {...})]. *)
Definition insights_payload (nd : JsValue) : JsValue :=
  obj [("bandwidth", opt_get nd (js "bandwidth")); ("latency", opt_get nd (js "latency"));
       ("downtime", opt_get nd (js "downtime"))].

Definition alert_text (d : list N) : list N := js "High downtime detected: " ++ d ++ js "%".

Definition failed_insights : list N := js "Failed to load insights.".

(** [response.data] of axios: the parsed JSON, or the text itself when it
    is not JSON. *)
Definition axios_data `{JsonCodec} (text : list N) : JsValue :=
  match json_parse text with inr v => v | inl _ => JString text end.

(** An axios request: [None] when it throws (network error or a status
    outside 200-299). *)
Definition axios_result `{JsonCodec} (r : HttpResult) : option JsValue :=
  match r with
  | NetError _ => None
  | Http st text => if response_ok st then Some (axios_data text) else None
  end.

(** [Object.is] on the values a state can hold: an object is a new one. *)
Definition same_value (a b : JsValue) : bool :=
  match a, b with
  | JUndefined, JUndefined | JNull, JNull => true
  | JBool x, JBool y => Bool.eqb x y
  | JNumber x, JNumber y => Qeq_bool x y
  | JString x, JString y => bool_decide (x = y)
  | _, _ => false
  end.

Section SchoolDashboard.
Context {NF : NumberFormat} {JC : JsonCodec} {SN : StringNumber}.

(** ToNumber, through ToPrimitive for objects: the inner [None] is NaN,
    the outer one the [TypeError] of an object without a usable
    [toString]. *)
Definition to_number (v : JsValue) : option (option Q) :=
  match v with
  | JUndefined => Some None
  | JNull => Some (Some 0%Q)
  | JBool b => Some (Some (if b then 1 else 0)%Q)
  | JNumber q => Some (Some q)
  | JString s => Some (string_to_number s)
  | _ => string_to_number <$> to_js_string v
  end.

(** [v > 5] *)
Definition greater_than_5 (v : JsValue) : option bool :=
  match to_number v with
  | Some (Some q) => Some (negb (Qle_bool q 5))
  | Some None => Some false
  | None => None
  end.

(** The effects that depend on [networkData], in their order: the
    insights request when [networkData] is truthy, then the alert. *)
Definition data_effects (s : DashState) : option DashState :=
  let nd := networkData s in
  let s1 := if to_boolean nd
            then mkDash nd (insights s) (alerts s) (isDarkMode s) (theme_store s) (data_requests s)
                        (insight_requests s ++ [(next_request s, insights_payload nd)])
                        (S (next_request s)) (mounted s)
            else s in
  match greater_than_5 (opt_get nd (js "downtime")) with
  | None => None
  | Some false => Some s1
  | Some true =>
      d ← to_js_string (opt_get nd (js "downtime"));
      Some (mkDash nd (insights s1) [alert_text d] (isDarkMode s1) (theme_store s1)
                   (data_requests s1) (insight_requests s1) (next_request s1) (mounted s1))
  end.

(** The mount: the data request, the [networkData] effects (on [null]:
    nothing), and the saved theme. *)
Definition mount (s : DashState) : option DashState :=
  if mounted s then Some s
  else
    let s1 := mkDash (networkData s) (insights s) (alerts s) (isDarkMode s) (theme_store s)
                     (data_requests s ++ [next_request s]) (insight_requests s)
                     (S (next_request s)) (mounted s) in
    s2 ← data_effects s1;
    Some (mkDash (networkData s2) (insights s2) (alerts s2)
                 (if bool_decide (theme_store s2 = Some (js "dark")) then true else isDarkMode s2)
                 (theme_store s2) (data_requests s2) (insight_requests s2) (next_request s2) true).

(** [fetchData] after [await axios.get]: [setNetworkData(response.data)];
    the effects run again when the value changed. *)
Definition data_settled (s : DashState) (id : nat) (r : HttpResult) : option DashState :=
  match list_find (fun i => i = id) (data_requests s) with
  | None => Some s
  | Some (k, _) =>
      let rest := delete k (data_requests s) in
      match axios_result r with
      | None => Some (mkDash (networkData s) (insights s) (alerts s) (isDarkMode s) (theme_store s)
                             rest (insight_requests s) (next_request s) (mounted s))
      | Some d =>
          let s1 := mkDash d (insights s) (alerts s) (isDarkMode s) (theme_store s) rest
                           (insight_requests s) (next_request s) (mounted s) in
          if same_value d (networkData s) then Some s1 else data_effects s1
      end
  end.

(** [fetchInsights] after [await axios.post]: [response.data.insights],
    or the failure text from the [catch]. *)
Definition insights_settled (s : DashState) (id : nat) (r : HttpResult) : DashState :=
  match list_find (fun p => p.1 = id) (insight_requests s) with
  | None => s
  | Some (k, _) =>
      let shown := match axios_result r with
                   | Some d => default (JString failed_insights) (get_value d (js "insights"))
                   | None => JString failed_insights
                   end in
      mkDash (networkData s) shown (alerts s) (isDarkMode s) (theme_store s) (data_requests s)
             (delete k (insight_requests s)) (next_request s) (mounted s)
  end.

(** [toggleTheme]: the mode flips and the store gets the new mode's name,
    computed from the old value.  React runs the mount effects before it
    handles a click. *)
Definition toggleTheme (s : DashState) : DashState :=
  if mounted s then
    mkDash (networkData s) (insights s) (alerts s) (negb (isDarkMode s))
           (Some (if isDarkMode s then js "light" else js "dark")) (data_requests s)
           (insight_requests s) (next_request s) (mounted s)
  else s.

Inductive DashEvent :=
| Mount
| DataSettled (id : nat) (r : HttpResult)
| InsightsSettled (id : nat) (r : HttpResult)
| Toggle.

Definition dash_step (s : DashState) (e : DashEvent) : option DashState :=
  match e with
  | Mount => mount s
  | DataSettled id r => data_settled s id r
  | InsightsSettled id r => Some (insights_settled s id r)
  | Toggle => Some (toggleTheme s)
  end.

Inductive reachable (saved : option (list N)) : DashState -> Prop :=
| reach_init : reachable saved (initial saved)
| reach_step s e s' : reachable saved s -> dash_step s e = Some s' -> reachable saved s'.

(** [{insights || 'Loading insights...'}] *)
Definition shown_insights (s : DashState) : JsValue :=
  js_or (insights s) (JString (js "Loading insights...")).

(** [Array(7).fill(networkData?.bandwidth || 0)] and the two other
    datasets. *)
Definition chart_data (s : DashState) : list (list JsValue) :=
  map (fun k => repeat (js_or (opt_get (networkData s) (js k)) (JNumber 0)) 7)
      ["bandwidth"; "latency"; "downtime"].

Fixpoint dash_run (s : DashState) (es : list DashEvent) : option DashState :=
  match es with
  | [] => Some s
  | e :: es' => s' ← dash_step s e; dash_run s' es'
  end.

Lemma dash_run_reachable saved s es s' :
  reachable saved s -> dash_run s es = Some s' -> reachable saved s'.
Proof.
  revert s. induction es as [|e es IH]; intros s Hr; simpl; [by intros [= <-]|].
  destruct (dash_step s e) as [s1|] eqn:E; [|done]. apply IH. by econstructor.
Qed.

(** The theme fields and the mount flag, which only [mount] and
    [toggleTheme] change. *)
Definition theme_of (s : DashState) : bool * option (list N) * bool :=
  (isDarkMode s, theme_store s, mounted s).

Lemma data_effects_theme s s' :
  data_effects s = Some s' -> theme_of s' = theme_of s /\ networkData s' = networkData s.
Proof.
  unfold data_effects, theme_of.
  destruct (to_boolean (networkData s)), (greater_than_5 _) as [[]|]; simpl; try done;
    try destruct (to_js_string _); simpl; intros; simplify_eq; done.
Qed.

Lemma data_settled_theme s id r s' :
  data_settled s id r = Some s' -> theme_of s' = theme_of s.
Proof.
  unfold data_settled. destruct (list_find _ _) as [[k ?]|]; [|intros; by simplify_eq].
  destruct (axios_result r) as [d|]; [|intros; by simplify_eq].
  destruct (same_value _ _); [intros; by simplify_eq|].
  intros Hd. by rewrite (proj1 (data_effects_theme _ _ Hd)).
Qed.

Lemma insights_settled_theme s id r : theme_of (insights_settled s id r) = theme_of s.
Proof. unfold insights_settled. by destruct (list_find _ _) as [[]|]. Qed.

(** The theme invariant: before the mount the page is light; after it
    the page is dark exactly when the store says ['dark']. *)
Definition theme_ok (s : DashState) : Prop :=
  if mounted s then isDarkMode s = true <-> theme_store s = Some (js "dark")
  else isDarkMode s = false.

Lemma theme_ok_congr s s' : theme_of s' = theme_of s -> theme_ok s -> theme_ok s'.
Proof. unfold theme_of, theme_ok. intros [= -> -> ->]. done. Qed.

Lemma mount_theme s s' : theme_ok s -> mount s = Some s' -> theme_ok s'.
Proof.
  unfold mount. destruct (mounted s) eqn:Em; [intros ? [= <-]; done|].
  unfold theme_ok. rewrite Em. intros Hd.
  destruct (data_effects _) as [s2|] eqn:E2; [|done]. intros [= <-].
  destruct (data_effects_theme _ _ E2) as [Ht _]. unfold theme_of in Ht; simpl in Ht.
  injection Ht as -> -> _. simpl.
  case_bool_decide as Hs; [split; done|]. rewrite Hd. split; [done|contradiction].
Qed.

Lemma toggle_theme s : theme_ok s -> theme_ok (toggleTheme s).
Proof.
  unfold toggleTheme, theme_ok. destruct (mounted s) eqn:Em; [|by rewrite Em].
  intros _. cbn [mounted isDarkMode theme_store]. destruct (isDarkMode s); cbn [negb]; split; try done.
Qed.

End SchoolDashboard.

(** ** What the page renders

    The JSX of [Home]: the root [className] with [dark] in dark mode,
    the theme button's icon ([isDarkMode ? '🌙' : '☀️'], UTF-16 code
    units), the line chart of [chartData], the insights paragraph
    ([{insights || 'Loading insights...'}], a React child that throws on
    an object) and the alerts panel: one box per alert, or the fixed
    'No issues detected.' box when [alerts] is empty. *)

Section DashRender.
Context {NF : NumberFormat}.

Inductive AlertsView := AlertBoxes (boxes : list (list N)) | NoIssues.

Record DashView := mkDashView {
  root_dark : bool;
  theme_icon : list N;
  chart_series : list (list JsValue);
  insights_text : list N;
  alerts_panel : AlertsView
}.

Definition moon : list N := [55356%N; 57113%N].
Definition sun : list N := [9728%N; 65039%N].

(** [alerts.length > 0 ? alerts.map(...) : <div>No issues detected.</div>] *)
Definition alerts_view (l : list (list N)) : AlertsView :=
  if bool_decide (0 < length l)%nat then AlertBoxes l else NoIssues.

Definition dash_render (s : DashState) : option DashView :=
  t ← react_text (shown_insights s);
  Some (mkDashView (isDarkMode s) (if isDarkMode s then moon else sun) (chart_data s) t
                   (alerts_view (alerts s))).

End DashRender.

Section DashboardTheorems.
Context {NF : NumberFormat} {JC : JsonCodec} {SN : StringNumber}.

(** C21: [toggleTheme] stores the new mode, and the mount reads it back:
    in every reachable state after the mount the page is dark exactly
    when [localStorage] holds ['dark']. *)
Theorem dash_theme_persisted saved s :
  reachable saved s -> mounted s = true ->
  (isDarkMode s = true <-> theme_store s = Some (js "dark")).
Proof.
  intros Hr Hm. enough (Hok : theme_ok s) by (unfold theme_ok in Hok; by rewrite Hm in Hok).
  clear Hm. induction Hr as [|s e s' _ IH Hs]; [done|].
  destruct e; simpl in Hs.
  - by apply (mount_theme s).
  - apply (theme_ok_congr s); [by eapply data_settled_theme|done].
  - injection Hs as <-. apply (theme_ok_congr s); [apply insights_settled_theme|done].
  - injection Hs as <-. by apply toggle_theme.
Qed.

Lemma mount_initial saved :
  mount (initial saved) =
  Some (mkDash JNull (JString []) [] (bool_decide (saved = Some (js "dark"))) saved [0%nat] [] 1 true).
Proof. unfold mount, data_effects, initial. simpl. by case_bool_decide. Qed.

(** C22: the data the page fetches on mount decides the alert and the
    insights request: with a [200] body that parses to an object whose
    [downtime] is the number [q], the page posts the three fields to
    [/api/insights] and shows an alert exactly when [q > 5]. *)
Theorem dash_downtime_alert saved text props q :
  json_parse text = inr (JObject props) ->
  object_get props (js "downtime") = JNumber q ->
  exists s, dash_run (initial saved) [Mount; DataSettled 0 (Http 200 text)] = Some s /\
    alerts s = (if Qle_bool q 5 then [] else [alert_text (number_to_string q)]) /\
    insight_requests s = [(1%nat, insights_payload (JObject props))] /\
    data_requests s = [].
Proof.
  intros Hp Hq. cbn [dash_run dash_step]. rewrite mount_initial. cbn [mbind option_bind].
  unfold data_settled. cbn [data_requests list_find]. simpl (axios_result _).
  unfold axios_data. rewrite Hp. cbn [same_value networkData].
  unfold data_effects. cbn [networkData to_boolean opt_get default get_value].
  rewrite Hq. unfold greater_than_5, to_number, id. case_decide; [|done].
  destruct (Qle_bool q 5); cbn; eexists; (split; [reflexivity|]); cbn; auto.
Qed.

End DashboardTheorems.

(** StringToNumber on the decimal numerals that [JSON.stringify] writes. *)
#[export] Instance decimal_string_number : StringNumber :=
  {| string_to_number t := match json_parse_text t with inr (JNumber q) => Some q | _ => None end |}.

Lemma dash_theme_persisted_witness :
  exists s, dash_run (NF := decimal_number_format) (JC := json_codec)
              (initial (Some (js "dark"))) [Mount; Toggle] = Some s /\
    mounted s = true /\ (isDarkMode s = true <-> theme_store s = Some (js "dark")).
Proof.
  eexists. split; [vm_compute; reflexivity|]. split; [reflexivity|].
  apply (dash_theme_persisted (Some (js "dark"))); [|reflexivity].
  apply (dash_run_reachable _ (initial (Some (js "dark"))) [Mount; Toggle]); [constructor|reflexivity].
Defined.

Lemma dash_downtime_alert_witness :
  exists s, dash_run (NF := decimal_number_format) (JC := json_codec) (initial None)
      [Mount; DataSettled 0 (Http 200 (json_text "{'bandwidth': 40, 'latency': 120, 'downtime': 7}"))]
      = Some s /\
    alerts s = [alert_text (js "7")] /\
    insight_requests s = [(1%nat, insights_payload (obj [("bandwidth", JNumber 40);
                                 ("latency", JNumber 120); ("downtime", JNumber 7)]))] /\
    data_requests s = [].
Proof.
  destruct (dash_downtime_alert None
              (json_text "{'bandwidth': 40, 'latency': 120, 'downtime': 7}")
              [(js "bandwidth", JNumber 40); (js "latency", JNumber 120); (js "downtime", JNumber 7)] 7)
    as [s Hs]; [vm_compute; reflexivity|vm_compute; reflexivity|].
  exists s. vm_compute in Hs. vm_compute. exact Hs.
Defined.

End SchoolDashboard.
