(* ===== verification/Charts.v ===== *)
(** * The chart components and the dashboard's loading timer

    [NetworkStatusChart.jsx] and [LearningProgressChart.jsx], which fetch
    [/api/dashboard-data] once mounted, and [Dashboard.jsx], which mounts
    them when its 1500 ms timer fires.

    As in [Chat], an event runs a handler up to its next [await], and a
    request in flight settles in any order.  A property read inside a
    state updater runs while React renders, outside any [try]: its
    [TypeError] is a crash ([None]). *)

From S2P Require Import Prelude JsString JsValue Json Handlers Client.
From Stdlib Require Import ZArith QArith.
Import JsString JsValue Json Handlers Client.

Module Charts.

(** A chart's data: its labels and its dataset's [data] (the dataset's
    colours are constants of the component). *)
Record ChartState := mkChart { chart_labels : list JsValue; chart_data : list JsValue }.

Definition chart_initial : ChartState := mkChart [] [].

(** Which array of [/api/dashboard-data] a chart reads, and which two
    fields of its items. *)
Record ChartKeys := mkKeys { list_key : list N; label_key : list N; value_key : list N }.

Definition network_status_keys : ChartKeys :=
  mkKeys (js "networkStatus") (js "school") (js "uptime").

Definition learning_progress_keys : ChartKeys :=
  mkKeys (js "learningProgress") (js "week") (js "progress").

(** The two chart components, and the keys each reads. *)
Inductive Chart := NetworkStatusChart | LearningProgressChart.

#[export] Instance Chart_eq_dec : EqDecision Chart.
Proof. solve_decision. Defined.

Definition keys_of (ch : Chart) : ChartKeys :=
  match ch with
  | NetworkStatusChart => network_status_keys
  | LearningProgressChart => learning_progress_keys
  end.

(** [data.<lk>.map((item) => item.<k>)]: [None] is the [TypeError] of a
    missing array or of a [null] item. *)
Definition pluck (data : JsValue) (lk k : list N) : option (list JsValue) :=
  match get_value data lk with
  | Some (JArray items) => mapM (fun item => get_value item k) items
  | _ => None
  end.

(** The module-level [options] of each component, as far as they decide
    what is drawn: the title, the y axis (beginning at zero, [max: 100])
    and its tick callback [(value) => value + "%"].  Legend and font
    settings are styling. *)
Record ChartOptions := mkOptions {
  chart_title : list N;
  y_beginAtZero : bool;
  y_max : Q
}.

Definition network_status_options : ChartOptions :=
  mkOptions (js "School Network Status") true 100.

Definition learning_progress_options : ChartOptions :=
  mkOptions (js "Learning Progress Over Time") true 100.

Definition options_of (ch : Chart) : ChartOptions :=
  match ch with
  | NetworkStatusChart => network_status_options
  | LearningProgressChart => learning_progress_options
  end.

(** [callback: (value) => value + "%"]: a number plus a string is the
    number's [ToString] followed by the string. *)
Definition tick_label `{NumberFormat} (value : Q) : list N := number_to_string value ++ js "%".

(** A value Chart.js draws inside the axis: a number, not above [max]
    (below zero the axis grows, since [beginAtZero] only adds 0 to the
    range), and here also not below zero, so that the axis stays the
    fixed [0, max] the options describe. *)
Definition within_axis (o : ChartOptions) (v : JsValue) : bool :=
  match v with
  | JNumber q => Qle_bool 0 q && Qle_bool q (y_max o)
  | _ => false
  end.

(** The settings of each chart's single dataset in its initial state,
    kept by the [...chartData.datasets[0]] spread when the data arrive:
    the [label], the [borderWidth] (1 by default), whether the area is
    filled and the curve's [tension] (0 by default); colours are
    styling. *)
Record DatasetStyle := mkStyle {
  style_label : list N;
  style_borderWidth : Q;
  style_fill : bool;
  style_tension : Q
}.

Definition status_dataset : DatasetStyle := mkStyle (js "Network Uptime (%)") 2 false 0.

Definition progress_dataset : DatasetStyle := mkStyle (js "Average Student Progress") 1 true (4 # 10).

Definition dataset_of (ch : Chart) : DatasetStyle :=
  match ch with
  | NetworkStatusChart => status_dataset
  | LearningProgressChart => progress_dataset
  end.

Definition dataset_label (ch : Chart) : list N := style_label (dataset_of ch).

(** What a chart component hands to react-chartjs-2:
    [<Bar options={options} data={chartData} />] (a [<Line>] for the
    progress chart). *)
Record ChartView := mkChartView {
  view_options : ChartOptions;
  view_labels : list JsValue;
  view_dataset_label : list N;
  view_data : list JsValue
}.

Definition chart_view (ch : Chart) (c : ChartState) : ChartView :=
  mkChartView (options_of ch) (chart_labels c) (dataset_label ch) (chart_data c).

Section Charts.
Context {JC : JsonCodec}.

(** [fetchData] after [await fetch]: no [response.ok] test; every
    failure lands in the [catch], which leaves the chart as it was. *)
Definition chart_settle (ks : ChartKeys) (c : ChartState) (r : HttpResult) : ChartState :=
  match r with
  | NetError _ => c
  | Http _ text =>
      match response_json text with
      | inl _ => c
      | inr data =>
          match pluck data (list_key ks) (label_key ks), pluck data (list_key ks) (value_key ks) with
          | Some labels, Some values => mkChart labels values
          | _, _ => c
          end
      end
  end.

(** [Dashboard]: the spinner while [isLoading]; the two charts mount,
    and send their request, when the 1500 ms timer fires.  [None] is a
    chart not mounted; [timer] the timeout still set. *)
Record DashboardState := mkDashboard {
  isLoading : bool;
  timer : bool;
  status_chart : option ChartState;
  progress_chart : option ChartState;
  requests : list Chart
}.

Definition dashboard_initial : DashboardState := mkDashboard true false None None [].

Inductive DashboardEvent :=
| Mount
| TimerFired
| Unmount
| ChartSettled (ch : Chart) (r : HttpResult).

(** A chart a response is for, if it is mounted and waits for it. *)
Definition settle_into (ch : Chart) (r : HttpResult) (c : option ChartState) :=
  (fun c => chart_settle (keys_of ch) c r) <$> c.

Definition dashboard_step (s : DashboardState) (e : DashboardEvent) : DashboardState :=
  match e with
  | Mount => if isLoading s then mkDashboard true true (status_chart s) (progress_chart s) (requests s)
             else s
  | TimerFired =>
      if timer s then
        mkDashboard false false (Some chart_initial) (Some chart_initial)
                    (requests s ++ [NetworkStatusChart; LearningProgressChart])
      else s
  | Unmount => mkDashboard (isLoading s) false (status_chart s) (progress_chart s) (requests s)
  | ChartSettled ch r =>
      match list_find (fun k => k = ch) (requests s) with
      | None => s
      | Some (i, _) =>
          let rest := delete i (requests s) in
          if decide (ch = NetworkStatusChart) then
            mkDashboard (isLoading s) (timer s) (settle_into ch r (status_chart s))
                        (progress_chart s) rest
          else
            mkDashboard (isLoading s) (timer s) (status_chart s)
                        (settle_into ch r (progress_chart s)) rest
      end
  end.

Inductive reachable : DashboardState -> Prop :=
| reach_init : reachable dashboard_initial
| reach_step s e : reachable s -> reachable (dashboard_step s e).

Definition dashboard_run (s : DashboardState) (es : list DashboardEvent) : DashboardState :=
  fold_left dashboard_step es s.

Lemma dashboard_run_reachable s es : reachable s -> reachable (dashboard_run s es).
Proof.
  revert s. induction es as [|e es IH]; intros s Hr; simpl; [done|]. apply IH. by constructor.
Qed.

(** The phases of [Dashboard]: the spinner with no chart, or both
    charts mounted, each with at most its one request in flight. *)
Definition dashboard_ok (s : DashboardState) : Prop :=
  (isLoading s = true /\ status_chart s = None /\ progress_chart s = None /\ requests s = []) \/
  (isLoading s = false /\ timer s = false /\ is_Some (status_chart s) /\
   is_Some (progress_chart s) /\ NoDup (requests s)).

Lemma settle_into_some ch r c : is_Some c -> is_Some (settle_into ch r c).
Proof. intros [x ->]. by eexists. Qed.

Lemma dashboard_step_ok s e : dashboard_ok s -> dashboard_ok (dashboard_step s e).
Proof.
  intros [(Hl & Hs & Hp & Hr)|(Hl & Ht & Hs & Hp & Hnd)]; destruct e; simpl;
    rewrite ?Hl, ?Hr, ?Hs, ?Hp; simpl.
  - by left.
  - destruct (timer s); [right; repeat split; try (by eexists)|by left].
    simpl. apply (bool_decide_unpack _). reflexivity.
  - by left.
  - by left.
  - by right.
  - rewrite Ht. by right.
  - right. repeat split; done.
  - destruct (list_find _ _) as [[i ?]|]; [|by right].
    destruct (decide _); right; repeat split; try done;
      try apply settle_into_some; try done; by apply NoDup_delete.
Qed.

Lemma reachable_dashboard_ok s : reachable s -> dashboard_ok s.
Proof. induction 1; [by left|by apply dashboard_step_ok]. Qed.

End Charts.

Section ChartTheorems.
Context {JC : JsonCodec}.

(** C23: the charts wait for the spinner: while [isLoading] no chart is
    mounted and no request to [/api/dashboard-data] is sent; once the
    timer has fired both charts are mounted and each has at most one
    request in flight. *)
Theorem dashboard_charts_wait s :
  reachable s ->
  (isLoading s = true -> status_chart s = None /\ progress_chart s = None /\ requests s = []) /\
  (isLoading s = false -> is_Some (status_chart s) /\ is_Some (progress_chart s) /\
                          NoDup (requests s)).
Proof.
  intros Hr. destruct (reachable_dashboard_ok s Hr) as [(Hl & H)|(Hl & _ & H)];
    rewrite Hl; split; intros; done.
Qed.

End ChartTheorems.

(** The array of [/api/dashboard-data] a chart shows. *)
Definition route_items (ch : Chart) : list JsValue :=
  match ch with
  | NetworkStatusChart => networkStatus
  | LearningProgressChart => learningProgress
  end.

(** End to end with [JSON.stringify] and [JSON.parse]: the reply of
    [/api/dashboard-data] reaches each chart as the label and the value
    of every item of its array, in the route's order and with the
    route's numbers. *)
Theorem charts_show_dashboard_data ch c :
  chart_settle (JC := json_codec (H := decimal_number_format)) (keys_of ch) c
    (serve (JC := json_codec (H := decimal_number_format)) dashboard_data_GET) =
  mkChart (map (fun it => default JUndefined (get_value it (label_key (keys_of ch)))) (route_items ch))
          (map (fun it => default JUndefined (get_value it (value_key (keys_of ch)))) (route_items ch)).
Proof. destruct ch; vm_compute; reflexivity. Qed.

(** End to end with [/api/dashboard-data], every value each chart
    draws is a number on its fixed y axis [0, max] ([max: 100] in the
    component's options): no bar or point is clipped and the axis never
    grows past the options. *)
Lemma charts_values_within_axis ch c :
  forallb (within_axis (options_of ch))
    (chart_data (chart_settle (JC := json_codec (H := decimal_number_format)) (keys_of ch) c
       (serve (JC := json_codec (H := decimal_number_format)) dashboard_data_GET))) = true.
Proof. destruct ch; vm_compute; reflexivity. Qed.

Definition sample_dashboard : DashboardState :=
  dashboard_run (JC := json_codec (H := decimal_number_format)) dashboard_initial
    [Mount; TimerFired; ChartSettled NetworkStatusChart (Http 500 [])].

Lemma dashboard_charts_wait_witness :
  reachable (JC := json_codec (H := decimal_number_format)) sample_dashboard /\
  isLoading sample_dashboard = false /\
  (is_Some (status_chart sample_dashboard) /\ is_Some (progress_chart sample_dashboard) /\
   NoDup (requests sample_dashboard)).
Proof.
  assert (Hr : reachable (JC := json_codec (H := decimal_number_format)) sample_dashboard)
    by (apply dashboard_run_reachable; constructor).
  split; [exact Hr|]. split; [reflexivity|].
  exact (proj2 (dashboard_charts_wait _ Hr) eq_refl).
Defined.

End Charts.

