(* ===== verification/Landing.v ===== *)
(** * The landing page and the root layout

    [src/app/page.js] ([Home]) renders [Hero] and [Dashboard], and
    [Dashboard] renders, below its spinner or its two charts, the
    [AiAssistant] widget.  [src/app/layout.js] wraps every page in
    [<html lang="en"><body className={inter.className}>] and exports the
    site's [metadata].

    [Hero] has no state: it is the view [hero].  The page's state is the
    product of the Dashboard's state ([Charts.DashboardState]: the
    timer, the two charts and their requests) and the widget's
    ([Assistant.AssistantState]); an event is addressed to one of them
    and steps it alone ([home_step]), so the two run interleaved in any
    order.  [home_view] is what the page renders. *)

From S2P Require Import Prelude JsString JsValue Json Handlers Client Routes Assistant Charts.
From Stdlib Require Import ZArith QArith.
Import JsString JsValue Json Handlers Client Routes Assistant Charts.

Module Landing.

(** [export const metadata] *)
Record Metadata := mkMetadata { title : list N; description : list N }.

Definition metadata : Metadata :=
  mkMetadata (js "EduNet Optimizer")
             (js "Connecting underserved schools to the power of AI and the internet").

(** [RootLayout({ children })], with the class name the [Inter] font
    loader gives. *)
Record Document (A : Type) := mkDocument { html_lang : list N; body_class : list N; body : A }.
Arguments mkDocument {A}.

Definition RootLayout {A} (inter_className : list N) (children : A) : Document A :=
  mkDocument (js "en") inter_className children.

(** [Hero]: the heading, the tagline and the two links, [href] and
    button text ([{" "}] puts a space before the second). *)
Record HeroView := mkHero { heading : list N; tagline : list N; links : list (list N * list N) }.

Definition hero : HeroView :=
  mkHero (js "AI-Powered EduNet Optmizer")
         (js "Connecting underserved schools to the power of AI and the internet")
         [(js "/chatbot", js "AI Tutor"); (js "/network", js " Network Dashboard")].

(** [AiAssistant]'s render: the input's value, the submit button's
    text and [disabled], and the response box ([shown]). *)
Record AssistantView := mkAssistantView {
  av_query : list N;
  av_button : list N;
  av_disabled : bool;
  av_response : option JsValue
}.

Definition assistant_view (s : AssistantState) : AssistantView :=
  mkAssistantView (query s)
    (if loading s then js "Thinking..." else js "Ask Learning Assistant")
    (loading s) (shown s).

(** [Dashboard]'s render: the spinner while [isLoading], else the two
    charts (a chart not mounted is [None]). *)
Inductive DashboardView :=
| Spinner
| ChartsShown (status progress : option ChartView).

Definition dashboard_view (s : DashboardState) : DashboardView :=
  if isLoading s then Spinner
  else ChartsShown (chart_view NetworkStatusChart <$> status_chart s)
                   (chart_view LearningProgressChart <$> progress_chart s).

Record HomeView := mkHomeView {
  hero_part : HeroView;
  dashboard_part : DashboardView;
  assistant_part : AssistantView
}.

Record HomeState := mkHome { dash : DashboardState; widget : AssistantState }.

Definition home_initial : HomeState := mkHome dashboard_initial Assistant.initial.

Inductive HomeEvent :=
| DashboardEv (e : DashboardEvent)
| AssistantEv (e : AssistantEvent).

Section Home.
Context {JC : JsonCodec}.

Definition home_step (s : HomeState) (e : HomeEvent) : HomeState :=
  match e with
  | DashboardEv e => mkHome (dashboard_step (dash s) e) (widget s)
  | AssistantEv e => mkHome (dash s) (assistant_step (widget s) e)
  end.

Inductive home_reachable : HomeState -> Prop :=
| home_reach_init : home_reachable home_initial
| home_reach_step s e : home_reachable s -> home_reachable (home_step s e).

Definition home_view (s : HomeState) : HomeView :=
  mkHomeView hero (dashboard_view (dash s)) (assistant_view (widget s)).

(** ** The composition projects to the components *)

Lemma home_reachable_components s :
  home_reachable s -> Charts.reachable (dash s) /\ Assistant.reachable (widget s).
Proof.
  induction 1 as [|s [e|e] Hs [Hd Hw]]; simpl.
  - split; constructor.
  - split; [by constructor|done].
  - split; [done|by constructor].
Qed.

End Home.

(** The landing page's links lead to pages of the app: the pages
    are [/], [/chatbot], [/network] and [/layout] (the school dashboard,
    in a folder named [layout]), the hero links the first two beside
    [/], and [/layout] is linked from nowhere.  The hero's tagline is
    the site description verbatim, but its heading misspells the site
    title ("Optmizer"). *)
Lemma landing_navigation :
  page_routes = [js "/"; js "/chatbot"; js "/network"; js "/layout"] /\
  Forall (fun l => l.1 ∈ page_routes) (links hero) /\ (js "/layout" ∉ (links hero).*1) /\
  tagline hero = description metadata /\ heading hero <> (js "AI-Powered " ++ title metadata).
Proof. split_and!; apply (bool_decide_unpack _); vm_compute; reflexivity. Qed.

End Landing.
